(** * a2a-demo: the JSON-RPC envelope, the task lifecycle and the orchestrator

    A shallow embedding of the protocol core of the repository
    ([models/jsonrpc.py], [models/task.py], [models/agent_card.py],
    [agents/base_agent.py], [agents/orchestrator_agent.py],
    [agents/translator_agent.py] and [client/a2a_client.py]), the
    properties its specification states about it, and further properties
    of the code: of the POST route, of the task store, of the wire
    encodings, and of a client and an orchestrator that talk to an agent.

    Conventions of the embedding.
    - A Python value that travels through JSON is a [json].  Python checks no
      annotation at run time, so a dataclass field annotated [str] or
      [Optional[Dict]] holds whatever JSON value the caller put there; such
      fields have type [json], and [JNull] is Python's [None].  Fields that
      every construction site of the repository fills through an enum
      constructor or a list comprehension have the enum or list type.
    - JSON numbers are integers; strings are sequences of code points below
      256 (the type [string] of the Standard Library).
    - A [dict] is an association list in insertion order, as Python keeps it.
    - What the repository calls but does not define (the interpreter's [repr]
      and error texts, the wall clock, the uuid source, the HTTP transport,
      standard output) is an [env], passed explicitly.
    - Code runs in a state-and-exception monad over the state of one
      process; a raised exception keeps the mutations made before it. *)

From Stdlib Require Import String Ascii List ZArith NArith Bool Lia PeanoNat.
Import ListNotations.
Local Open Scope string_scope.
Local Open Scope list_scope.

(* ================================================================== *)
(** * JSON values and Python's view of them *)
(* ================================================================== *)

Unset Elimination Schemes.
Inductive json : Type :=
| JNull
| JBool (b : bool)
| JInt (z : Z)
| JStr (s : string)
| JArr (l : list json)
| JObj (kvs : list (string * json)).
Set Elimination Schemes.

(** [bool(v)] for a JSON value. *)
Definition truthy (v : json) : bool :=
  match v with
  | JNull => false
  | JBool b => b
  | JInt z => negb (z =? 0)%Z
  | JStr s => negb (s =? EmptyString)
  | JArr l => match l with [] => false | _ => true end
  | JObj kvs => match kvs with [] => false | _ => true end
  end.

(** [v or {}]. *)
Definition or_empty (v : json) : json :=
  if truthy v then v else JObj [].

Definition is_none (v : json) : bool :=
  match v with JNull => true | _ => false end.

(** [v == s] for a string literal [s]. *)
Definition eq_str (v : json) (s : string) : bool :=
  match v with JStr s' => (s' =? s) | _ => false end.

(** Exceptions.  [ValueError], [RequestException] and [External] (a plain
    [Exception], or whatever a collaborator raises) carry their text; the
    text of the others is worded by the interpreter and its libraries. *)
Inductive exn : Type :=
| ValueError (msg : string)
| KeyError (key : json)
| EnumError (cls : string) (v : json)
| TypeError (op : string) (v : json)
| AttributeError (v : json) (attr : string)
| RequestException (msg : string)
| HTTPError (status_code : Z)
| External (msg : string).

Inductive outcome (A : Type) : Type :=
| Ok (a : A)
| Raise (e : exn).
Arguments Ok {A} a.
Arguments Raise {A} e.

(** Is the exception an instance of [requests.exceptions.RequestException]? *)
Definition is_request_exception (e : exn) : bool :=
  match e with
  | RequestException _ | HTTPError _ => true
  | _ => false
  end.

(** A [requests.Response]: its status code and what [.json()] does. *)
Record response : Type := {
  status_code : Z;
  json_body : outcome json
}.

(** The collaborators outside the repository. *)
Record env : Type := {
  py_repr : json -> string;        (* repr(v) *)
  interp_msg : exn -> string;      (* str(e) of an interpreter-raised error *)
  clock : nat -> string;           (* n-th datetime.utcnow().isoformat() + "Z" *)
  uuid4 : nat -> string;           (* n-th str(uuid.uuid4()) *)
  http_post : nat -> json -> json -> outcome response;
                                   (* n-th requests.post(url, json=body, ...) *)
  stdout_write : nat -> string -> outcome unit
                                   (* print(text) after n requests: standard
                                      output may be closed, or unable to
                                      encode the text *)
}.

(** [str(v)], as an f-string formats a value. *)
Definition py_str (E : env) (v : json) : string :=
  match v with JStr s => s | _ => py_repr E v end.

(** [str(e)]. *)
Definition str_exn (E : env) (e : exn) : string :=
  match e with
  | ValueError msg => msg
  | KeyError key => py_repr E key
  | EnumError cls v => py_repr E v ++ " is not a valid " ++ cls
  | RequestException msg => msg
  | External msg => msg
  | _ => interp_msg E e
  end.

(** ** Objects with string keys *)

Fixpoint obj_lookup (k : string) (kvs : list (string * json)) : option json :=
  match kvs with
  | [] => None
  | (k', v) :: rest => if k' =? k then Some v else obj_lookup k rest
  end.

(** [d[k]] for a string literal [k]. *)
Definition py_getitem (d : json) (k : string) : outcome json :=
  match d with
  | JObj kvs => match obj_lookup k kvs with
                | Some v => Ok v
                | None => Raise (KeyError (JStr k))
                end
  | _ => Raise (TypeError "subscript" d)
  end.

(** [d.get(k, default)]. *)
Definition py_get (d : json) (k : string) (default : json) : outcome json :=
  match d with
  | JObj kvs => match obj_lookup k kvs with
                | Some v => Ok v
                | None => Ok default
                end
  | _ => Raise (AttributeError d "get")
  end.

(** ** Strings *)

Fixpoint chars (s : string) : list ascii :=
  match s with
  | EmptyString => []
  | String c s' => c :: chars s'
  end.

Fixpoint of_chars (l : list ascii) : string :=
  match l with
  | [] => EmptyString
  | c :: l' => String c (of_chars l')
  end.

Fixpoint starts_with (p s : string) : bool :=
  match p, s with
  | EmptyString, _ => true
  | String a p', String b s' => (a =? b)%char && starts_with p' s'
  | String _ _, EmptyString => false
  end.

(** [needle in hay] for two strings. *)
Fixpoint str_in (needle hay : string) : bool :=
  starts_with needle hay ||
  match hay with
  | EmptyString => false
  | String _ hay' => str_in needle hay'
  end.

(** [str.lower] on one code point below 256. *)
Definition lower_char (c : ascii) : ascii :=
  let n := N_of_ascii c in
  if ((65 <=? n) && (n <=? 90) ||
      (192 <=? n) && (n <=? 222) && negb (n =? 215))%N
  then ascii_of_N (n + 32) else c.

Fixpoint lower (s : string) : string :=
  match s with
  | EmptyString => EmptyString
  | String c s' => String (lower_char c) (lower s')
  end.

(** [str.isspace] on one code point below 256. *)
Definition is_space (c : ascii) : bool :=
  let n := N_of_ascii c in
  ((9 <=? n) && (n <=? 13) || (28 <=? n) && (n <=? 32) ||
   (n =? 133) || (n =? 160))%N.

Fixpoint lstrip_chars (l : list ascii) : list ascii :=
  match l with
  | [] => []
  | c :: l' => if is_space c then lstrip_chars l' else l
  end.

(** [str.strip()]. *)
Definition strip (s : string) : string :=
  of_chars (rev (lstrip_chars (rev (lstrip_chars (chars s))))).

(** [sep.join(l)] on strings. *)
Fixpoint join (sep : string) (l : list string) : string :=
  match l with
  | [] => EmptyString
  | [x] => x
  | x :: rest => x ++ sep ++ join sep rest
  end.

(** The line feed, written [\n] in the source. *)
Definition nl : string := String (ascii_of_nat 10) EmptyString.

(** The double quote. *)
Definition dq : string := String (ascii_of_nat 34) EmptyString.

(** [s.split(sep)] for a separator that is not empty: the separators are
    found from the left and do not overlap.  [skip] counts the characters
    of a separator still to pass, [cur] holds the part read so far, last
    character first. *)
Fixpoint split_from (sep : string) (skip : nat) (cur : list ascii) (s : string)
  : list string :=
  match s with
  | EmptyString => [of_chars (rev cur)]
  | String c s' =>
      match skip with
      | S k => split_from sep k cur s'
      | O =>
          if starts_with sep s
          then of_chars (rev cur) :: split_from sep (String.length sep - 1) [] s'
          else split_from sep 0 (c :: cur) s'
      end
  end.

Definition split (sep s : string) : list string := split_from sep 0 [] s.

(** [s.replace(old, "")] for an [old] that is not empty. *)
Fixpoint remove_from (old : string) (skip : nat) (s : string) : string :=
  match s with
  | EmptyString => EmptyString
  | String c s' =>
      match skip with
      | S k => remove_from old k s'
      | O =>
          if starts_with old s
          then remove_from old (String.length old - 1) s'
          else String c (remove_from old 0 s')
      end
  end.

Definition remove (old s : string) : string := remove_from old 0 s.

(** [d.get(k)] on a dict with string keys. *)
Fixpoint str_lookup {V} (k : string) (d : list (string * V)) : option V :=
  match d with
  | [] => None
  | (k', v) :: rest => if (k' =? k)%string then Some v else str_lookup k rest
  end.

(** ** Iteration *)

(** [iter(v)]: a list yields its items, a dict its keys, a string its
    characters. *)
Definition py_iter (v : json) : outcome (list json) :=
  match v with
  | JArr l => Ok l
  | JObj kvs => Ok (map (fun kv => JStr (fst kv)) kvs)
  | JStr s => Ok (map (fun c => JStr (String c EmptyString)) (chars s))
  | _ => Raise (TypeError "iter" v)
  end.

(** [reversed(v)]. *)
Definition py_reversed (v : json) : outcome (list json) :=
  match py_iter v with
  | Ok l => Ok (rev l)
  | Raise _ => Raise (TypeError "reversed" v)
  end.

(** ** Hashing: the keys of a dict *)

(** The equality classes of hashable JSON values: [True == 1] and
    [False == 0] share a slot. *)
Inductive hkey : Type :=
| HNone
| HInt (z : Z)
| HStr (s : string).

Definition hkey_eqb (a b : hkey) : bool :=
  match a, b with
  | HNone, HNone => true
  | HInt x, HInt y => (x =? y)%Z
  | HStr x, HStr y => (x =? y)
  | _, _ => false
  end.

Definition hash_key (v : json) : outcome hkey :=
  match v with
  | JNull => Ok HNone
  | JBool b => Ok (HInt (if b then 1 else 0))
  | JInt z => Ok (HInt z)
  | JStr s => Ok (HStr s)
  | _ => Raise (TypeError "unhashable" v)
  end.

(** A dict with arbitrary hashable keys: the entries in insertion order,
    each with the key object it was first inserted under. *)
Module PyDict.
Section Ops.
Context {V : Type}.

Definition t := list (json * V).

Definition same_key (h : hkey) (k : json) : bool :=
  match hash_key k with
  | Ok h' => hkey_eqb h h'
  | Raise _ => false
  end.

Fixpoint find (h : hkey) (d : list (json * V)) : option V :=
  match d with
  | [] => None
  | (k, v) :: rest => if same_key h k then Some v else find h rest
  end.

(** Replace the value in place when the key is there, append otherwise. *)
Fixpoint put (h : hkey) (k : json) (v : V) (d : list (json * V))
  : list (json * V) :=
  match d with
  | [] => [(k, v)]
  | (k', v') :: rest =>
      if same_key h k' then (k', v) :: rest
      else (k', v') :: put h k v rest
  end.

(** Store a new value in the slot of a key that is there. *)
Fixpoint replace (h : hkey) (v : V) (d : list (json * V)) : list (json * V) :=
  match d with
  | [] => []
  | (k', v') :: rest =>
      if same_key h k' then (k', v) :: rest
      else (k', v') :: replace h v rest
  end.

(** [k in d]. *)
Definition contains (d : list (json * V)) (k : json) : outcome bool :=
  match hash_key k with
  | Ok h => Ok (match find h d with Some _ => true | None => false end)
  | Raise e => Raise e
  end.

(** [d.get(k)]. *)
Definition get (d : list (json * V)) (k : json) : outcome (option V) :=
  match hash_key k with
  | Ok h => Ok (find h d)
  | Raise e => Raise e
  end.

(** [d[k] = v]. *)
Definition setitem (d : list (json * V)) (k : json) (v : V)
  : outcome (list (json * V)) :=
  match hash_key k with
  | Ok h => Ok (put h k v d)
  | Raise e => Raise e
  end.

Definition keys (d : list (json * V)) : list json := map fst d.
Definition values (d : list (json * V)) : list V := map snd d.
End Ops.
Arguments t V : clear implicits.
End PyDict.

(** [k in d] for a string literal [k]: a key of a dict, an item of a list,
    a substring of a string. *)
Definition py_in_str (k : string) (d : json) : outcome bool :=
  match d with
  | JObj kvs => Ok (match obj_lookup k kvs with Some _ => true | None => false end)
  | JArr l => Ok (existsb (fun v => eq_str v k) l)
  | JStr s => Ok (str_in k s)
  | _ => Raise (TypeError "in" d)
  end.

(* ================================================================== *)
(** * The state-and-exception monad *)
(* ================================================================== *)

Definition ST (S A : Type) : Type := S -> outcome A * S.

Definition ret {S A} (a : A) : ST S A := fun s => (Ok a, s).

Definition raise {S A} (e : exn) : ST S A := fun s => (Raise e, s).

Definition bind {S A B} (c : ST S A) (k : A -> ST S B) : ST S B :=
  fun s =>
    match c s with
    | (Ok a, s') => k a s'
    | (Raise e, s') => (Raise e, s')
    end.

(** [try: c  except cls as e: h e], for the exceptions [cls] accepts. *)
Definition try_except_when {S A} (cls : exn -> bool) (c : ST S A)
    (h : exn -> ST S A) : ST S A :=
  fun s =>
    match c s with
    | (Ok a, s') => (Ok a, s')
    | (Raise e, s') => if cls e then h e s' else (Raise e, s')
    end.

(** [try: c  except Exception as e: h e]. *)
Definition try_except {S A} (c : ST S A) (h : exn -> ST S A) : ST S A :=
  fun s =>
    match c s with
    | (Ok a, s') => (Ok a, s')
    | (Raise e, s') => h e s'
    end.

(** Sequencing of computations that touch no state. *)
Definition and_then {A B} (r : outcome A) (k : A -> outcome B) : outcome B :=
  match r with
  | Ok a => k a
  | Raise e => Raise e
  end.

(** A computation that touches no state. *)
Definition pure {S A} (r : outcome A) : ST S A := fun s => (r, s).

Declare Scope st_scope.
Delimit Scope st_scope with st.
Notation "x <- c ;; k" := (bind c (fun x => k))
  (at level 61, c at next level, right associativity) : st_scope.
Notation "c ;;; k" := (bind c (fun _ => k))
  (at level 61, right associativity) : st_scope.
Notation "x <-? r ;; k" := (and_then r (fun x => k))
  (at level 61, r at next level, right associativity) : st_scope.
Local Open Scope st_scope.

(** A list comprehension [[f x for x in l]] whose body may raise. *)
Fixpoint map_outcome {A B} (f : A -> outcome B) (l : list A) : outcome (list B) :=
  match l with
  | [] => Ok []
  | x :: rest =>
      y <-? f x ;; ys <-? map_outcome f rest ;; Ok (y :: ys)
  end.

Fixpoint map_st {S A B} (f : A -> ST S B) (l : list A) : ST S (list B) :=
  match l with
  | [] => ret []
  | x :: rest => y <- f x ;; ys <- map_st f rest ;; ret (y :: ys)
  end.

(** How often each collaborator has been consulted by this process. *)
Record counters : Type := {
  ticks : nat;
  uuids : nat;
  posts : nat
}.

(** [datetime.utcnow().isoformat() + "Z"]. *)
Definition utcnow (E : env) : ST counters json :=
  fun c => (Ok (JStr (clock E (ticks c))),
            {| ticks := S (ticks c); uuids := uuids c; posts := posts c |}).

(** [str(uuid.uuid4())]. *)
Definition new_uuid (E : env) : ST counters json :=
  fun c => (Ok (JStr (uuid4 E (uuids c))),
            {| ticks := ticks c; uuids := S (uuids c); posts := posts c |}).

(** [requests.post(url, json=body, headers=..., timeout=...)]. *)
Definition requests_post (E : env) (url body : json) : ST counters response :=
  fun c => (http_post E (posts c) url body,
            {| ticks := ticks c; uuids := uuids c; posts := S (posts c) |}).

(** [print(text)].  No code of the repository reads what was printed, so
    the line itself is not kept; the call may raise. *)
Definition py_print (E : env) (text : string) : ST counters unit :=
  fun c => (stdout_write E (posts c) text, c).

(* ================================================================== *)
(** * models/task.py *)
(* ================================================================== *)

Module TaskStatus.
Inductive t : Type := PENDING | IN_PROGRESS | COMPLETED | FAILED | CANCELLED.

Definition value (s : t) : string :=
  match s with
  | PENDING => "pending"
  | IN_PROGRESS => "in_progress"
  | COMPLETED => "completed"
  | FAILED => "failed"
  | CANCELLED => "cancelled"
  end.

Definition members : list t := [PENDING; IN_PROGRESS; COMPLETED; FAILED; CANCELLED].

(** [TaskStatus(v)]: the member whose value is [v]. *)
Definition of_value (v : json) : outcome t :=
  match find (fun m => eq_str v (value m)) members with
  | Some m => Ok m
  | None => Raise (EnumError "TaskStatus" v)
  end.
End TaskStatus.

Module MessageRole.
Inductive t : Type := USER | AGENT | SYSTEM.

Definition value (r : t) : string :=
  match r with
  | USER => "user"
  | AGENT => "agent"
  | SYSTEM => "system"
  end.

Definition members : list t := [USER; AGENT; SYSTEM].

Definition of_value (v : json) : outcome t :=
  match find (fun m => eq_str v (value m)) members with
  | Some m => Ok m
  | None => Raise (EnumError "MessageRole" v)
  end.

Definition eqb (a b : t) : bool :=
  match a, b with
  | USER, USER | AGENT, AGENT | SYSTEM, SYSTEM => true
  | _, _ => false
  end.
End MessageRole.

Module TaskMessage.
Record t : Type := mk {
  role : MessageRole.t;
  content : json;
  timestamp : json;
  metadata : json
}.

(** The dataclass constructor followed by [__post_init__]. *)
Definition init (E : env) (role : MessageRole.t) (content timestamp metadata : json)
  : ST counters t :=
  if is_none timestamp
  then now <- utcnow E ;; ret (mk role content now metadata)
  else ret (mk role content timestamp metadata).

Definition to_dict (self : t) : json :=
  JObj [("role", JStr (MessageRole.value (role self)));
        ("content", content self);
        ("timestamp", timestamp self);
        ("metadata", or_empty (metadata self))].

Definition from_dict (E : env) (data : json) : ST counters t :=
  role_v <- pure (py_getitem data "role") ;;
  role <- pure (MessageRole.of_value role_v) ;;
  content <- pure (py_getitem data "content") ;;
  timestamp <- pure (py_get data "timestamp" JNull) ;;
  metadata <- pure (py_get data "metadata" JNull) ;;
  init E role content timestamp metadata.
End TaskMessage.

Module Task.
Record t : Type := mk {
  task_id : json;
  status : TaskStatus.t;
  messages : list TaskMessage.t;
  metadata : json;
  created_at : json;
  updated_at : json
}.

(** The dataclass constructor followed by [__post_init__], which reads the
    clock once whatever the arguments. *)
Definition init (E : env) (task_id : json) (status : TaskStatus.t)
    (messages : list TaskMessage.t) (metadata created_at updated_at : json)
  : ST counters t :=
  now <- utcnow E ;;
  ret (mk task_id status messages metadata
          (if is_none created_at then now else created_at)
          (if is_none updated_at then now else updated_at)).

Definition set_status (self : t) (s : TaskStatus.t) : t :=
  mk (task_id self) s (messages self) (metadata self)
     (created_at self) (updated_at self).

Definition add_message (E : env) (self : t) (message : TaskMessage.t)
  : ST counters t :=
  let appended := messages self ++ [message] in
  now <- utcnow E ;;
  ret (mk (task_id self) (status self) appended (metadata self)
          (created_at self) now).

Definition to_dict (self : t) : json :=
  JObj [("task_id", task_id self);
        ("status", JStr (TaskStatus.value (status self)));
        ("messages", JArr (map TaskMessage.to_dict (messages self)));
        ("metadata", or_empty (metadata self));
        ("created_at", created_at self);
        ("updated_at", updated_at self)].

Definition from_dict (E : env) (data : json) : ST counters t :=
  raw <- pure (py_get data "messages" (JArr [])) ;;
  items <- pure (py_iter raw) ;;
  messages <- map_st (TaskMessage.from_dict E) items ;;
  task_id <- pure (py_getitem data "task_id") ;;
  status_v <- pure (py_getitem data "status") ;;
  status <- pure (TaskStatus.of_value status_v) ;;
  metadata <- pure (py_get data "metadata" JNull) ;;
  created_at <- pure (py_get data "created_at" JNull) ;;
  updated_at <- pure (py_get data "updated_at" JNull) ;;
  init E task_id status messages metadata created_at updated_at.
End Task.

(* ================================================================== *)
(** * models/agent_card.py *)
(* ================================================================== *)

Module InteractionMode.
Inductive t : Type := TEXT | FORM | AUDIO | VIDEO | FILE.

Definition value (m : t) : string :=
  match m with
  | TEXT => "text"
  | FORM => "form"
  | AUDIO => "audio"
  | VIDEO => "video"
  | FILE => "file"
  end.

Definition members : list t := [TEXT; FORM; AUDIO; VIDEO; FILE].

Definition of_value (v : json) : outcome t :=
  match find (fun m => eq_str v (value m)) members with
  | Some m => Ok m
  | None => Raise (EnumError "InteractionMode" v)
  end.
End InteractionMode.

Module Skill.
Record t : Type := mk {
  name : json;
  description : json;
  parameters : json;
  interaction_modes : list InteractionMode.t
}.

Definition to_dict (self : t) : json :=
  JObj [("name", name self);
        ("description", description self);
        ("parameters", parameters self);
        ("interaction_modes",
         JArr (map (fun mode => JStr (InteractionMode.value mode))
                   (interaction_modes self)))].
End Skill.

Module AgentCard.
Record t : Type := mk {
  name : json;
  description : json;
  url : json;
  skills : list Skill.t;
  version : json;
  supported_interaction_modes : list InteractionMode.t;
  metadata : json
}.

Definition to_dict (self : t) : json :=
  JObj [("name", name self);
        ("description", description self);
        ("url", url self);
        ("version", version self);
        ("skills", JArr (map Skill.to_dict (skills self)));
        ("supported_interaction_modes",
         JArr (map (fun mode => JStr (InteractionMode.value mode))
                   (supported_interaction_modes self)));
        ("metadata", or_empty (metadata self))].

(** The [Skill(...)] expression inside the comprehension of [from_dict]. *)
Definition skill_from (s : json) : outcome Skill.t :=
  name <-? py_getitem s "name" ;;
  description <-? py_getitem s "description" ;;
  parameters <-? py_get s "parameters" (JObj []) ;;
  raw <-? py_get s "interaction_modes" (JArr [JStr "text"]) ;;
  items <-? py_iter raw ;;
  modes <-? map_outcome InteractionMode.of_value items ;;
  Ok (Skill.mk name description parameters modes).

Definition from_dict (data : json) : outcome t :=
  raw_skills <-? py_get data "skills" (JArr []) ;;
  skill_items <-? py_iter raw_skills ;;
  skills <-? map_outcome skill_from skill_items ;;
  name <-? py_getitem data "name" ;;
  description <-? py_getitem data "description" ;;
  url <-? py_getitem data "url" ;;
  version <-? py_get data "version" (JStr "1.0") ;;
  raw_modes <-? py_get data "supported_interaction_modes" (JArr [JStr "text"]) ;;
  mode_items <-? py_iter raw_modes ;;
  modes <-? map_outcome InteractionMode.of_value mode_items ;;
  metadata <-? py_get data "metadata" JNull ;;
  Ok (mk name description url skills version modes metadata).
End AgentCard.

(* ================================================================== *)
(** * models/jsonrpc.py *)
(* ================================================================== *)

Definition PARSE_ERROR : Z := -32700.
Definition INVALID_REQUEST : Z := -32600.
Definition METHOD_NOT_FOUND : Z := -32601.
Definition INVALID_PARAMS : Z := -32602.
Definition INTERNAL_ERROR : Z := -32603.

Module JSONRPCRequest.
Record t : Type := mk {
  method : json;
  params : json;
  id : json;
  jsonrpc : json
}.

(** The constructor with its defaults [params=None, id=None, jsonrpc="2.0"]
    spelled out by the caller. *)
Definition to_dict (self : t) : json :=
  JObj ([("jsonrpc", jsonrpc self);
         ("method", method self);
         ("id", id self)]
        ++ (if is_none (params self) then [] else [("params", params self)])).

Definition from_dict (data : json) : outcome t :=
  method <-? py_getitem data "method" ;;
  params <-? py_get data "params" JNull ;;
  id <-? py_get data "id" JNull ;;
  jsonrpc <-? py_get data "jsonrpc" (JStr "2.0") ;;
  Ok (mk method params id jsonrpc).
End JSONRPCRequest.

Module JSONRPCError.
Record t : Type := mk {
  code : json;
  message : json;
  data : json
}.

Definition to_dict (self : t) : json :=
  JObj ([("code", code self);
         ("message", message self)]
        ++ (if is_none (data self) then [] else [("data", data self)])).
End JSONRPCError.

Module JSONRPCResponse.
Record t : Type := mk {
  id : json;
  result : json;
  error : option JSONRPCError.t;
  jsonrpc : json
}.

(** [if self.error:] tests a dataclass instance, which is always true, so
    the branch is taken exactly when [error] is not [None]. *)
Definition to_dict (self : t) : json :=
  JObj ([("jsonrpc", jsonrpc self);
         ("id", id self)]
        ++ match error self with
           | Some e => [("error", JSONRPCError.to_dict e)]
           | None => [("result", result self)]
           end).

Definition from_dict (data : json) : outcome t :=
  has_error <-? py_in_str "error" data ;;
  error <-? (if has_error
             then
               e1 <-? py_getitem data "error" ;;
               code <-? py_getitem e1 "code" ;;
               e2 <-? py_getitem data "error" ;;
               message <-? py_getitem e2 "message" ;;
               e3 <-? py_getitem data "error" ;;
               d <-? py_get e3 "data" JNull ;;
               Ok (Some (JSONRPCError.mk code message d))
             else Ok None) ;;
  id <-? py_get data "id" JNull ;;
  result <-? py_get data "result" JNull ;;
  jsonrpc <-? py_get data "jsonrpc" (JStr "2.0") ;;
  Ok (mk id result error jsonrpc).
End JSONRPCResponse.

(* ================================================================== *)
(** * agents/base_agent.py *)
(* ================================================================== *)

(** The attributes of an agent object that the protocol code reads and
    writes, with the counters of its process.  [registered_agents] is the
    attribute [OrchestratorAgent.__init__] adds; a plain agent never looks
    at it. *)
Record agent : Type := {
  tasks : PyDict.t Task.t;
  registered_agents : PyDict.t AgentCard.t;
  io : counters
}.

Definition M (A : Type) : Type := ST agent A.

(** Run a computation that only consults the collaborators. *)
Definition lift {A} (c : ST counters A) : M A :=
  fun a =>
    let '(r, c') := c (io a) in
    (r, {| tasks := tasks a; registered_agents := registered_agents a; io := c' |}).

Definition set_tasks (d : PyDict.t Task.t) : M unit :=
  fun a => (Ok tt, {| tasks := d; registered_agents := registered_agents a; io := io a |}).

Definition set_registered_agents (d : PyDict.t AgentCard.t) : M unit :=
  fun a => (Ok tt, {| tasks := tasks a; registered_agents := d; io := io a |}).

Definition get_tasks : M (PyDict.t Task.t) := fun a => (Ok (tasks a), a).

Definition get_registered_agents : M (PyDict.t AgentCard.t) :=
  fun a => (Ok (registered_agents a), a).

(** A handler registered in [self.methods]. *)
Definition handler : Type := json -> M json.

Module BaseAgent.
Section Agent.

Variable E : env.

(** The two abstract methods.  The domain handler is an external
    collaborator: a call to it is its outcome, a response or an exception. *)
Variable handle_task : json -> TaskMessage.t -> outcome json.
Variable get_agent_card : AgentCard.t.

(** [task_id not in self.tasks], which hashes [task_id]. *)
Definition not_in_tasks (task_id : json) : M bool :=
  d <- get_tasks ;;
  present <- pure (PyDict.contains d task_id) ;;
  ret (negb present).

(** [task = self.tasks[task_id]]: the reference is the slot of the key. *)
Definition task_ref (task_id : json) : M hkey :=
  d <- get_tasks ;;
  h <- pure (hash_key task_id) ;;
  match PyDict.find h d with
  | Some _ => ret h
  | None => raise (KeyError task_id)
  end.

(** Read the task object behind a reference.  No code deletes a task, so
    the slot of a reference is always there. *)
Definition deref (h : hkey) : M Task.t :=
  d <- get_tasks ;;
  match PyDict.find h d with
  | Some task => ret task
  | None => raise (KeyError JNull)
  end.

(** Mutate the task object behind a reference: every holder of the
    reference, the store included, sees the change. *)
Definition mutate (h : hkey) (f : Task.t -> ST counters Task.t) : M unit :=
  task <- deref h ;;
  task' <- lift (f task) ;;
  d <- get_tasks ;;
  set_tasks (PyDict.replace h task' d).

Definition _get_agent_card (params : json) : M json :=
  ret (AgentCard.to_dict get_agent_card).

Definition _create_task (params : json) : M json :=
  match params with
  | JObj _ =>
      fresh <- lift (new_uuid E) ;;
      task_id <- pure (py_get params "task_id" fresh) ;;
      metadata <- pure (py_get params "metadata" (JObj [])) ;;
      task <- lift (Task.init E task_id TaskStatus.PENDING [] metadata JNull JNull) ;;
      d <- get_tasks ;;
      d' <- pure (PyDict.setitem d task_id task) ;;
      set_tasks d' ;;;
      ret (Task.to_dict task)
  | _ => raise (AttributeError params "get")
  end.

Definition _send_task_message (params : json) : M json :=
  task_id <- pure (py_get params "task_id" JNull) ;;
  missing <- (if negb (truthy task_id) then ret true else not_in_tasks task_id) ;;
  if missing
  then raise (ValueError ("Task '" ++ py_str E task_id ++ "' not found"))
  else
    task <- task_ref task_id ;;
    role_v <- pure (py_get params "role" (JStr "user")) ;;
    role <- pure (MessageRole.of_value role_v) ;;
    content <- pure (py_getitem params "content") ;;
    metadata <- pure (py_get params "metadata" JNull) ;;
    message <- lift (TaskMessage.init E role content JNull metadata) ;;
    mutate task (fun t => Task.add_message E t message) ;;;
    mutate task (fun t => ret (Task.set_status t TaskStatus.IN_PROGRESS)) ;;;
    try_except
      (response_content <- pure (handle_task task_id message) ;;
       response_message <-
         lift (TaskMessage.init E MessageRole.AGENT response_content JNull JNull) ;;
       mutate task (fun t => Task.add_message E t response_message) ;;;
       mutate task (fun t => ret (Task.set_status t TaskStatus.COMPLETED)))
      (fun e =>
       mutate task (fun t => ret (Task.set_status t TaskStatus.FAILED)) ;;;
       error_message <-
         lift (TaskMessage.init E MessageRole.SYSTEM
                 (JStr ("Error processing task: " ++ str_exn E e)) JNull JNull) ;;
       mutate task (fun t => Task.add_message E t error_message)) ;;;
    t <- deref task ;;
    ret (Task.to_dict t).

Definition _get_task (params : json) : M json :=
  task_id <- pure (py_get params "task_id" JNull) ;;
  missing <- (if negb (truthy task_id) then ret true else not_in_tasks task_id) ;;
  if missing
  then raise (ValueError ("Task '" ++ py_str E task_id ++ "' not found"))
  else
    task <- task_ref task_id ;;
    t <- deref task ;;
    ret (Task.to_dict t).

Definition _list_tasks (params : json) : M json :=
  d <- get_tasks ;;
  ret (JObj [("tasks", JArr (map Task.to_dict (PyDict.values d)))]).

(** [self.methods[method_name] = handler]. *)
Definition register_method (methods : PyDict.t handler) (method_name : string)
    (h : handler) : PyDict.t handler :=
  PyDict.put (HStr method_name) (JStr method_name) h methods.

(** [self.methods] after [_register_standard_methods]. *)
Definition _register_standard_methods (methods : PyDict.t handler)
  : PyDict.t handler :=
  let methods := register_method methods "getAgentCard" _get_agent_card in
  let methods := register_method methods "createTask" _create_task in
  let methods := register_method methods "sendTaskMessage" _send_task_message in
  let methods := register_method methods "getTask" _get_task in
  register_method methods "listTasks" _list_tasks.

Definition error_response (id : json) (code : Z) (message : string)
  : JSONRPCResponse.t :=
  JSONRPCResponse.mk id JNull
    (Some (JSONRPCError.mk (JInt code) (JStr message) JNull)) (JStr "2.0").

Definition _handle_request (methods : PyDict.t handler)
    (rpc_request : JSONRPCRequest.t) : M JSONRPCResponse.t :=
  let method := JSONRPCRequest.method rpc_request in
  registered <- pure (PyDict.contains methods method) ;;
  if negb registered
  then ret (error_response (JSONRPCRequest.id rpc_request) METHOD_NOT_FOUND
              ("Method '" ++ py_str E method ++ "' not found"))
  else
    try_except
      (found <- pure (PyDict.get methods method) ;;
       match found with
       | Some handler =>
           result <- handler (or_empty (JSONRPCRequest.params rpc_request)) ;;
           ret (JSONRPCResponse.mk (JSONRPCRequest.id rpc_request) result None
                  (JStr "2.0"))
       | None => raise (KeyError method)
       end)
      (fun e =>
       ret (error_response (JSONRPCRequest.id rpc_request) INTERNAL_ERROR
              (str_exn E e))).

(** The POST route of [_setup_routes].  [body] is what [request.get_json()]
    does, return the decoded body or raise; the value is the status code
    and the JSON handed to [jsonify]. *)
Definition handle_jsonrpc (methods : PyDict.t handler) (body : outcome json)
  : M (Z * json) :=
  try_except
    (data <- pure body ;;
     if negb (truthy data)
     then ret (400%Z, JSONRPCResponse.to_dict
                        (error_response JNull INVALID_PARAMS "Invalid JSON"))
     else
       rpc_request <- pure (JSONRPCRequest.from_dict data) ;;
       response <- _handle_request methods rpc_request ;;
       ret (200%Z, JSONRPCResponse.to_dict response))
    (fun e =>
     ret (500%Z, JSONRPCResponse.to_dict
                   (error_response JNull INTERNAL_ERROR (str_exn E e)))).

End Agent.
End BaseAgent.

(* ================================================================== *)
(** * agents/orchestrator_agent.py *)
(* ================================================================== *)

Module OrchestratorAgent.
Section Orchestrator.

Variable E : env.

(** [JSONRPCRequest(method=..., params=..., id=...).to_dict()]. *)
Definition request_dict (method : string) (params : json) (id : Z) : json :=
  JSONRPCRequest.to_dict
    (JSONRPCRequest.mk (JStr method) params (JInt id) (JStr "2.0")).

Definition register_agent (agent_url : json) : M bool :=
  try_except
    (response <- lift (requests_post E agent_url
                         (request_dict "getAgentCard" JNull 1)) ;;
     if (status_code response =? 200)%Z
     then
       result <- pure (json_body response) ;;
       has_result <- pure (py_in_str "result" result) ;;
       if has_result
       then
         card_data <- pure (py_getitem result "result") ;;
         agent_card <- pure (AgentCard.from_dict card_data) ;;
         d <- get_registered_agents ;;
         d' <- pure (PyDict.setitem d (AgentCard.name agent_card) agent_card) ;;
         set_registered_agents d' ;;;
         lift (py_print E ("Registered agent: "
                           ++ py_str E (AgentCard.name agent_card))) ;;;
         ret true
       else ret false
     else ret false)
    (fun e =>
     lift (py_print E ("Error registering agent at " ++ py_str E agent_url
                       ++ ": " ++ str_exn E e)) ;;;
     ret false).

(** The loop of [_delegate_to_agent] over [reversed(messages)]. *)
Fixpoint last_agent_message (msgs : list json) : outcome json :=
  match msgs with
  | [] => Ok (JStr "No response from agent")
  | msg :: rest =>
      role <-? py_getitem msg "role" ;;
      if eq_str role "agent"
      then py_getitem msg "content"
      else last_agent_message rest
  end.

(** The lines of [_delegate_to_agent] that extract the agent's response from
    the [result] of the peer's answer to [sendTaskMessage]. *)
Definition extract_response (result : json) : outcome json :=
  messages <-? py_get result "messages" (JArr []) ;;
  msgs <-? py_reversed messages ;;
  last_agent_message msgs.

Definition _delegate_to_agent (agent_card : AgentCard.t) (content : string)
  : M json :=
  let name := py_str E (AgentCard.name agent_card) in
  try_except
    (create_response <- lift (requests_post E (AgentCard.url agent_card)
                                (request_dict "createTask" JNull 1)) ;;
     if negb (status_code create_response =? 200)%Z
     then ret (JStr ("Failed to create task on " ++ name))
     else
       create_body <- pure (json_body create_response) ;;
       task_data <- pure (py_getitem create_body "result") ;;
       task_id <- pure (py_getitem task_data "task_id") ;;
       message_response <-
         lift (requests_post E (AgentCard.url agent_card)
                 (request_dict "sendTaskMessage"
                    (JObj [("task_id", task_id);
                           ("role", JStr "user");
                           ("content", JStr content)]) 2)) ;;
       if negb (status_code message_response =? 200)%Z
       then ret (JStr ("Failed to send message to " ++ name))
       else
         message_body <- pure (json_body message_response) ;;
         result <- pure (py_getitem message_body "result") ;;
         pure (extract_response result))
    (fun e => ret (JStr ("Error delegating to " ++ name ++ ": " ++ str_exn E e))).

Definition _list_agents : M json :=
  d <- get_registered_agents ;;
  match d with
  | [] =>
      ret (JStr "No agents are currently registered. Please register agents using the orchestrator's register_agent() method.")
  | _ =>
      let header :=
        ("I have access to " ++ py_str E (JInt (Z.of_nat (length d)))
         ++ " agent(s):" ++ nl ++ nl)%string in
      let skill_line (skill : Skill.t) :=
        ("    - " ++ py_str E (Skill.name skill) ++ ": "
         ++ py_str E (Skill.description skill) ++ nl)%string in
      let entry (item : json * AgentCard.t) :=
        let '(agent_name, agent_card) := item in
        ("**" ++ py_str E agent_name ++ "**" ++ nl
         ++ "  Description: " ++ py_str E (AgentCard.description agent_card) ++ nl
         ++ "  Skills:" ++ nl
         ++ String.concat EmptyString (map skill_line (AgentCard.skills agent_card))
         ++ nl)%string in
      ret (JStr (header ++ String.concat EmptyString (map entry d)))
  end.

Definition calculator_words : list string :=
  ["calculate"; "solve"; "+"; "-"; "*"; "/"; "="; "equation"].

Definition translator_words : list string :=
  ["translate"; "spanish"; "french"; "german"].

(** [any(word in content for word in words)]. *)
Definition any_word_in (words : list string) (content : string) : bool :=
  existsb (fun word => str_in word content) words.

(** [sep.join(items)], which accepts strings only. *)
Definition join_keys (sep : string) (items : list json) : outcome string :=
  strs <-? map_outcome
             (fun v => match v with
                       | JStr s => Ok s
                       | _ => Raise (TypeError "join" v)
                       end) items ;;
  Ok (join sep strs).

(** One keyword test of [_orchestrate_task]: the entries it appends to
    [results]. *)
Definition route_to (words : list string) (agent_name prefix : string)
    (content : string) : M (list string) :=
  if any_word_in words content
  then
    d <- get_registered_agents ;;
    match PyDict.find (HStr agent_name) d with
    | Some card =>
        result <- _delegate_to_agent card content ;;
        ret [(prefix ++ py_str E result)%string]
    | None => ret []
    end
  else ret [].

Definition _orchestrate_task (content : string) : M json :=
  from_calculator <-
    route_to calculator_words "CalculatorAgent" "Calculator: " content ;;
  from_translator <-
    route_to translator_words "TranslatorAgent" "Translator: " content ;;
  let results := from_calculator ++ from_translator in
  match results with
  | _ :: _ => ret (JStr (join (nl ++ nl) results))
  | [] =>
      d <- get_registered_agents ;;
      names <- pure (join_keys ", " (PyDict.keys d)) ;;
      ret (JStr ("I'm not sure which agent can handle this task. Available agents: "
                 ++ names))
  end.

Definition discovery_phrases : list string :=
  ["list agents"; "discover agents"; "what agents"].

Definition handle_task (task_id : json) (message : TaskMessage.t) : M json :=
  match TaskMessage.content message with
  | JStr s =>
      let content := strip (lower s) in
      if any_word_in discovery_phrases content
      then _list_agents
      else _orchestrate_task content
  | v => raise (AttributeError v "lower")
  end.

End Orchestrator.
End OrchestratorAgent.

(* ================================================================== *)
(** * agents/translator_agent.py *)
(* ================================================================== *)

Module TranslatorAgent.

(** The letters of the vocabulary above code point 127. *)
Definition o_acute : string := String (ascii_of_nat 243) EmptyString.
Definition i_acute : string := String (ascii_of_nat 237) EmptyString.
Definition i_circumflex : string := String (ascii_of_nat 238) EmptyString.

Definition TRANSLATIONS : list (string * list (string * string)) :=
  [("hello", [("spanish", "hola"); ("french", "bonjour"); ("german", "hallo")]);
   ("goodbye", [("spanish", "adi" ++ o_acute ++ "s"); ("french", "au revoir");
                ("german", "auf wiedersehen")]);
   ("thank you", [("spanish", "gracias"); ("french", "merci"); ("german", "danke")]);
   ("yes", [("spanish", "s" ++ i_acute); ("french", "oui"); ("german", "ja")]);
   ("no", [("spanish", "no"); ("french", "non"); ("german", "nein")]);
   ("please", [("spanish", "por favor");
               ("french", "s'il vous pla" ++ i_circumflex ++ "t");
               ("german", "bitte")]);
   ("good morning", [("spanish", "buenos d" ++ i_acute ++ "as"); ("french", "bonjour");
                     ("german", "guten morgen")]);
   ("good night", [("spanish", "buenas noches"); ("french", "bonne nuit");
                   ("german", "gute nacht")])]%string.

Definition languages : list string := ["spanish"; "french"; "german"].

(** [translations[target_language]]. *)
Definition translation_of (translations : list (string * string))
    (target_language : string) : outcome string :=
  match str_lookup target_language translations with
  | Some translation => Ok translation
  | None => Raise (KeyError (JStr target_language))
  end.

(** The loop of [_translate] over [self.TRANSLATIONS.items()], and the
    return that follows it. *)
Fixpoint partial_match (items : list (string * list (string * string)))
    (text text_lower target_language : string) : outcome string :=
  match items with
  | [] =>
      Ok ("I don't have a translation for " ++ dq ++ text ++ dq
          ++ " in my vocabulary. (Note: This is a demo with limited phrases: "
          ++ join ", " (map fst TRANSLATIONS) ++ ")")%string
  | (phrase, translations) :: rest =>
      if str_in phrase text_lower
      then
        translation <-? translation_of translations target_language ;;
        Ok ("I found " ++ dq ++ phrase ++ dq ++ " which translates to "
            ++ dq ++ translation ++ dq ++ " in " ++ target_language
            ++ ". (Note: This is a demo with limited vocabulary)")%string
      else partial_match rest text text_lower target_language
  end.

Definition _translate (text target_language : string) : outcome string :=
  if negb (existsb (String.eqb target_language) languages)
  then Ok ("Unsupported language: " ++ target_language
           ++ ". I support spanish, french, and german.")%string
  else
    let text_lower := strip (lower text) in
    match str_lookup text_lower TRANSLATIONS with
    | Some translations =>
        translation <-? translation_of translations target_language ;;
        Ok (dq ++ text ++ dq ++ " in " ++ target_language ++ " is "
            ++ dq ++ translation ++ dq)%string
    | None => partial_match TRANSLATIONS text text_lower target_language
    end.

Definition usage : string :=
  "Please use format: 'translate <text> to <language>' where language is spanish, french, or german".

Definition handle_task (task_id : json) (message : TaskMessage.t) : outcome json :=
  match TaskMessage.content message with
  | JStr s =>
      let content := strip (lower s) in
      if str_in "translate" content && str_in " to " content
      then
        match split " to " content with
        | [part0; part1] =>
            let text_part := strip (remove "translate" part0) in
            let target_language := strip part1 in
            reply <-? _translate text_part target_language ;;
            Ok (JStr reply)
        | _ => Ok (JStr usage)
        end
      else Ok (JStr usage)
  | v => Raise (AttributeError v "lower")
  end.

End TranslatorAgent.

(* ================================================================== *)
(** * client/a2a_client.py *)
(* ================================================================== *)

Module A2AClient.

(** The attributes of a client object, with the counters of its process. *)
Record client : Type := {
  agent_url : json;
  _request_id : Z;
  cio : counters
}.

Definition lift {A} (c : ST counters A) : ST client A :=
  fun self =>
    let '(r, c') := c (cio self) in
    (r, {| agent_url := agent_url self; _request_id := _request_id self; cio := c' |}).

Section Client.

Variable E : env.

Definition _next_id : ST client Z :=
  fun self =>
    let n := (_request_id self + 1)%Z in
    (Ok n, {| agent_url := agent_url self; _request_id := n; cio := cio self |}).

Definition get_agent_url : ST client json := fun self => (Ok (agent_url self), self).

(** [response.raise_for_status()]. *)
Definition raise_for_status (r : response) : outcome unit :=
  if ((400 <=? status_code r) && (status_code r <? 600))%Z
  then Raise (HTTPError (status_code r))
  else Ok tt.

Definition _call_method (method : string) (params : json) : ST client json :=
  rid <- _next_id ;;
  let request := JSONRPCRequest.mk (JStr method) params (JInt rid) (JStr "2.0") in
  try_except_when is_request_exception
    (url <- get_agent_url ;;
     response <- lift (requests_post E url (JSONRPCRequest.to_dict request)) ;;
     pure (raise_for_status response) ;;;
     body <- pure (json_body response) ;;
     rpc_response <- pure (JSONRPCResponse.from_dict body) ;;
     match JSONRPCResponse.error rpc_response with
     | Some err =>
         raise (External ("RPC Error " ++ py_str E (JSONRPCError.code err) ++ ": "
                          ++ py_str E (JSONRPCError.message err)))
     | None => ret (JSONRPCResponse.result rpc_response)
     end)
    (fun e => raise (External ("Request failed: " ++ str_exn E e))).

Definition create_task (task_id metadata : json) : ST client Task.t :=
  let params :=
    (if truthy task_id then [("task_id", task_id)] else [])
    ++ (if truthy metadata then [("metadata", metadata)] else []) in
  result <- _call_method "createTask" (JObj params) ;;
  lift (Task.from_dict E result).

Definition send_message (task_id content : json) (role : MessageRole.t)
    (metadata : json) : ST client Task.t :=
  let params :=
    [("task_id", task_id);
     ("content", content);
     ("role", JStr (MessageRole.value role))]
    ++ (if truthy metadata then [("metadata", metadata)] else []) in
  result <- _call_method "sendTaskMessage" (JObj params) ;;
  lift (Task.from_dict E result).

(** The loop of [chat] over [reversed(updated_task.messages)]. *)
Fixpoint last_agent_message (msgs : list TaskMessage.t) : json :=
  match msgs with
  | [] => JStr "No response from agent"
  | msg :: rest =>
      if MessageRole.eqb (TaskMessage.role msg) MessageRole.AGENT
      then TaskMessage.content msg
      else last_agent_message rest
  end.

(** The lines of [chat] that extract the agent's response from the task
    [send_message] returned. *)
Definition extract_response (updated_task : Task.t) : json :=
  last_agent_message (rev (Task.messages updated_task)).

Definition chat (message task_id : json) : ST client json :=
  task_id <- (if negb (truthy task_id)
              then task <- create_task JNull JNull ;; ret (Task.task_id task)
              else ret task_id) ;;
  updated_task <- send_message task_id message MessageRole.USER JNull ;;
  ret (extract_response updated_task).

Definition get_agent_card : ST client AgentCard.t :=
  result <- _call_method "getAgentCard" JNull ;;
  pure (AgentCard.from_dict result).

Definition get_task (task_id : json) : ST client Task.t :=
  result <- _call_method "getTask" (JObj [("task_id", task_id)]) ;;
  lift (Task.from_dict E result).

Definition list_tasks : ST client (list Task.t) :=
  result <- _call_method "listTasks" JNull ;;
  raw <- pure (py_getitem result "tasks") ;;
  items <- pure (py_iter raw) ;;
  lift (map_st (Task.from_dict E) items).

End Client.

(** The characters after the leading slashes. *)
Fixpoint lstrip_slashes (l : list ascii) : list ascii :=
  match l with
  | [] => []
  | c :: l' => if (c =? "/")%char then lstrip_slashes l' else l
  end.

(** [str.rstrip("/")]. *)
Definition rstrip_slash (s : string) : string :=
  of_chars (rev (lstrip_slashes (rev (chars s)))).

(** [A2AClient(agent_url)], in a process with the given counters.  The
    [timeout] only parameterises the transport, which is part of the
    [env]. *)
Definition init (agent_url : string) (c : counters) : client :=
  {| agent_url := JStr (rstrip_slash agent_url); _request_id := 0; cio := c |}.

End A2AClient.

(* ================================================================== *)
(** * Definitions used to state the properties *)
(* ================================================================== *)

(** The value is a mapping. *)
Definition is_dict (v : json) : bool :=
  match v with JObj _ => true | _ => false end.

(** A message as the constructor leaves it when it is given a mapping as
    metadata: the timestamp is set and the metadata is a mapping. *)
Definition message_plain (m : TaskMessage.t) : Prop :=
  TaskMessage.timestamp m <> JNull /\ is_dict (TaskMessage.metadata m) = true.

Definition task_plain (t : Task.t) : Prop :=
  Task.created_at t <> JNull /\ Task.updated_at t <> JNull /\
  is_dict (Task.metadata t) = true /\ Forall message_plain (Task.messages t).

(** [result] and [error] of a response, as presence flags. *)
Definition has_result (r : JSONRPCResponse.t) : bool :=
  negb (is_none (JSONRPCResponse.result r)).

Definition has_error (r : JSONRPCResponse.t) : bool :=
  match JSONRPCResponse.error r with Some _ => true | None => false end.

(** The key is present in an encoded object. *)
Definition has_key (k : string) (d : json) : bool :=
  match d with
  | JObj kvs => match obj_lookup k kvs with Some _ => true | None => false end
  | _ => false
  end.

(** An environment for the examples: [repr] of the simplest values, a clock
    and a uuid source that count, and a network where no peer answers. *)
Definition demo_env : env := {|
  py_repr := fun v =>
    match v with
    | JNull => "None"
    | JBool true => "True"
    | JBool false => "False"
    | _ => "..."
    end;
  interp_msg := fun _ => "error";
  clock := fun n => String (ascii_of_nat (48 + n)) "Z";
  uuid4 := fun n => String (ascii_of_nat (97 + n)) "-uuid";
  http_post := fun _ _ _ => Raise (RequestException "connection refused");
  stdout_write := fun _ _ => Ok tt
|}.

Definition no_io : counters := {| ticks := 0; uuids := 0; posts := 0 |}.

(** An agent right after [__init__]. *)
Definition new_agent : agent :=
  {| tasks := []; registered_agents := []; io := no_io |}.

(** A domain handler for the examples: it echoes the content, and fails on
    the content ["boom"]. *)
Definition demo_handler (task_id : json) (message : TaskMessage.t) : outcome json :=
  if eq_str (TaskMessage.content message) "boom"
  then Raise (External "boom")
  else Ok (TaskMessage.content message).

Definition demo_card : AgentCard.t :=
  AgentCard.mk (JStr "DemoAgent") (JStr "An agent for the examples")
    (JStr "http://localhost:5001") [] (JStr "1.0") [InteractionMode.TEXT] JNull.

(** [self.methods] of an agent right after [__init__]. *)
Definition standard_methods (E : env)
    (handle_task : json -> TaskMessage.t -> outcome json)
    (get_agent_card : AgentCard.t) : PyDict.t handler :=
  BaseAgent._register_standard_methods E handle_task get_agent_card [].

(** The task that the [task_id] of a parameter mapping names in a store. *)
Definition named_task (d : PyDict.t Task.t) (params : json) : option Task.t :=
  match py_get params "task_id" JNull with
  | Ok v =>
      match hash_key v with
      | Ok h => PyDict.find h d
      | Raise _ => None
      end
  | Raise _ => None
  end.

(** The task's [updated_at] is a reading of the clock made before the
    [n]-th. *)
Definition stamped (E : env) (n : nat) (t : Task.t) : Prop :=
  exists i, i < n /\ Task.updated_at t = JStr (clock E i).

(** Every stored task was last stamped by a reading the process has made. *)
Definition store_ok (E : env) (a : agent) : Prop :=
  forall h t, PyDict.find h (tasks a) = Some t -> stamped E (ticks (io a)) t.

(** The inbound message [_send_task_message] builds when the clock has been
    read [n] times. *)
Definition inbound_message (E : env) (n : nat) (role : MessageRole.t)
    (content metadata : json) : TaskMessage.t :=
  TaskMessage.mk role content (JStr (clock E n)) metadata.

(** The message that records the outcome of the domain handler. *)
Definition outcome_message (E : env) (n : nat) (r : outcome json) : TaskMessage.t :=
  match r with
  | Ok response_content =>
      TaskMessage.mk MessageRole.AGENT response_content (JStr (clock E (2 + n))) JNull
  | Raise e =>
      TaskMessage.mk MessageRole.SYSTEM
        (JStr ("Error processing task: " ++ str_exn E e)) (JStr (clock E (2 + n))) JNull
  end.

Definition outcome_status (r : outcome json) : TaskStatus.t :=
  match r with
  | Ok _ => TaskStatus.COMPLETED
  | Raise _ => TaskStatus.FAILED
  end.

(** The task [t] after a processed message. *)
Definition task_after_send (E : env) (n : nat) (t : Task.t)
    (message : TaskMessage.t) (r : outcome json) : Task.t :=
  Task.mk (Task.task_id t) (outcome_status r)
    (Task.messages t ++ [message; outcome_message E n r])
    (Task.metadata t) (Task.created_at t) (JStr (clock E (3 + n))).

(** The counters after [k] more readings of the clock. *)
Definition tick (k : nat) (c : counters) : counters :=
  {| ticks := k + ticks c; uuids := uuids c; posts := posts c |}.

(** A handler that never returns [None]. *)
Definition returns_value (h : handler) : Prop :=
  forall params a v a', h params a = (Ok v, a') -> is_none v = false.


(** The [except] clause of [register_agent], reached with the exception [e]
    after [n] requests: it prints a line and gives [False], unless that
    print raises. *)
Definition reported (E : env) (n : nat) (agent_url : json) (e : exn)
  : outcome bool :=
  match stdout_write E n ("Error registering agent at " ++ py_str E agent_url
                          ++ ": " ++ str_exn E e) with
  | Ok _ => Ok false
  | Raise e' => Raise e'
  end.


(** The computation leaves the task store and the registry alone. *)
Definition io_only {A} (c : M A) : Prop :=
  forall a, tasks (snd (c a)) = tasks a /\
            registered_agents (snd (c a)) = registered_agents a.

(** The string neither starts nor ends with white space (and is not
    empty), so [strip] keeps it wherever it occurs. *)
Definition no_edge_space (p : string) : bool :=
  match chars p, rev (chars p) with
  | c1 :: _, c2 :: _ => negb (is_space c1) && negb (is_space c2)
  | _, _ => false
  end.

(** Two messages with the same role and content. *)
Definition same_reply (m m' : TaskMessage.t) : Prop :=
  TaskMessage.role m' = TaskMessage.role m /\
  TaskMessage.content m' = TaskMessage.content m.

(** The states an agent reaches from [__init__] through calls of the
    methods that write the task store. *)
Inductive reachable (E : env) (handle_task : json -> TaskMessage.t -> outcome json)
  : agent -> Prop :=
| reach_new : reachable E handle_task new_agent
| reach_create (params : json) (a : agent) :
    reachable E handle_task a ->
    reachable E handle_task (snd (BaseAgent._create_task E params a))
| reach_send (params : json) (a : agent) :
    reachable E handle_task a ->
    reachable E handle_task
      (snd (BaseAgent._send_task_message E handle_task params a)).

(** A transport that hands the body of a request to the POST route of an
    agent in state [a], and the route's answer back to the caller. *)
Definition loopback (E : env) (methods : PyDict.t handler) (body : json)
    (a : agent) : outcome response :=
  match fst (BaseAgent.handle_jsonrpc E methods (Ok body) a) with
  | Ok (status, answer) => Ok {| status_code := status; json_body := Ok answer |}
  | Raise e => Raise e
  end.

(** The state of the agent after it served the request. *)
Definition served (E : env) (methods : PyDict.t handler) (body : json)
    (a : agent) : agent :=
  snd (BaseAgent.handle_jsonrpc E methods (Ok body) a).

(** The computation leaves the agent as it found it. *)
Definition reads_only {A} (c : M A) : Prop := forall a, snd (c a) = a.

(** A task as it rests in the store between two calls: never in progress
    nor cancelled; pending exactly when it has no message; completed or
    failed exactly as its last message is the agent's or the system's; with
    an even number of messages, all stamped, and stamped itself. *)
Definition task_at_rest (t : Task.t) : Prop :=
  Nat.even (length (Task.messages t)) = true /\
  Forall (fun m => TaskMessage.timestamp m <> JNull) (Task.messages t) /\
  Task.created_at t <> JNull /\
  Task.updated_at t <> JNull /\
  match Task.status t, rev (Task.messages t) with
  | TaskStatus.PENDING, [] => True
  | TaskStatus.COMPLETED, last :: _ => TaskMessage.role last = MessageRole.AGENT
  | TaskStatus.FAILED, last :: _ => TaskMessage.role last = MessageRole.SYSTEM
  | _, _ => False
  end.

(** Every stored task is at rest and is stored under its own [task_id]. *)
Definition store_at_rest (a : agent) : Prop :=
  forall h t, PyDict.find h (tasks a) = Some t ->
              task_at_rest t /\ hash_key (Task.task_id t) = Ok h.

(** The client after one more request. *)
Definition after_call (self : A2AClient.client) : A2AClient.client :=
  {| A2AClient.agent_url := A2AClient.agent_url self;
     A2AClient._request_id := (A2AClient._request_id self + 1)%Z;
     A2AClient.cio := {| ticks := ticks (A2AClient.cio self);
                         uuids := uuids (A2AClient.cio self);
                         posts := S (posts (A2AClient.cio self)) |} |}.

(** The client after a call that returned a task: one more request, and one
    reading of the clock by the constructor of the decoded task. *)
Definition after_task_call (self : A2AClient.client) : A2AClient.client :=
  {| A2AClient.agent_url := A2AClient.agent_url self;
     A2AClient._request_id := (A2AClient._request_id self + 1)%Z;
     A2AClient.cio := {| ticks := S (ticks (A2AClient.cio self));
                         uuids := uuids (A2AClient.cio self);
                         posts := S (posts (A2AClient.cio self)) |} |}.

(** A message as decoding leaves it: its metadata a mapping. *)
Definition decoded_message (m : TaskMessage.t) : TaskMessage.t :=
  TaskMessage.mk (TaskMessage.role m) (TaskMessage.content m)
    (TaskMessage.timestamp m) (or_empty (TaskMessage.metadata m)).

(** A task as decoding leaves it: its messages decoded, its metadata a
    mapping. *)
Definition decoded_task (t : Task.t) : Task.t :=
  Task.mk (Task.task_id t) (Task.status t)
    (map decoded_message (Task.messages t)) (or_empty (Task.metadata t))
    (Task.created_at t) (Task.updated_at t).

(** A card as decoding leaves it: its metadata a mapping. *)
Definition decoded_card (x : AgentCard.t) : AgentCard.t :=
  AgentCard.mk (AgentCard.name x) (AgentCard.description x) (AgentCard.url x)
    (AgentCard.skills x) (AgentCard.version x)
    (AgentCard.supported_interaction_modes x) (or_empty (AgentCard.metadata x)).

(** [n] slashes. *)
Definition slashes (n : nat) : string := of_chars (repeat "/"%char n).

(** The request [_call_method] sends: the client's next id, version 2.0. *)
Definition request_of (self : A2AClient.client) (method : string) (params : json)
  : JSONRPCRequest.t :=
  JSONRPCRequest.mk (JStr method) params
    (JInt (A2AClient._request_id self + 1)) (JStr "2.0").

(** The client's next POST reaches the agent in state [a]: the reply to the
    body of [req] is the one the agent's route gives. *)
Definition connected (Ec Es : env) (methods : PyDict.t handler)
    (self : A2AClient.client) (req : JSONRPCRequest.t) (a : agent) : Prop :=
  http_post Ec (posts (A2AClient.cio self)) (A2AClient.agent_url self)
    (JSONRPCRequest.to_dict req)
  = loopback Es methods (JSONRPCRequest.to_dict req) a.

(** The response extraction in the specification's words: the content of the
    most recent agent-role message, or the literal when there is none. *)
Definition spec_last_agent_response (messages : list TaskMessage.t) : json :=
  match find (fun m => MessageRole.eqb (TaskMessage.role m) MessageRole.AGENT)
             (rev messages) with
  | Some m => TaskMessage.content m
  | None => JStr "No response from agent"
  end.

(** ** Values for the examples *)

(** The task [createTask] stores for [{"task_id": "t1"}] on a new agent,
    and the agent afterwards. *)
Definition demo_task : Task.t :=
  Task.mk (JStr "t1") TaskStatus.PENDING [] (JObj [])
    (JStr (clock demo_env 0)) (JStr (clock demo_env 0)).

Definition demo_agent : agent :=
  {| tasks := [(JStr "t1", demo_task)];
     registered_agents := [];
     io := {| ticks := 1; uuids := 1; posts := 0 |} |}.

(** The task [createTask] stores for an empty [task_id], and the agent
    afterwards. *)
Definition unnamed_task : Task.t :=
  Task.mk (JStr EmptyString) TaskStatus.PENDING [] (JObj [])
    (JStr (clock demo_env 0)) (JStr (clock demo_env 0)).

Definition unnamed_agent : agent :=
  {| tasks := [(JStr EmptyString, unnamed_task)];
     registered_agents := [];
     io := {| ticks := 1; uuids := 1; posts := 0 |} |}.

(** [TaskMessage(role=MessageRole.USER, content="hello")], built at
    the given time: the metadata is [None]. *)
Definition hello_message : TaskMessage.t :=
  TaskMessage.mk MessageRole.USER (JStr "hello") (JStr "2023-01-01T00:00:00Z") JNull.

Definition plain_message : TaskMessage.t :=
  TaskMessage.mk MessageRole.AGENT (JStr "4") (JStr "2023-01-01T00:00:01Z") (JObj []).

Definition plain_task : Task.t :=
  Task.mk (JStr "test-123") TaskStatus.COMPLETED [plain_message]
    (JObj [("demo", JStr "task_lifecycle")])
    (JStr "2023-01-01T00:00:00Z") (JStr "2023-01-01T00:00:01Z").

Definition plain_card : AgentCard.t :=
  AgentCard.mk (JStr "CalculatorAgent") (JStr "Performs calculations")
    (JStr "http://localhost:5001")
    [Skill.mk (JStr "calculate") (JStr "Evaluate an expression") (JObj [])
       [InteractionMode.TEXT]]
    (JStr "1.0") [InteractionMode.TEXT] (JObj [("type", JStr "calculator")]).

Definition translator_card : AgentCard.t :=
  AgentCard.mk (JStr "TranslatorAgent") (JStr "Translates phrases")
    (JStr "http://localhost:5002") [] (JStr "1.0") [InteractionMode.TEXT] (JObj []).

(** A network for the examples in which every peer answers [createTask]
    with a fresh task and [sendTaskMessage] with that task completed by one
    agent message. *)
Definition answered_task : Task.t :=
  Task.mk (JStr "t1") TaskStatus.COMPLETED
    [TaskMessage.mk MessageRole.USER (JStr "calculate 2 + 2 in spanish")
       (JStr (clock demo_env 1)) JNull;
     TaskMessage.mk MessageRole.AGENT (JStr "done")
       (JStr (clock demo_env 3)) JNull]
    (JObj []) (JStr (clock demo_env 0)) (JStr (clock demo_env 4)).

(** An agent that holds that task between two others. *)
Definition answered_agent : agent :=
  {| tasks := [(JStr "t0", demo_task); (JStr "t1", answered_task);
               (JStr "t2", plain_task)];
     registered_agents := [];
     io := {| ticks := 5; uuids := 1; posts := 0 |} |}.

Definition peer_reply (result : json) : outcome response :=
  Ok {| status_code := 200;
        json_body := Ok (JObj [("jsonrpc", JStr "2.0"); ("id", JInt 1);
                               ("result", result)]) |}.

Definition peers_env : env := {|
  py_repr := py_repr demo_env;
  interp_msg := interp_msg demo_env;
  clock := clock demo_env;
  uuid4 := uuid4 demo_env;
  http_post := fun _ _ body =>
    match py_getitem body "method" with
    | Ok m =>
        if eq_str m "createTask" then peer_reply (Task.to_dict demo_task)
        else if eq_str m "sendTaskMessage" then peer_reply (Task.to_dict answered_task)
        else if eq_str m "getAgentCard" then peer_reply (AgentCard.to_dict plain_card)
        else Raise (RequestException "connection refused")
    | Raise e => Raise e
    end;
  stdout_write := stdout_write demo_env
|}.

(** A network for the examples in which the peer at port 5001 answers every
    message with [4] and every other peer with [cuatro]. *)
Definition answer_of (url : json) : Task.t :=
  Task.mk (JStr "t1") TaskStatus.COMPLETED
    [TaskMessage.mk MessageRole.USER (JStr "calculate 2 + 2 in spanish")
       (JStr (clock demo_env 1)) JNull;
     TaskMessage.mk MessageRole.AGENT
       (if eq_str url "http://localhost:5001" then JStr "4" else JStr "cuatro")
       (JStr (clock demo_env 3)) JNull]
    (JObj []) (JStr (clock demo_env 0)) (JStr (clock demo_env 4)).

Definition two_peers_env : env := {|
  py_repr := py_repr demo_env;
  interp_msg := interp_msg demo_env;
  clock := clock demo_env;
  uuid4 := uuid4 demo_env;
  http_post := fun _ url body =>
    match py_getitem body "method" with
    | Ok m =>
        if eq_str m "createTask" then peer_reply (Task.to_dict demo_task)
        else if eq_str m "sendTaskMessage" then peer_reply (Task.to_dict (answer_of url))
        else Raise (RequestException "connection refused")
    | Raise e => Raise e
    end;
  stdout_write := stdout_write demo_env
|}.

(** The same environment with another standard output. *)
Definition with_stdout (E : env) (write : nat -> string -> outcome unit) : env := {|
  py_repr := py_repr E;
  interp_msg := interp_msg E;
  clock := clock E;
  uuid4 := uuid4 E;
  http_post := http_post E;
  stdout_write := write
|}.


Definition orchestrator_with_both : agent :=
  {| tasks := [];
     registered_agents := [(JStr "CalculatorAgent", plain_card);
                           (JStr "TranslatorAgent", translator_card)];
     io := no_io |}.

Definition get_missing_task : JSONRPCRequest.t :=
  JSONRPCRequest.mk (JStr "getTask") (JObj [("task_id", JStr "missing")])
    (JInt 7) (JStr "2.0").

Definition send_to_missing_task : JSONRPCRequest.t :=
  JSONRPCRequest.mk (JStr "sendTaskMessage")
    (JObj [("task_id", JStr "missing"); ("content", JStr "hello")])
    (JInt 2) (JStr "2.0").

Definition not_found_error : JSONRPCError.t :=
  JSONRPCError.mk (JInt METHOD_NOT_FOUND) (JStr "Method not found") JNull.

(** [JSONRPCResponse(id=1)] and
    [JSONRPCResponse(id=1, result="ok", error=not_found_error)]. *)
Definition response_with_neither : JSONRPCResponse.t :=
  JSONRPCResponse.mk (JInt 1) JNull None (JStr "2.0").

Definition response_with_both : JSONRPCResponse.t :=
  JSONRPCResponse.mk (JInt 1) (JStr "ok") (Some not_found_error) (JStr "2.0").

Definition error_response_value : JSONRPCResponse.t :=
  JSONRPCResponse.mk (JInt 1) JNull (Some not_found_error) (JStr "2.0").

(** The methods of the agent of the examples. *)
Definition demo_methods : PyDict.t handler :=
  standard_methods demo_env demo_handler demo_card.

(** A network for the examples in which the first POST of a process
    reaches the agent of the examples in the state [first], and every later
    one reaches it in the state [later]. *)
Definition wired_env (first later : agent) : env := {|
  py_repr := py_repr demo_env;
  interp_msg := interp_msg demo_env;
  clock := clock demo_env;
  uuid4 := uuid4 demo_env;
  http_post := fun n _ body =>
    loopback demo_env demo_methods body
      (match n with 0 => first | S _ => later end);
  stdout_write := stdout_write demo_env
|}.

(** A standard output that refuses the lines that name a registered agent
    (as one that cannot encode the name would) and accepts the others. *)
Definition picky_stdout (n : nat) (text : string) : outcome unit :=
  if starts_with "Registered agent: " text
  then Raise (ValueError "'ascii' codec can't encode character")
  else Ok tt.

(** The agent of the examples after [createTask] without parameters. *)
Definition agent_with_new_task : agent :=
  snd (BaseAgent._create_task demo_env (JObj []) new_agent).

(** [A2AClient("http://localhost:5001/")] in a new process. *)
Definition demo_client : A2AClient.client :=
  A2AClient.init "http://localhost:5001/" no_io.

(* ================================================================== *)
(** * Round trips of the wire encodings *)
(* ================================================================== *)

Lemma or_empty_dict (v : json) : is_dict v = true -> or_empty v = v.
Proof.
  destruct v as [| | | | |kvs]; simpl; try discriminate.
  intros _. destruct kvs; reflexivity.
Qed.

Lemma is_none_false (v : json) : v <> JNull -> is_none v = false.
Proof. destruct v; simpl; congruence. Qed.

Lemma MessageRole_of_value_value (r : MessageRole.t) :
  MessageRole.of_value (JStr (MessageRole.value r)) = Ok r.
Proof. destruct r; reflexivity. Qed.

Lemma TaskStatus_of_value_value (s : TaskStatus.t) :
  TaskStatus.of_value (JStr (TaskStatus.value s)) = Ok s.
Proof. destruct s; reflexivity. Qed.

Lemma InteractionMode_of_value_value (m : InteractionMode.t) :
  InteractionMode.of_value (JStr (InteractionMode.value m)) = Ok m.
Proof. destruct m; reflexivity. Qed.

Lemma modes_roundtrip (l : list InteractionMode.t) :
  map_outcome InteractionMode.of_value
    (map (fun mode => JStr (InteractionMode.value mode)) l) = Ok l.
Proof.
  induction l as [|m l IH]; simpl; [reflexivity|].
  rewrite InteractionMode_of_value_value. simpl. rewrite IH. reflexivity.
Qed.

Lemma Skill_roundtrip (s : Skill.t) :
  AgentCard.skill_from (Skill.to_dict s) = Ok s.
Proof.
  destruct s as [n d p ms]. unfold AgentCard.skill_from, Skill.to_dict. simpl.
  rewrite modes_roundtrip. reflexivity.
Qed.

Lemma skills_roundtrip (l : list Skill.t) :
  map_outcome AgentCard.skill_from (map Skill.to_dict l) = Ok l.
Proof.
  induction l as [|s l IH]; simpl; [reflexivity|].
  rewrite Skill_roundtrip. simpl. rewrite IH. reflexivity.
Qed.

Lemma AgentCard_roundtrip (x : AgentCard.t) :
  is_dict (AgentCard.metadata x) = true ->
  AgentCard.from_dict (AgentCard.to_dict x) = Ok x.
Proof.
  intros Hm. destruct x as [n d u sk v ms md].
  unfold AgentCard.from_dict, AgentCard.to_dict. simpl in *.
  rewrite skills_roundtrip. simpl. rewrite modes_roundtrip. simpl.
  rewrite (or_empty_dict _ Hm). reflexivity.
Qed.

Lemma JSONRPCRequest_roundtrip (x : JSONRPCRequest.t) :
  JSONRPCRequest.from_dict (JSONRPCRequest.to_dict x) = Ok x.
Proof.
  destruct x as [m p i v].
  unfold JSONRPCRequest.from_dict, JSONRPCRequest.to_dict. simpl.
  destruct p; reflexivity.
Qed.

Lemma JSONRPCResponse_roundtrip (x : JSONRPCResponse.t) :
  JSONRPCResponse.error x = None \/ JSONRPCResponse.result x = JNull ->
  JSONRPCResponse.from_dict (JSONRPCResponse.to_dict x) = Ok x.
Proof.
  destruct x as [i r e v]. simpl.
  unfold JSONRPCResponse.from_dict, JSONRPCResponse.to_dict. simpl.
  destruct e as [[c m d]|]; simpl.
  - intros [H|H]; [discriminate|]. subst r.
    destruct d; reflexivity.
  - intros _. reflexivity.
Qed.

Lemma TaskMessage_roundtrip (E : env) (x : TaskMessage.t) (c : counters) :
  message_plain x ->
  TaskMessage.from_dict E (TaskMessage.to_dict x) c = (Ok x, c).
Proof.
  intros [Ht Hm]. destruct x as [r ct ts md]. simpl in *.
  unfold TaskMessage.from_dict, TaskMessage.to_dict, bind, pure. simpl.
  rewrite MessageRole_of_value_value.
  unfold TaskMessage.init. rewrite (is_none_false _ Ht).
  rewrite (or_empty_dict _ Hm). reflexivity.
Qed.

Lemma messages_roundtrip (E : env) (l : list TaskMessage.t) (c : counters) :
  Forall message_plain l ->
  map_st (TaskMessage.from_dict E) (map TaskMessage.to_dict l) c = (Ok l, c).
Proof.
  induction 1 as [|m l Hm _ IH]; simpl; [reflexivity|].
  unfold bind. rewrite (TaskMessage_roundtrip E m c Hm). rewrite IH.
  reflexivity.
Qed.

Lemma Task_roundtrip (E : env) (x : Task.t) (c : counters) :
  task_plain x ->
  fst (Task.from_dict E (Task.to_dict x) c) = Ok x.
Proof.
  intros (Hc & Hu & Hm & Hl). destruct x as [i s ms md ca ua]. simpl in *.
  unfold Task.from_dict, Task.to_dict, bind, pure. simpl.
  rewrite (messages_roundtrip E ms c Hl).
  rewrite TaskStatus_of_value_value.
  unfold Task.init, bind, utcnow, ret. simpl.
  rewrite (is_none_false _ Hc), (is_none_false _ Hu), (or_empty_dict _ Hm).
  reflexivity.
Qed.

(* ================================================================== *)
(** * Running the monad *)
(* ================================================================== *)

Lemma bind_ok {S A B} (c : ST S A) (k : A -> ST S B) (s s' : S) (a : A) :
  c s = (Ok a, s') -> bind c k s = k a s'.
Proof. intros H. unfold bind. rewrite H. reflexivity. Qed.

Lemma bind_raise {S A B} (c : ST S A) (k : A -> ST S B) (s s' : S) (e : exn) :
  c s = (Raise e, s') -> bind c k s = (Raise e, s').
Proof. intros H. unfold bind. rewrite H. reflexivity. Qed.

Lemma try_ok {S A} (c : ST S A) (h : exn -> ST S A) (s s' : S) (a : A) :
  c s = (Ok a, s') -> try_except c h s = (Ok a, s').
Proof. intros H. unfold try_except. rewrite H. reflexivity. Qed.

Lemma try_raise {S A} (c : ST S A) (h : exn -> ST S A) (s s' : S) (e : exn) :
  c s = (Raise e, s') -> try_except c h s = h e s'.
Proof. intros H. unfold try_except. rewrite H. reflexivity. Qed.

Lemma bind_inv {S A B} (c : ST S A) (k : A -> ST S B) (s s' : S) (b : B) :
  bind c k s = (Ok b, s') ->
  exists x s1, c s = (Ok x, s1) /\ k x s1 = (Ok b, s').
Proof.
  unfold bind. destruct (c s) as [[x|e] s1]; intros H; [|discriminate].
  exists x, s1. split; [reflexivity|assumption].
Qed.

Ltac bind_inv H :=
  let x := fresh "x" in
  let s := fresh "s" in
  apply bind_inv in H; destruct H as (x & s & _ & H); cbv beta in H.

(* ================================================================== *)
(** * Lookups in objects *)
(* ================================================================== *)

Lemma py_get_obj kvs k default :
  py_get (JObj kvs) k default =
  Ok (match obj_lookup k kvs with Some v => v | None => default end).
Proof. simpl. destruct (obj_lookup k kvs); reflexivity. Qed.

(* ================================================================== *)
(** * Substrings under [lower] and [strip] *)
(* ================================================================== *)

Lemma starts_with_app (p b : string) : starts_with p (p ++ b) = true.
Proof.
  induction p as [|c p IH]; simpl; [reflexivity|].
  rewrite Ascii.eqb_refl. assumption.
Qed.

Lemma starts_with_inv (p s : string) :
  starts_with p s = true -> exists b, s = (p ++ b)%string.
Proof.
  revert s. induction p as [|c p IH]; intros s H; simpl in *.
  - exists s. reflexivity.
  - destruct s as [|c' s]; [discriminate|].
    apply andb_true_iff in H. destruct H as [Hc Hp].
    apply Ascii.eqb_eq in Hc. subst c'.
    destruct (IH s Hp) as [b ->]. exists b. reflexivity.
Qed.

Lemma str_in_starts (p s : string) :
  starts_with p s = true -> str_in p s = true.
Proof. intros H. destruct s; simpl; rewrite H; reflexivity. Qed.

Lemma str_in_app (p a b : string) : str_in p (a ++ p ++ b) = true.
Proof.
  induction a as [|c a IH].
  - change (str_in p (p ++ b) = true). apply str_in_starts, starts_with_app.
  - simpl. rewrite IH. apply orb_true_r.
Qed.

Lemma str_in_inv (p s : string) :
  str_in p s = true -> exists a b, s = (a ++ p ++ b)%string.
Proof.
  induction s as [|c s IH]; simpl; intros H.
  - rewrite orb_false_r in H. destruct (starts_with_inv _ _ H) as [b Hb].
    exists EmptyString, b. assumption.
  - apply orb_true_iff in H. destruct H as [H|H].
    + destruct (starts_with_inv _ _ H) as [b Hb]. exists EmptyString, b. assumption.
    + destruct (IH H) as (a & b & ->). exists (String c a), b. reflexivity.
Qed.

Lemma lower_app (a b : string) : lower (a ++ b) = (lower a ++ lower b)%string.
Proof. induction a as [|c a IH]; simpl; congruence. Qed.

Lemma chars_app (a b : string) : chars (a ++ b) = chars a ++ chars b.
Proof. induction a as [|c a IH]; simpl; congruence. Qed.

Lemma of_chars_app (x y : list ascii) :
  of_chars (x ++ y) = (of_chars x ++ of_chars y)%string.
Proof. induction x as [|c x IH]; simpl; congruence. Qed.

Lemma of_chars_chars (s : string) : of_chars (chars s) = s.
Proof. induction s as [|c s IH]; simpl; congruence. Qed.

Lemma lstrip_keeps (x l : list ascii) (c : ascii) :
  is_space c = false ->
  exists x', lstrip_chars (x ++ c :: l) = x' ++ c :: l.
Proof.
  intros Hc. induction x as [|c' x IH]; simpl.
  - rewrite Hc. exists []. reflexivity.
  - destruct (is_space c').
    + exact IH.
    + exists (c' :: x). reflexivity.
Qed.

(** [strip] keeps an occurrence of a string without white space at its
    ends. *)
Lemma str_in_strip (p s : string) :
  no_edge_space p = true -> str_in p s = true -> str_in p (strip s) = true.
Proof.
  unfold no_edge_space. intros Hp Hin.
  destruct (chars p) as [|c1 p1] eqn:Hcp; [discriminate|].
  destruct (rev (c1 :: p1)) as [|c2 p2] eqn:Hrp; [discriminate|].
  rewrite <- Hcp in Hrp.
  apply andb_true_iff in Hp. destruct Hp as [H1 H2].
  apply negb_true_iff in H1, H2.
  destruct (str_in_inv _ _ Hin) as (a & b & Hs). subst s.
  unfold strip. rewrite !chars_app, Hcp.
  change (chars a ++ (c1 :: p1) ++ chars b)
    with (chars a ++ c1 :: (p1 ++ chars b)).
  destruct (lstrip_keeps (chars a) (p1 ++ chars b) c1 H1) as [x' ->].
  change (x' ++ c1 :: p1 ++ chars b) with (x' ++ (c1 :: p1) ++ chars b).
  rewrite <- Hcp, !rev_app_distr, Hrp, <- app_assoc.
  change ((c2 :: p2) ++ rev x') with (c2 :: (p2 ++ rev x')).
  destruct (lstrip_keeps (rev (chars b)) (p2 ++ rev x') c2 H2) as [y' ->].
  change (y' ++ c2 :: p2 ++ rev x') with (y' ++ (c2 :: p2) ++ rev x').
  rewrite <- Hrp, !rev_app_distr, !rev_involutive, <- app_assoc.
  rewrite !of_chars_app, of_chars_chars. apply str_in_app.
Qed.

Lemma str_in_lower (p s : string) :
  lower p = p -> str_in p s = true -> str_in p (lower s) = true.
Proof.
  intros Hp Hin. destruct (str_in_inv _ _ Hin) as (a & b & Hs). subst s.
  rewrite !lower_app, Hp. apply str_in_app.
Qed.

(* ================================================================== *)
(** * The dispatcher *)
(* ================================================================== *)

Section Dispatcher.

Variable E : env.

Lemma contains_str {V} (d : PyDict.t V) (m : string) :
  PyDict.contains d (JStr m) =
  Ok (match PyDict.find (HStr m) d with Some _ => true | None => false end).
Proof. reflexivity. Qed.

Lemma handle_request_unregistered (methods : PyDict.t handler)
    (req : JSONRPCRequest.t) (m : string) (a : agent) :
  JSONRPCRequest.method req = JStr m ->
  PyDict.find (HStr m) methods = None ->
  BaseAgent._handle_request E methods req a =
  (Ok (BaseAgent.error_response (JSONRPCRequest.id req) METHOD_NOT_FOUND
         ("Method '" ++ m ++ "' not found")), a).
Proof.
  intros Hm Hf. unfold BaseAgent._handle_request, bind, pure.
  rewrite Hm, contains_str, Hf. reflexivity.
Qed.

Lemma handle_request_registered (methods : PyDict.t handler)
    (req : JSONRPCRequest.t) (m : string) (h : handler) (a : agent) :
  JSONRPCRequest.method req = JStr m ->
  PyDict.find (HStr m) methods = Some h ->
  BaseAgent._handle_request E methods req a =
  match h (or_empty (JSONRPCRequest.params req)) a with
  | (Ok r, a') =>
      (Ok (JSONRPCResponse.mk (JSONRPCRequest.id req) r None (JStr "2.0")), a')
  | (Raise e, a') =>
      (Ok (BaseAgent.error_response (JSONRPCRequest.id req) INTERNAL_ERROR
             (str_exn E e)), a')
  end.
Proof.
  intros Hm Hf. unfold BaseAgent._handle_request, bind, pure, try_except.
  rewrite Hm, contains_str, Hf. simpl. unfold PyDict.get. simpl. rewrite Hf.
  destruct (h (or_empty (JSONRPCRequest.params req)) a) as [[r|e] a'];
    reflexivity.
Qed.

End Dispatcher.

(* ================================================================== *)
(** * Dictionaries *)
(* ================================================================== *)

Lemma hkey_eqb_eq (a b : hkey) : hkey_eqb a b = true <-> a = b.
Proof.
  destruct a, b; simpl; split; intros H; try discriminate; try reflexivity.
  - apply Z.eqb_eq in H. congruence.
  - inversion H. apply Z.eqb_refl.
  - apply String.eqb_eq in H. congruence.
  - inversion H. apply String.eqb_refl.
Qed.

Lemma hkey_eqb_refl (a : hkey) : hkey_eqb a a = true.
Proof. apply hkey_eqb_eq. reflexivity. Qed.

Section DictLemmas.

Context {V : Type}.
Implicit Types (d : PyDict.t V) (h : hkey) (k : json) (v : V).

Lemma same_key_both h h' k :
  PyDict.same_key h k = true -> PyDict.same_key h' k = true -> h = h'.
Proof.
  unfold PyDict.same_key. destruct (hash_key k) as [x|]; [|discriminate].
  intros H1 H2. apply hkey_eqb_eq in H1, H2. congruence.
Qed.

Lemma same_key_other h h' k :
  h <> h' -> PyDict.same_key h k = true -> PyDict.same_key h' k = false.
Proof.
  intros Hne H1. destruct (PyDict.same_key h' k) eqn:H2; [|reflexivity].
  exfalso. apply Hne. eapply same_key_both; eassumption.
Qed.

Lemma find_replace_same h v d :
  PyDict.find h d <> None -> PyDict.find h (PyDict.replace h v d) = Some v.
Proof.
  induction d as [|[k w] d IH]; simpl; [congruence|].
  destruct (PyDict.same_key h k) eqn:Hk; simpl; rewrite Hk; auto.
Qed.

Lemma find_replace_other h h' v d :
  h <> h' -> PyDict.find h' (PyDict.replace h v d) = PyDict.find h' d.
Proof.
  intros Hne. induction d as [|[k w] d IH]; simpl; [reflexivity|].
  destruct (PyDict.same_key h k) eqn:Hk; simpl.
  - rewrite (same_key_other h h' k Hne Hk). reflexivity.
  - destruct (PyDict.same_key h' k); auto.
Qed.

Lemma replace_replace h v v' d :
  PyDict.replace h v (PyDict.replace h v' d) = PyDict.replace h v d.
Proof.
  induction d as [|[k w] d IH]; simpl; [reflexivity|].
  destruct (PyDict.same_key h k) eqn:Hk; simpl; rewrite Hk; congruence.
Qed.

Lemma keys_replace h v d : PyDict.keys (PyDict.replace h v d) = PyDict.keys d.
Proof.
  unfold PyDict.keys. induction d as [|[k w] d IH]; simpl; [reflexivity|].
  destruct (PyDict.same_key h k); simpl; congruence.
Qed.

Lemma find_put_same h k v d :
  hash_key k = Ok h -> PyDict.find h (PyDict.put h k v d) = Some v.
Proof.
  intros Hk. induction d as [|[k' w] d IH]; simpl.
  - unfold PyDict.same_key. rewrite Hk, hkey_eqb_refl. reflexivity.
  - destruct (PyDict.same_key h k') eqn:Hk'; simpl; rewrite Hk'; auto.
Qed.

Lemma find_put_other h h' k v d :
  hash_key k = Ok h -> h <> h' ->
  PyDict.find h' (PyDict.put h k v d) = PyDict.find h' d.
Proof.
  intros Hk Hne. induction d as [|[k' w] d IH]; simpl.
  - unfold PyDict.same_key. rewrite Hk.
    destruct (hkey_eqb h' h) eqn:Heq; [|reflexivity].
    apply hkey_eqb_eq in Heq. congruence.
  - destruct (PyDict.same_key h k') eqn:Hk'; simpl.
    + rewrite (same_key_other h h' k' Hne Hk'). reflexivity.
    + destruct (PyDict.same_key h' k'); auto.
Qed.

(** A key that is there keeps its place and its key object. *)
Lemma put_present h k v d :
  PyDict.find h d <> None -> PyDict.put h k v d = PyDict.replace h v d.
Proof.
  induction d as [|[k' w] d IH]; simpl; [congruence|].
  destruct (PyDict.same_key h k'); [reflexivity|].
  intros H. rewrite IH by assumption. reflexivity.
Qed.

Lemma length_replace h v d : length (PyDict.replace h v d) = length d.
Proof.
  induction d as [|[k w] d IH]; simpl; [reflexivity|].
  destruct (PyDict.same_key h k); simpl; congruence.
Qed.

End DictLemmas.

(* ================================================================== *)
(** * The task lifecycle *)
(* ================================================================== *)

Section Lifecycle.

Variable E : env.
Variable handle_task : json -> TaskMessage.t -> outcome json.
Variable get_agent_card : AgentCard.t.

Lemma mutate_found (h : hkey) (f : Task.t -> ST counters Task.t)
    (d : PyDict.t Task.t) (ra : PyDict.t AgentCard.t) (c c' : counters)
    (t t' : Task.t) :
  PyDict.find h d = Some t ->
  f t c = (Ok t', c') ->
  BaseAgent.mutate h f {| tasks := d; registered_agents := ra; io := c |} =
  (Ok tt, {| tasks := PyDict.replace h t' d; registered_agents := ra; io := c' |}).
Proof.
  intros Hf Hc.
  unfold BaseAgent.mutate, BaseAgent.deref, bind, get_tasks, lift, set_tasks, ret.
  simpl. rewrite Hf. simpl. rewrite Hc. reflexivity.
Qed.

Lemma deref_found (h : hkey) (d : PyDict.t Task.t)
    (ra : PyDict.t AgentCard.t) (c : counters) (t : Task.t) :
  PyDict.find h d = Some t ->
  BaseAgent.deref h {| tasks := d; registered_agents := ra; io := c |} =
  (Ok t, {| tasks := d; registered_agents := ra; io := c |}).
Proof.
  intros Hf. unfold BaseAgent.deref, bind, get_tasks, ret. simpl.
  rewrite Hf. reflexivity.
Qed.

Lemma send_task_message_processed (kvs : list (string * json))
    (d : PyDict.t Task.t) (ra : PyDict.t AgentCard.t) (c : counters)
    (task_id content : json) (h : hkey) (t : Task.t) (role : MessageRole.t) :
  obj_lookup "task_id" kvs = Some task_id ->
  truthy task_id = true ->
  hash_key task_id = Ok h ->
  PyDict.find h d = Some t ->
  MessageRole.of_value
    (match obj_lookup "role" kvs with Some v => v | None => JStr "user" end)
    = Ok role ->
  obj_lookup "content" kvs = Some content ->
  let metadata := match obj_lookup "metadata" kvs with Some v => v | None => JNull end in
  let message := inbound_message E (ticks c) role content metadata in
  let t' := task_after_send E (ticks c) t message (handle_task task_id message) in
  BaseAgent._send_task_message E handle_task (JObj kvs) {| tasks := d; registered_agents := ra; io := c |} =
  (Ok (Task.to_dict t'),
   {| tasks := PyDict.replace h t' d; registered_agents := ra; io := tick 4 c |}).
Proof.
  intros Hid Htr Hh Hf Hrole Hcontent metadata message t'.
  assert (Hne : forall v, PyDict.find h (PyDict.replace h v d) <> None).
  { intros v. rewrite find_replace_same; congruence. }
  unfold BaseAgent._send_task_message.
  erewrite bind_ok by (unfold pure; rewrite py_get_obj, Hid; reflexivity); cbv beta.
  rewrite Htr. change (negb true) with false. cbv iota.
  erewrite bind_ok by
    (unfold BaseAgent.not_in_tasks, bind, get_tasks, pure, PyDict.contains, ret;
     simpl; rewrite Hh, Hf; reflexivity); cbv beta.
  cbv beta. change (negb true) with false. cbv iota.
  erewrite bind_ok by
    (unfold BaseAgent.task_ref, bind, get_tasks, pure, ret; simpl;
     rewrite Hh, Hf; reflexivity); cbv beta.
  erewrite bind_ok by (unfold pure; rewrite py_get_obj; reflexivity); cbv beta.
  erewrite bind_ok by (unfold pure; rewrite Hrole; reflexivity); cbv beta.
  erewrite bind_ok by (unfold pure; simpl; rewrite Hcontent; reflexivity); cbv beta.
  erewrite bind_ok by (unfold pure; rewrite py_get_obj; reflexivity); cbv beta.
  erewrite bind_ok by (unfold lift, TaskMessage.init, bind, utcnow, ret; simpl; reflexivity); cbv beta.
  fold metadata. fold (inbound_message E (ticks c) role content metadata). fold message.
  erewrite bind_ok by
    (eapply mutate_found; [eassumption|];
     unfold Task.add_message, bind, utcnow, ret; simpl; reflexivity); cbv beta.
  erewrite bind_ok by
    (eapply mutate_found; [apply find_replace_same; congruence|];
     unfold ret; reflexivity); cbv beta.
  rewrite replace_replace.
  subst t'. destruct (handle_task task_id message) as [rc|e] eqn:Hht.
  - erewrite bind_ok.
    2:{ apply try_ok.
        erewrite bind_ok by (unfold pure; reflexivity); cbv beta.
        erewrite bind_ok by
          (unfold lift, TaskMessage.init, bind, utcnow, ret; simpl; reflexivity);
          cbv beta.
        erewrite bind_ok by
          (eapply mutate_found; [apply find_replace_same; congruence|];
           unfold Task.add_message, bind, utcnow, ret; simpl; reflexivity);
          cbv beta.
        rewrite replace_replace.
        eapply mutate_found; [apply find_replace_same; congruence|].
        unfold ret; reflexivity. }
    cbv beta. rewrite replace_replace.
    erewrite bind_ok by (apply deref_found; apply find_replace_same; congruence).
    unfold ret, task_after_send, Task.set_status. simpl.
    rewrite <- app_assoc. reflexivity.
  - erewrite bind_ok.
    2:{ erewrite try_raise by (unfold bind, pure; reflexivity).
        erewrite bind_ok by
          (eapply mutate_found; [apply find_replace_same; congruence|];
           unfold ret; reflexivity); cbv beta.
        rewrite replace_replace.
        erewrite bind_ok by
          (unfold lift, TaskMessage.init, bind, utcnow, ret; simpl; reflexivity);
          cbv beta.
        eapply mutate_found; [apply find_replace_same; congruence|].
        unfold Task.add_message, bind, utcnow, ret; simpl; reflexivity. }
    cbv beta. rewrite replace_replace.
    erewrite bind_ok by (apply deref_found; apply find_replace_same; congruence).
    unfold ret, task_after_send, Task.set_status. simpl.
    rewrite <- app_assoc. reflexivity.
Qed.

(** A message for a task id that names no stored task raises before
    anything is touched. *)
Lemma send_task_message_not_found (params : json) (a : agent) :
  named_task (tasks a) params = None ->
  exists e, BaseAgent._send_task_message E handle_task params a = (Raise e, a).
Proof.
  unfold named_task. intros Hn.
  unfold BaseAgent._send_task_message.
  destruct (py_get params "task_id" JNull) as [task_id|e] eqn:Hid.
  2:{ exists e. apply bind_raise. unfold pure. reflexivity. }
  erewrite bind_ok by (unfold pure; reflexivity); cbv beta.
  destruct (truthy task_id) eqn:Htr.
  - change (negb true) with false. cbv iota.
    destruct (hash_key task_id) as [h|e] eqn:Hh.
    + erewrite bind_ok by
        (unfold BaseAgent.not_in_tasks, bind, get_tasks, pure, PyDict.contains, ret;
         cbv beta; rewrite Hh; cbv beta iota; rewrite Hn; reflexivity); cbv beta.
      eexists. reflexivity.
    + exists e. apply bind_raise.
      unfold BaseAgent.not_in_tasks, bind, get_tasks, pure, PyDict.contains.
      cbv beta. rewrite Hh. reflexivity.
  - change (negb false) with true. cbv iota.
    erewrite bind_ok by reflexivity; cbv beta.
    eexists. reflexivity.
Qed.

(** [createTask] in closed form. *)
Lemma create_task_stored (kvs : list (string * json)) (d : PyDict.t Task.t)
    (ra : PyDict.t AgentCard.t) (c : counters) (h : hkey) :
  let task_id := match obj_lookup "task_id" kvs with
                 | Some v => v
                 | None => JStr (uuid4 E (uuids c))
                 end in
  let metadata := match obj_lookup "metadata" kvs with
                  | Some v => v
                  | None => JObj []
                  end in
  let now := JStr (clock E (ticks c)) in
  let task := Task.mk task_id TaskStatus.PENDING [] metadata now now in
  hash_key task_id = Ok h ->
  BaseAgent._create_task E (JObj kvs) {| tasks := d; registered_agents := ra; io := c |} =
  (Ok (Task.to_dict task),
   {| tasks := PyDict.put h task_id task d; registered_agents := ra;
      io := {| ticks := S (ticks c); uuids := S (uuids c); posts := posts c |} |}).
Proof.
  intros task_id metadata now task Hh.
  unfold BaseAgent._create_task.
  erewrite bind_ok by (unfold lift, new_uuid; simpl; reflexivity); cbv beta.
  erewrite bind_ok by (unfold pure; rewrite py_get_obj; reflexivity); cbv beta.
  erewrite bind_ok by (unfold pure; rewrite py_get_obj; reflexivity); cbv beta.
  erewrite bind_ok by
    (unfold lift, Task.init, bind, utcnow, ret; simpl; reflexivity); cbv beta.
  erewrite bind_ok by reflexivity; cbv beta.
  erewrite bind_ok by
    (unfold pure, PyDict.setitem; simpl tasks; fold task_id; rewrite Hh; reflexivity);
    cbv beta.
  reflexivity.
Qed.


(** ** The store invariant behind [updated_at] *)

Lemma stamped_later (n n' : nat) (t : Task.t) :
  n <= n' -> stamped E n t -> stamped E n' t.
Proof. intros Hle (i & Hi & Hu). exists i. split; [lia|assumption]. Qed.

Lemma store_ok_new : store_ok E new_agent.
Proof. intros h t H. discriminate. Qed.

Lemma store_ok_create_task (params : json) (a : agent) :
  store_ok E a -> store_ok E (snd (BaseAgent._create_task E params a)).
Proof.
  intros Hok. destruct a as [d ra c].
  destruct params as [| | | | |kvs]; try exact Hok.
  destruct (hash_key (match obj_lookup "task_id" kvs with
                      | Some v => v
                      | None => JStr (uuid4 E (uuids c))
                      end)) as [h|e] eqn:Hh.
  - rewrite (create_task_stored kvs d ra c h Hh). simpl.
    intros h' t Hf. simpl in Hf.
    destruct (hkey_eqb h h') eqn:Heq.
    + apply hkey_eqb_eq in Heq. subst h'.
      rewrite (find_put_same _ _ _ _ Hh) in Hf. inversion Hf. subst t.
      exists (ticks c). split; [simpl; lia|reflexivity].
    + assert (Hne : h <> h') by (intros ->; rewrite hkey_eqb_refl in Heq; discriminate).
      rewrite (find_put_other _ _ _ _ _ Hh Hne) in Hf.
      apply (stamped_later (ticks c)); [simpl; lia|]. exact (Hok h' t Hf).
  - unfold BaseAgent._create_task.
    erewrite bind_ok by (unfold lift, new_uuid; simpl; reflexivity); cbv beta.
    erewrite bind_ok by (unfold pure; rewrite py_get_obj; reflexivity); cbv beta.
    erewrite bind_ok by (unfold pure; rewrite py_get_obj; reflexivity); cbv beta.
    erewrite bind_ok by
      (unfold lift, Task.init, bind, utcnow, ret; simpl; reflexivity); cbv beta.
    erewrite bind_ok by reflexivity; cbv beta.
    erewrite bind_raise by
      (unfold pure, PyDict.setitem; simpl tasks; rewrite Hh; reflexivity).
    simpl. intros h' t Hf. simpl in Hf.
    apply (stamped_later (ticks c)); [simpl; lia|]. exact (Hok h' t Hf).
Qed.


(** A call either raises before touching anything, or processes the
    message. *)
Lemma send_task_message_cases (params : json) (d : PyDict.t Task.t)
    (ra : PyDict.t AgentCard.t) (c : counters) :
  (exists e, BaseAgent._send_task_message E handle_task params
               {| tasks := d; registered_agents := ra; io := c |} =
             (Raise e, {| tasks := d; registered_agents := ra; io := c |})) \/
  (exists kvs task_id h t role content,
     params = JObj kvs /\
     obj_lookup "task_id" kvs = Some task_id /\
     truthy task_id = true /\
     hash_key task_id = Ok h /\
     PyDict.find h d = Some t /\
     MessageRole.of_value
       (match obj_lookup "role" kvs with Some v => v | None => JStr "user" end)
       = Ok role /\
     obj_lookup "content" kvs = Some content).
Proof.
  set (a := {| tasks := d; registered_agents := ra; io := c |}).
  destruct (named_task d params) as [t|] eqn:Hn.
  2:{ left. apply (send_task_message_not_found params a Hn). }
  unfold named_task in Hn.
  destruct params as [| | | | |kvs]; try discriminate.
  rewrite py_get_obj in Hn.
  destruct (obj_lookup "task_id" kvs) as [task_id|] eqn:Hid.
  2:{ left. eexists. unfold BaseAgent._send_task_message.
      erewrite bind_ok by (unfold pure; rewrite py_get_obj, Hid; reflexivity).
      cbv beta. simpl. reflexivity. }
  destruct (hash_key task_id) as [h|] eqn:Hh; [|discriminate].
  destruct (truthy task_id) eqn:Htr.
  2:{ left. eexists. unfold BaseAgent._send_task_message.
      erewrite bind_ok by (unfold pure; rewrite py_get_obj, Hid; reflexivity).
      cbv beta. rewrite Htr. simpl. reflexivity. }
  destruct (MessageRole.of_value
              (match obj_lookup "role" kvs with Some v => v | None => JStr "user" end))
    as [role|e] eqn:Hrole.
  2:{ left. exists e. unfold BaseAgent._send_task_message.
      erewrite bind_ok by (unfold pure; rewrite py_get_obj, Hid; reflexivity).
      cbv beta. rewrite Htr. change (negb true) with false. cbv iota.
      erewrite bind_ok by
        (unfold BaseAgent.not_in_tasks, bind, get_tasks, pure, PyDict.contains, ret;
         simpl; rewrite Hh, Hn; reflexivity).
      cbv beta. change (negb true) with false. cbv iota.
      erewrite bind_ok by
        (unfold BaseAgent.task_ref, bind, get_tasks, pure, ret; simpl;
         rewrite Hh, Hn; reflexivity).
      cbv beta.
      erewrite bind_ok by (unfold pure; rewrite py_get_obj; reflexivity).
      cbv beta. apply bind_raise. unfold pure. rewrite Hrole. reflexivity. }
  destruct (obj_lookup "content" kvs) as [content|] eqn:Hcontent.
  2:{ left. eexists. unfold BaseAgent._send_task_message.
      erewrite bind_ok by (unfold pure; rewrite py_get_obj, Hid; reflexivity).
      cbv beta. rewrite Htr. change (negb true) with false. cbv iota.
      erewrite bind_ok by
        (unfold BaseAgent.not_in_tasks, bind, get_tasks, pure, PyDict.contains, ret;
         simpl; rewrite Hh, Hn; reflexivity).
      cbv beta. change (negb true) with false. cbv iota.
      erewrite bind_ok by
        (unfold BaseAgent.task_ref, bind, get_tasks, pure, ret; simpl;
         rewrite Hh, Hn; reflexivity).
      cbv beta.
      erewrite bind_ok by (unfold pure; rewrite py_get_obj; reflexivity).
      cbv beta.
      erewrite bind_ok by (unfold pure; rewrite Hrole; reflexivity).
      cbv beta. apply bind_raise. unfold pure. simpl. rewrite Hcontent.
      reflexivity. }
  right. exists kvs, task_id, h, t, role, content. repeat split; assumption.
Qed.

Lemma store_ok_send_task_message (params : json) (a : agent) :
  store_ok E a ->
  store_ok E (snd (BaseAgent._send_task_message E handle_task params a)).
Proof.
  intros Hok. destruct a as [d ra c].
  destruct (send_task_message_cases params d ra c)
    as [[e He]|(kvs & task_id & h & t & role & content & -> & Hid & Htr & Hh & Hf & Hrole & Hc)].
  - rewrite He. exact Hok.
  - rewrite (send_task_message_processed kvs d ra c task_id content h t role
               Hid Htr Hh Hf Hrole Hc).
    simpl. intros h' t' Hf'. simpl in Hf'.
    destruct (hkey_eqb h h') eqn:Heq.
    + apply hkey_eqb_eq in Heq. subst h'.
      rewrite find_replace_same in Hf' by congruence. inversion Hf'.
      exists (3 + ticks c). split; [simpl; lia|reflexivity].
    + assert (Hne : h <> h') by (intros ->; rewrite hkey_eqb_refl in Heq; discriminate).
      rewrite (find_replace_other _ _ _ _ Hne) in Hf'.
      apply (stamped_later (ticks c)); [simpl; lia|]. exact (Hok h' t' Hf').
Qed.


(** ** The claims about the task store *)

(** C1 (amended).  A [sendTaskMessage] call whose [task_id] is non-empty
    and names a stored task, and whose parameters carry a [content] and a
    valid [role] (absent, it is ["user"]), returns the task; the stored task
    is then completed or failed, its messages are the former ones followed
    by the inbound message and exactly one outcome message (agent-role with
    the handler's response when the handler returns, system-role when it
    raises), and its [updated_at] is a reading of the clock made no earlier
    than the reading that stamped it before.  No other task changes. *)
Theorem send_task_message_lifecycle (kvs : list (string * json))
    (d : PyDict.t Task.t) (ra : PyDict.t AgentCard.t) (c : counters)
    (task_id content : json) (h : hkey) (t : Task.t) (role : MessageRole.t) :
  obj_lookup "task_id" kvs = Some task_id ->
  truthy task_id = true ->
  hash_key task_id = Ok h ->
  PyDict.find h d = Some t ->
  MessageRole.of_value
    (match obj_lookup "role" kvs with Some v => v | None => JStr "user" end)
    = Ok role ->
  obj_lookup "content" kvs = Some content ->
  stamped E (ticks c) t ->
  exists t' a' inbound outcome,
    BaseAgent._send_task_message E handle_task (JObj kvs)
      {| tasks := d; registered_agents := ra; io := c |} = (Ok (Task.to_dict t'), a') /\
    PyDict.find h (tasks a') = Some t' /\
    (Task.status t' = TaskStatus.COMPLETED \/ Task.status t' = TaskStatus.FAILED) /\
    Task.messages t' = Task.messages t ++ [inbound; outcome] /\
    length (Task.messages t') = length (Task.messages t) + 2 /\
    TaskMessage.role inbound = role /\
    TaskMessage.content inbound = content /\
    match handle_task task_id inbound with
    | Ok response_content =>
        Task.status t' = TaskStatus.COMPLETED /\
        TaskMessage.role outcome = MessageRole.AGENT /\
        TaskMessage.content outcome = response_content
    | Raise e =>
        Task.status t' = TaskStatus.FAILED /\
        TaskMessage.role outcome = MessageRole.SYSTEM /\
        TaskMessage.content outcome = JStr ("Error processing task: " ++ str_exn E e)
    end /\
    (exists i j, i <= j /\ Task.updated_at t = JStr (clock E i) /\
                 Task.updated_at t' = JStr (clock E j)) /\
    (forall h', h <> h' -> PyDict.find h' (tasks a') = PyDict.find h' d).
Proof.
  intros Hid Htr Hh Hf Hrole Hc (i & Hi & Hu).
  pose proof (send_task_message_processed kvs d ra c task_id content h t role
                Hid Htr Hh Hf Hrole Hc) as Hrun.
  cbv zeta in Hrun.
  set (metadata := match obj_lookup "metadata" kvs with Some v => v | None => JNull end) in *.
  set (inbound := inbound_message E (ticks c) role content metadata) in *.
  exists (task_after_send E (ticks c) t inbound (handle_task task_id inbound)).
  eexists. exists inbound, (outcome_message E (ticks c) (handle_task task_id inbound)).
  split; [exact Hrun|]. simpl.
  split; [apply find_replace_same; congruence|].
  split; [destruct (handle_task task_id inbound); simpl; auto|].
  split; [reflexivity|].
  split; [rewrite length_app; reflexivity|].
  split; [reflexivity|]. split; [reflexivity|].
  split; [destruct (handle_task task_id inbound); simpl; auto|].
  split.
  - exists i, (3 + ticks c). split; [lia|]. split; [assumption|reflexivity].
  - intros h' Hne. apply find_replace_other. assumption.
Qed.

(** C3.  A [sendTaskMessage] request whose [task_id] names no stored task
    leaves the agent as it was, and the dispatcher answers with an error and
    no result. *)
Theorem send_task_message_unknown_task (methods : PyDict.t handler)
    (req : JSONRPCRequest.t) (a : agent) :
  JSONRPCRequest.method req = JStr "sendTaskMessage" ->
  PyDict.find (HStr "sendTaskMessage") methods =
    Some (BaseAgent._send_task_message E handle_task) ->
  named_task (tasks a) (or_empty (JSONRPCRequest.params req)) = None ->
  exists resp,
    BaseAgent._handle_request E methods req a = (Ok resp, a) /\
    has_error resp = true /\
    has_result resp = false /\
    JSONRPCResponse.id resp = JSONRPCRequest.id req.
Proof.
  intros Hm Hreg Hn.
  rewrite (handle_request_registered E methods req _ _ a Hm Hreg).
  destruct (send_task_message_not_found _ a Hn) as [e He]. rewrite He.
  eexists. split; [reflexivity|]. repeat split.
Qed.

(** C10.  A [createTask] call whose [task_id] already names a stored task
    succeeds and puts a fresh task in its place: pending, without messages,
    with the metadata of the call (or [{}]) and both timestamps read from
    the clock now; nothing of the task it replaces is kept, whatever its
    status and history.  The store gets no new entry, the slot keeps its
    place, and no other task changes. *)
Theorem create_task_replaces (kvs : list (string * json)) (d : PyDict.t Task.t)
    (ra : PyDict.t AgentCard.t) (c : counters) (task_id : json) (h : hkey)
    (old : Task.t) :
  obj_lookup "task_id" kvs = Some task_id ->
  hash_key task_id = Ok h ->
  PyDict.find h d = Some old ->
  let now := JStr (clock E (ticks c)) in
  let metadata := match obj_lookup "metadata" kvs with
                  | Some v => v
                  | None => JObj []
                  end in
  let task := Task.mk task_id TaskStatus.PENDING [] metadata now now in
  BaseAgent._create_task E (JObj kvs)
    {| tasks := d; registered_agents := ra; io := c |} =
  (Ok (Task.to_dict task),
   {| tasks := PyDict.replace h task d; registered_agents := ra;
      io := {| ticks := S (ticks c); uuids := S (uuids c); posts := posts c |} |}) /\
  PyDict.find h (PyDict.replace h task d) = Some task /\
  PyDict.keys (PyDict.replace h task d) = PyDict.keys d /\
  (forall h', h <> h' ->
     PyDict.find h' (PyDict.replace h task d) = PyDict.find h' d).
Proof.
  intros Hid Hh Hf now metadata task.
  pose proof (create_task_stored kvs d ra c h) as Hrun. cbv zeta in Hrun.
  rewrite Hid in Hrun. specialize (Hrun Hh).
  rewrite put_present in Hrun by congruence.
  split; [exact Hrun|].
  split; [apply find_replace_same; congruence|].
  split; [apply keys_replace|].
  intros h' Hne. apply find_replace_other. assumption.
Qed.

End Lifecycle.

(* ================================================================== *)
(** * The claims about the envelope and the dispatcher *)
(* ================================================================== *)

Section Envelope.

Variable E : env.
Variable handle_task : json -> TaskMessage.t -> outcome json.
Variable get_agent_card : AgentCard.t.

(** C5 (amended).  For a request whose method is registered, the dispatcher
    calls the handler on [params], or on the empty mapping when [params] is
    absent or empty; a result becomes the response's [result]; an exception
    does not leave the dispatcher but becomes a response with the request's
    id, the code [-32603], the exception's text in the error's [message]
    and no [data].  For a method that is not registered the response
    carries the request's id and the code [-32601]. *)
Theorem dispatch_contract (methods : PyDict.t handler) (req : JSONRPCRequest.t)
    (m : string) (a : agent) :
  JSONRPCRequest.method req = JStr m ->
  match PyDict.find (HStr m) methods with
  | None =>
      BaseAgent._handle_request E methods req a =
      (Ok (JSONRPCResponse.mk (JSONRPCRequest.id req) JNull
             (Some (JSONRPCError.mk (JInt (-32601))
                      (JStr ("Method '" ++ m ++ "' not found")) JNull))
             (JStr "2.0")), a)
  | Some h =>
      match h (or_empty (JSONRPCRequest.params req)) a with
      | (Ok r, a') =>
          BaseAgent._handle_request E methods req a =
          (Ok (JSONRPCResponse.mk (JSONRPCRequest.id req) r None (JStr "2.0")), a')
      | (Raise e, a') =>
          BaseAgent._handle_request E methods req a =
          (Ok (JSONRPCResponse.mk (JSONRPCRequest.id req) JNull
                 (Some (JSONRPCError.mk (JInt (-32603)) (JStr (str_exn E e)) JNull))
                 (JStr "2.0")), a')
      end
  end.
Proof.
  intros Hm. destruct (PyDict.find (HStr m) methods) as [h|] eqn:Hf.
  - rewrite (handle_request_registered E methods req m h a Hm Hf).
    destruct (h (or_empty (JSONRPCRequest.params req)) a) as [[r|e] a'];
      reflexivity.
  - apply (handle_request_unregistered E methods req m a Hm Hf).
Qed.

Lemma ret_dict_value {S} (t : Task.t) (s s' : S) (v : json) :
  ret (Task.to_dict t) s = (Ok v, s') -> is_none v = false.
Proof. unfold ret. intros H. inversion H. reflexivity. Qed.

Lemma get_agent_card_returns_value :
  returns_value (BaseAgent._get_agent_card get_agent_card).
Proof. intros p a v a' H. inversion H. reflexivity. Qed.

Lemma create_task_returns_value : returns_value (BaseAgent._create_task E).
Proof.
  intros p a v a' H. unfold BaseAgent._create_task in H.
  destruct p; try discriminate.
  do 7 bind_inv H. eapply ret_dict_value. eassumption.
Qed.

Lemma send_task_message_returns_value :
  returns_value (BaseAgent._send_task_message E handle_task).
Proof.
  intros p a v a' H. unfold BaseAgent._send_task_message in H.
  do 2 bind_inv H. destruct x0; [discriminate|].
  do 10 bind_inv H. eapply ret_dict_value. eassumption.
Qed.

Lemma get_task_returns_value : returns_value (BaseAgent._get_task E).
Proof.
  intros p a v a' H. unfold BaseAgent._get_task in H.
  do 2 bind_inv H. destruct x0; [discriminate|].
  do 2 bind_inv H. eapply ret_dict_value. eassumption.
Qed.

Lemma list_tasks_returns_value : returns_value BaseAgent._list_tasks.
Proof.
  intros p a v a' H. unfold BaseAgent._list_tasks in H.
  bind_inv H. inversion H. reflexivity.
Qed.


Lemma standard_methods_entries :
  standard_methods E handle_task get_agent_card =
  [(JStr "getAgentCard", BaseAgent._get_agent_card get_agent_card);
   (JStr "createTask", BaseAgent._create_task E);
   (JStr "sendTaskMessage", BaseAgent._send_task_message E handle_task);
   (JStr "getTask", BaseAgent._get_task E);
   (JStr "listTasks", BaseAgent._list_tasks)].
Proof. reflexivity. Qed.

Lemma find_In {V} (h : hkey) (d : PyDict.t V) (v : V) :
  PyDict.find h d = Some v -> In v (PyDict.values d).
Proof.
  unfold PyDict.values. induction d as [|[k w] d IH]; simpl; [discriminate|].
  destruct (PyDict.same_key h k).
  - intros H. inversion H. left. reflexivity.
  - intros H. right. auto.
Qed.

Lemma handle_request_shape (methods : PyDict.t handler) (req : JSONRPCRequest.t)
    (a a' : agent) (resp : JSONRPCResponse.t) :
  BaseAgent._handle_request E methods req a = (Ok resp, a') ->
  (has_error resp = true /\ JSONRPCResponse.result resp = JNull) \/
  (exists h, In h (PyDict.values methods) /\
             h (or_empty (JSONRPCRequest.params req)) a =
               (Ok (JSONRPCResponse.result resp), a') /\
             JSONRPCResponse.error resp = None).
Proof.
  unfold BaseAgent._handle_request, bind, pure, try_except, PyDict.contains,
    PyDict.get.
  destruct (hash_key (JSONRPCRequest.method req)) as [h|e]; [|discriminate].
  destruct (PyDict.find h methods) as [handler|] eqn:Hf; simpl.
  - destruct (handler (or_empty (JSONRPCRequest.params req)) a) as [[r|e] s] eqn:Hrun;
      intros H; inversion H; subst; simpl.
    + right. exists handler. split; [eapply find_In; eassumption|]. auto.
    + left. auto.
  - intros H. inversion H. left. auto.
Qed.

(** C2 (amended).  The encoding of a response holds exactly one of the keys
    ["result"] and ["error"], whatever the response.  A response of the
    dispatcher never has both fields set: it has an error and no result, or
    no error and as result the value its handler returned; so it has
    exactly one of the two when no registered handler returns [None], as is
    the case for the five standard methods. *)
Theorem response_result_xor_error :
  (forall r : JSONRPCResponse.t,
     xorb (has_key "result" (JSONRPCResponse.to_dict r))
          (has_key "error" (JSONRPCResponse.to_dict r)) = true) /\
  (forall methods req a resp a',
     BaseAgent._handle_request E methods req a = (Ok resp, a') ->
     has_result resp && has_error resp = false /\
     ((forall h, In h (PyDict.values methods) -> returns_value h) ->
      xorb (has_result resp) (has_error resp) = true)) /\
  (forall req a resp a',
     BaseAgent._handle_request E (standard_methods E handle_task get_agent_card)
       req a = (Ok resp, a') ->
     xorb (has_result resp) (has_error resp) = true).
Proof.
  assert (Hgen : forall methods req a resp a',
     BaseAgent._handle_request E methods req a = (Ok resp, a') ->
     has_result resp && has_error resp = false /\
     ((forall h, In h (PyDict.values methods) -> returns_value h) ->
      xorb (has_result resp) (has_error resp) = true)).
  { intros methods req a resp a' H.
    destruct (handle_request_shape methods req a a' resp H)
      as [[He Hr]|(h & Hin & Hrun & He)].
    - unfold has_result. rewrite Hr, He. auto.
    - unfold has_error. rewrite He. split; [apply andb_false_r|].
      intros Hall. unfold has_result. rewrite (Hall h Hin _ _ _ _ Hrun).
      reflexivity. }
  split; [|split].
  - intros [i r [e|] v]; reflexivity.
  - exact Hgen.
  - intros req a resp a' H. apply (Hgen _ _ _ _ _ H).
    rewrite standard_methods_entries. simpl.
    intros h [<-|[<-|[<-|[<-|[<-|[]]]]]].
    + apply get_agent_card_returns_value.
    + apply create_task_returns_value.
    + apply send_task_message_returns_value.
    + apply get_task_returns_value.
    + apply list_tasks_returns_value.
Qed.

End Envelope.

(** C4 (amended).  Decoding the encoding gives the value back for every
    request; for every response that does not carry both an error and a
    result (the error round-trips inside it); and for every agent card,
    task message and task whose metadata are mappings and whose timestamps
    are set.  (A metadata of [None] is encoded as the empty mapping and
    decodes as such.) *)
Theorem wire_roundtrip (E : env) (c : counters)
    (req : JSONRPCRequest.t) (resp : JSONRPCResponse.t) (card : AgentCard.t)
    (msg : TaskMessage.t) (task : Task.t) :
  JSONRPCResponse.error resp = None \/ JSONRPCResponse.result resp = JNull ->
  is_dict (AgentCard.metadata card) = true ->
  message_plain msg ->
  task_plain task ->
  JSONRPCRequest.from_dict (JSONRPCRequest.to_dict req) = Ok req /\
  JSONRPCResponse.from_dict (JSONRPCResponse.to_dict resp) = Ok resp /\
  AgentCard.from_dict (AgentCard.to_dict card) = Ok card /\
  fst (TaskMessage.from_dict E (TaskMessage.to_dict msg) c) = Ok msg /\
  fst (Task.from_dict E (Task.to_dict task) c) = Ok task.
Proof.
  intros Hresp Hcard Hmsg Htask.
  split; [apply JSONRPCRequest_roundtrip|].
  split; [apply JSONRPCResponse_roundtrip; assumption|].
  split; [apply AgentCard_roundtrip; assumption|].
  split; [rewrite TaskMessage_roundtrip by assumption; reflexivity|].
  apply Task_roundtrip; assumption.
Qed.

(* ================================================================== *)
(** * The orchestrator *)
(* ================================================================== *)

Section Orchestrator.

Variable E : env.




(** ** Delegation consults the network and nothing else *)

Lemma io_only_ret {A} (x : A) : io_only (ret x).
Proof. intros a. split; reflexivity. Qed.

Lemma io_only_pure {A} (r : outcome A) : io_only (pure r).
Proof. intros a. split; reflexivity. Qed.

Lemma io_only_lift {A} (c : ST counters A) : io_only (lift c).
Proof. intros a. unfold lift. destruct (c (io a)). split; reflexivity. Qed.

Lemma io_only_bind {A B} (c : M A) (k : A -> M B) :
  io_only c -> (forall x, io_only (k x)) -> io_only (bind c k).
Proof.
  intros Hc Hk a. unfold bind. specialize (Hc a).
  destruct (c a) as [[x|e] a1]; simpl in *; [|assumption].
  destruct (Hk x a1) as [H1 H2]. destruct Hc as [H3 H4].
  split; congruence.
Qed.

Lemma io_only_try {A} (c : M A) (h : exn -> M A) :
  io_only c -> (forall e, io_only (h e)) -> io_only (try_except c h).
Proof.
  intros Hc Hh a. unfold try_except. specialize (Hc a).
  destruct (c a) as [[x|e] a1]; simpl in *; [assumption|].
  destruct (Hh e a1) as [H1 H2]. destruct Hc as [H3 H4].
  split; congruence.
Qed.

Lemma delegate_io_only (card : AgentCard.t) (content : string) :
  io_only (OrchestratorAgent._delegate_to_agent E card content).
Proof.
  unfold OrchestratorAgent._delegate_to_agent.
  apply io_only_try; [|intros e; apply io_only_ret].
  apply io_only_bind; [apply io_only_lift|]. intros r1.
  destruct (negb (status_code r1 =? 200)%Z); [apply io_only_ret|].
  repeat (apply io_only_bind; [first [apply io_only_pure|apply io_only_lift]|intros ?]).
  destruct (negb _); [apply io_only_ret|].
  repeat (apply io_only_bind; [apply io_only_pure|intros ?]).
  apply io_only_pure.
Qed.

(** Delegation never raises. *)
Lemma delegate_returns (card : AgentCard.t) (content : string) (a : agent) :
  exists v, fst (OrchestratorAgent._delegate_to_agent E card content a) = Ok v.
Proof.
  unfold OrchestratorAgent._delegate_to_agent, try_except.
  match goal with |- context [match ?c a with _ => _ end] => destruct (c a) as [[v|e] a1] end.
  - exists v. reflexivity.
  - eexists. reflexivity.
Qed.

Lemma route_to_registered (words : list string) (agent_name prefix content : string)
    (card : AgentCard.t) (a : agent) :
  OrchestratorAgent.any_word_in words content = true ->
  PyDict.find (HStr agent_name) (registered_agents a) = Some card ->
  exists r a',
    OrchestratorAgent.route_to E words agent_name prefix content a =
      (Ok [(prefix ++ r)%string], a') /\
    registered_agents a' = registered_agents a /\ tasks a' = tasks a.
Proof.
  intros Hw Hf. unfold OrchestratorAgent.route_to. rewrite Hw.
  unfold bind at 1, get_registered_agents at 1. rewrite Hf.
  destruct (delegate_returns card content a) as [v Hv].
  destruct (delegate_io_only card content a) as [Ht Hr].
  unfold bind.
  destruct (OrchestratorAgent._delegate_to_agent E card content a) as [r a'].
  simpl in *. subst r. exists (py_str E v), a'. auto.
Qed.

Lemma route_to_skips (words : list string) (agent_name prefix content : string)
    (a : agent) :
  OrchestratorAgent.any_word_in words content = false \/
  PyDict.find (HStr agent_name) (registered_agents a) = None ->
  OrchestratorAgent.route_to E words agent_name prefix content a = (Ok [], a).
Proof.
  intros H. unfold OrchestratorAgent.route_to.
  destruct (OrchestratorAgent.any_word_in words content); [|reflexivity].
  destruct H as [H|H]; [discriminate|].
  unfold bind, get_registered_agents. rewrite H. reflexivity.
Qed.

Lemma route_to_delegates (words : list string) (agent_name prefix content : string)
    (card : AgentCard.t) (a a' : agent) (v : json) :
  OrchestratorAgent.any_word_in words content = true ->
  PyDict.find (HStr agent_name) (registered_agents a) = Some card ->
  OrchestratorAgent._delegate_to_agent E card content a = (Ok v, a') ->
  OrchestratorAgent.route_to E words agent_name prefix content a =
  (Ok [(prefix ++ py_str E v)%string], a').
Proof.
  intros Hw Hf Hd. unfold OrchestratorAgent.route_to. rewrite Hw.
  unfold bind at 1, get_registered_agents at 1. rewrite Hf.
  unfold bind. rewrite Hd. reflexivity.
Qed.

(** C7.  A message that is not a discovery request and whose normalized
    content matches both keyword sets, with [CalculatorAgent] and
    [TranslatorAgent] registered, is delegated to both, the calculator
    first: the result is the calculator's section, which holds what the
    delegation to the calculator's card returned, a blank line, and the
    translator's section, which holds what the delegation to the
    translator's card returned, in that order. *)
Theorem route_matches_both (task_id : json) (message : TaskMessage.t) (s : string)
    (calculator translator : AgentCard.t) (a : agent) :
  TaskMessage.content message = JStr s ->
  let content := strip (lower s) in
  OrchestratorAgent.any_word_in OrchestratorAgent.discovery_phrases content = false ->
  OrchestratorAgent.any_word_in OrchestratorAgent.calculator_words content = true ->
  OrchestratorAgent.any_word_in OrchestratorAgent.translator_words content = true ->
  PyDict.find (HStr "CalculatorAgent") (registered_agents a) = Some calculator ->
  PyDict.find (HStr "TranslatorAgent") (registered_agents a) = Some translator ->
  exists v1 a1 v2 a2,
    OrchestratorAgent._delegate_to_agent E calculator content a = (Ok v1, a1) /\
    OrchestratorAgent._delegate_to_agent E translator content a1 = (Ok v2, a2) /\
    OrchestratorAgent.handle_task E task_id message a =
      (Ok (JStr ("Calculator: " ++ py_str E v1 ++ nl ++ nl
                 ++ "Translator: " ++ py_str E v2)), a2) /\
    OrchestratorAgent._orchestrate_task E content a =
      OrchestratorAgent.handle_task E task_id message a.
Proof.
  intros Hc content Hd Hcalc Htrans Hfc Hft.
  destruct (delegate_returns calculator content a) as [v1 Hv1].
  destruct (delegate_io_only calculator content a) as [_ Hreg1].
  destruct (OrchestratorAgent._delegate_to_agent E calculator content a)
    as [r1 a1] eqn:Hd1.
  simpl in Hv1, Hreg1. subst r1.
  destruct (delegate_returns translator content a1) as [v2 Hv2].
  destruct (OrchestratorAgent._delegate_to_agent E translator content a1)
    as [r2 a2] eqn:Hd2.
  simpl in Hv2. subst r2.
  exists v1, a1, v2, a2. split; [reflexivity|]. split; [exact Hd2|].
  unfold OrchestratorAgent.handle_task. rewrite Hc. fold content. rewrite Hd.
  split; [|reflexivity].
  unfold OrchestratorAgent._orchestrate_task.
  erewrite bind_ok by (eapply route_to_delegates; eassumption). cbv beta.
  rewrite <- Hreg1 in Hft.
  erewrite bind_ok by (eapply route_to_delegates; eassumption). cbv beta.
  reflexivity.
Qed.


(** C9.  With no agent registered, a message whose content contains a
    discovery phrase (["list agents"] among them) is answered, without any
    change of state, by a text that contains ["no agents"] once put in lower
    case. *)
Theorem list_agents_empty_registry (task_id : json) (message : TaskMessage.t)
    (s phrase : string) (a : agent) :
  registered_agents a = [] ->
  TaskMessage.content message = JStr s ->
  In phrase OrchestratorAgent.discovery_phrases ->
  str_in phrase s = true ->
  exists text,
    OrchestratorAgent.handle_task E task_id message a = (Ok (JStr text), a) /\
    str_in "no agents" (lower text) = true.
Proof.
  intros Hreg Hc Hphrase Hin.
  assert (Hnorm : str_in phrase (strip (lower s)) = true).
  { apply str_in_strip; [|apply str_in_lower; [|assumption]];
      simpl in Hphrase;
      destruct Hphrase as [<-|[<-|[<-|[]]]]; reflexivity. }
  unfold OrchestratorAgent.handle_task. rewrite Hc.
  assert (Hany : OrchestratorAgent.any_word_in OrchestratorAgent.discovery_phrases
                   (strip (lower s)) = true).
  { apply existsb_exists. exists phrase. split; assumption. }
  rewrite Hany.
  unfold OrchestratorAgent._list_agents, bind, get_registered_agents.
  rewrite Hreg. eexists. split; [reflexivity|]. vm_compute. reflexivity.
Qed.

End Orchestrator.

(* ================================================================== *)
(** * The two response extractions *)
(* ================================================================== *)

Section Extraction.

Variable E : env.

Lemma client_scan_find (l : list TaskMessage.t) :
  A2AClient.last_agent_message l =
  match find (fun m => MessageRole.eqb (TaskMessage.role m) MessageRole.AGENT) l with
  | Some m => TaskMessage.content m
  | None => JStr "No response from agent"
  end.
Proof.
  induction l as [|m l IH]; simpl; [reflexivity|].
  destruct (MessageRole.eqb (TaskMessage.role m) MessageRole.AGENT); auto.
Qed.

Lemma orchestrator_scan_encoded (l : list TaskMessage.t) :
  OrchestratorAgent.last_agent_message (map TaskMessage.to_dict l) =
  Ok (A2AClient.last_agent_message l).
Proof.
  induction l as [|m l IH]; simpl; [reflexivity|].
  destruct m as [r ct ts md]. simpl. destruct r; simpl; auto.
Qed.

Lemma message_decodes (m : TaskMessage.t) (c : counters) :
  exists m' c',
    TaskMessage.from_dict E (TaskMessage.to_dict m) c = (Ok m', c') /\
    same_reply m m'.
Proof.
  destruct m as [r ct ts md].
  unfold TaskMessage.from_dict, TaskMessage.to_dict, bind, pure. simpl.
  rewrite MessageRole_of_value_value. unfold TaskMessage.init.
  destruct (is_none ts).
  - unfold bind, utcnow, ret. eexists. eexists. split; [reflexivity|].
    split; reflexivity.
  - unfold ret. eexists. eexists. split; [reflexivity|]. split; reflexivity.
Qed.

Lemma messages_decode (l : list TaskMessage.t) (c : counters) :
  exists l' c',
    map_st (TaskMessage.from_dict E) (map TaskMessage.to_dict l) c = (Ok l', c') /\
    Forall2 same_reply l l'.
Proof.
  revert c. induction l as [|m l IH]; intros c; simpl.
  - exists [], c. split; [reflexivity|constructor].
  - destruct (message_decodes m c) as (m' & c1 & Hm & Hs).
    destruct (IH c1) as (l' & c2 & Hl & Hf).
    exists (m' :: l'), c2. split; [|constructor; assumption].
    unfold bind. rewrite Hm, Hl. reflexivity.
Qed.

Lemma same_reply_rev (l l' : list TaskMessage.t) :
  Forall2 same_reply l l' -> Forall2 same_reply (rev l) (rev l').
Proof.
  induction 1 as [|m m' l l' Hm Hl IH]; simpl; [constructor|].
  apply Forall2_app; [assumption|]. constructor; [assumption|constructor].
Qed.

Lemma client_scan_same_reply (l l' : list TaskMessage.t) :
  Forall2 same_reply l l' ->
  A2AClient.last_agent_message l' = A2AClient.last_agent_message l.
Proof.
  induction 1 as [|m m' l l' [Hr Hc] Hl IH]; simpl; [reflexivity|].
  rewrite Hr, Hc, IH. reflexivity.
Qed.

Lemma task_decodes (t : Task.t) (c : counters) :
  exists t' c',
    Task.from_dict E (Task.to_dict t) c = (Ok t', c') /\
    Forall2 same_reply (Task.messages t) (Task.messages t').
Proof.
  destruct t as [i s ms md ca ua].
  unfold Task.from_dict, Task.to_dict. 
  erewrite bind_ok by reflexivity. cbv beta.
  erewrite bind_ok by reflexivity. cbv beta.
  destruct (messages_decode ms c) as (l' & c1 & Hl & Hf).
  erewrite bind_ok by exact Hl. cbv beta.
  erewrite bind_ok by reflexivity. cbv beta.
  erewrite bind_ok by reflexivity. cbv beta.
  erewrite bind_ok by (unfold pure; rewrite TaskStatus_of_value_value; reflexivity).
  cbv beta.
  do 3 (erewrite bind_ok by reflexivity; cbv beta).
  unfold Task.init, bind, utcnow, ret. simpl.
  eexists. eexists. split; [reflexivity|]. exact Hf.
Qed.

(** C8.  On the task a peer returns, the orchestrator's delegation, which
    reads the JSON, and the client's [chat], which reads the decoded task,
    extract the same response: the one the specification describes, the
    content of the most recent agent-role message, or the literal
    [No response from agent] (the specification's phrase up to letter case)
    when the task has no agent-role message. *)
Theorem response_extraction_agrees (t : Task.t) (c : counters) :
  OrchestratorAgent.extract_response (Task.to_dict t) =
    Ok (spec_last_agent_response (Task.messages t)) /\
  (exists t' c',
     Task.from_dict E (Task.to_dict t) c = (Ok t', c') /\
     A2AClient.extract_response t' = spec_last_agent_response (Task.messages t)) /\
  spec_last_agent_response [] = JStr "No response from agent" /\
  lower "No response from agent" = "no response from agent".
Proof.
  split; [|split; [|split; reflexivity]].
  - unfold OrchestratorAgent.extract_response, Task.to_dict. simpl.
    rewrite <- map_rev, orchestrator_scan_encoded, client_scan_find.
    reflexivity.
  - destruct (task_decodes t c) as (t' & c' & Hrun & Hf).
    exists t', c'. split; [assumption|].
    unfold A2AClient.extract_response.
    rewrite (client_scan_same_reply _ _ (same_reply_rev _ _ Hf)).
    apply client_scan_find.
Qed.

End Extraction.

(* ================================================================== *)
(** * Further properties *)
(* ================================================================== *)

Section Further.

Variable E : env.
Variable handle_task : json -> TaskMessage.t -> outcome json.

(** X1.  A [createTask] call whose task id, given or generated, can be a key
    stores and returns a task that is pending and has no messages. *)
Theorem create_task_pending (kvs : list (string * json)) (a : agent) (h : hkey) :
  hash_key (match obj_lookup "task_id" kvs with
            | Some v => v
            | None => JStr (uuid4 E (uuids (io a)))
            end) = Ok h ->
  exists task a',
    BaseAgent._create_task E (JObj kvs) a = (Ok (Task.to_dict task), a') /\
    PyDict.find h (tasks a') = Some task /\
    Task.status task = TaskStatus.PENDING /\
    Task.messages task = [] /\
    py_getitem (Task.to_dict task) "status" = Ok (JStr "pending") /\
    py_getitem (Task.to_dict task) "messages" = Ok (JArr []).
Proof.
  intros Hh. destruct a as [d ra c]. simpl in Hh.
  rewrite (create_task_stored E kvs d ra c h Hh).
  eexists. eexists. split; [reflexivity|]. simpl.
  split; [apply find_put_same; assumption|]. repeat split.
Qed.

(** X2.  Delegation never raises: whatever the network does, it returns a
    value, and neither the task store nor the registry changes. *)
Theorem delegate_never_raises (card : AgentCard.t) (content : string) (a : agent) :
  exists v a',
    OrchestratorAgent._delegate_to_agent E card content a = (Ok v, a') /\
    tasks a' = tasks a /\
    registered_agents a' = registered_agents a.
Proof.
  destruct (delegate_returns E card content a) as [v Hv].
  destruct (delegate_io_only E card content a) as [Ht Hr].
  destruct (OrchestratorAgent._delegate_to_agent E card content a) as [r a'].
  simpl in *. subst r. exists v, a'. auto.
Qed.

(** X3.  In every state an agent reaches, the [updated_at] of every stored
    task is a reading of the clock the process has made. *)
Theorem reachable_store_ok (a : agent) :
  reachable E handle_task a -> store_ok E a.
Proof.
  induction 1 as [|params a _ IH|params a _ IH].
  - apply store_ok_new.
  - apply store_ok_create_task. assumption.
  - apply store_ok_send_task_message. assumption.
Qed.

(** X4.  A content that matches no keyword set is answered with the names
    of the registered agents, and nothing is delegated. *)
Theorem route_matches_none (content : string) (names : list string) (a : agent) :
  OrchestratorAgent.any_word_in OrchestratorAgent.calculator_words content = false ->
  OrchestratorAgent.any_word_in OrchestratorAgent.translator_words content = false ->
  PyDict.keys (registered_agents a) = map JStr names ->
  OrchestratorAgent._orchestrate_task E content a =
  (Ok (JStr ("I'm not sure which agent can handle this task. Available agents: "
             ++ join ", " names)), a).
Proof.
  intros Hc Ht Hk.
  unfold OrchestratorAgent._orchestrate_task, OrchestratorAgent.route_to.
  rewrite Hc, Ht. unfold bind, ret, get_registered_agents, pure. simpl.
  rewrite Hk. unfold OrchestratorAgent.join_keys.
  assert (Hm : map_outcome
                 (fun v => match v with
                           | JStr s => Ok s
                           | _ => Raise (TypeError "join" v)
                           end) (map JStr names) = Ok names).
  { clear. induction names as [|n l IH]; simpl; [reflexivity|].
    rewrite IH. reflexivity. }
  rewrite Hm. reflexivity.
Qed.

End Further.


(* ================================================================== *)
(** * The POST route *)
(* ================================================================== *)

Section Route.

Variable E : env.

Lemma response_encoding_keys (r : JSONRPCResponse.t) :
  xorb (has_key "result" (JSONRPCResponse.to_dict r))
       (has_key "error" (JSONRPCResponse.to_dict r)) = true.
Proof. destruct r as [i r [e|] v]; reflexivity. Qed.

(** The dispatcher raises only while it looks the method up, before any
    handler runs. *)
Lemma handle_request_raise_unchanged (methods : PyDict.t handler)
    (req : JSONRPCRequest.t) (a a' : agent) (e : exn) :
  BaseAgent._handle_request E methods req a = (Raise e, a') -> a' = a.
Proof.
  unfold BaseAgent._handle_request, bind, pure, try_except, PyDict.contains,
    PyDict.get.
  destruct (hash_key (JSONRPCRequest.method req)) as [h|e0].
  - destruct (PyDict.find h methods) as [handler|]; simpl.
    + destruct (handler (or_empty (JSONRPCRequest.params req)) a) as [[r|e1] s];
        discriminate.
    + discriminate.
  - intros H. inversion H. reflexivity.
Qed.

Lemma handle_request_string (methods : PyDict.t handler)
    (req : JSONRPCRequest.t) (m : string) (a : agent) :
  JSONRPCRequest.method req = JStr m ->
  exists resp a', BaseAgent._handle_request E methods req a = (Ok resp, a').
Proof.
  intros Hm. destruct (PyDict.find (HStr m) methods) as [h|] eqn:Hf.
  - rewrite (handle_request_registered E methods req m h a Hm Hf).
    destruct (h (or_empty (JSONRPCRequest.params req)) a) as [[r|e] a'];
      eexists; eexists; reflexivity.
  - rewrite (handle_request_unregistered E methods req m a Hm Hf).
    eexists; eexists; reflexivity.
Qed.

(** X5.  The POST route never raises.  Whatever the body, it answers with
    status 200, 400 or 500 and an envelope that holds exactly one of the
    keys ["result"] and ["error"]; a body that cannot be read gives 500,
    an empty body 400; and every answer other than 200 is an error with a
    null id that leaves the agent as it was. *)
Theorem route_always_answers (methods : PyDict.t handler) (body : outcome json)
    (a : agent) :
  exists status answer a',
    BaseAgent.handle_jsonrpc E methods body a = (Ok (status, answer), a') /\
    (status = 200 \/ status = 400 \/ status = 500)%Z /\
    xorb (has_key "result" answer) (has_key "error" answer) = true /\
    (status <> 200%Z ->
     a' = a /\ has_key "error" answer = true /\ py_getitem answer "id" = Ok JNull) /\
    (forall e, body = Raise e -> status = 500%Z) /\
    (forall data, body = Ok data -> truthy data = false -> status = 400%Z).
Proof.
  unfold BaseAgent.handle_jsonrpc, try_except.
  destruct body as [data|e].
  2:{ unfold bind, pure, ret. simpl. eexists. eexists. eexists.
      split; [reflexivity|]. split; [auto|]. split; [reflexivity|].
      split; [intros _; repeat split|]. split; [reflexivity|discriminate]. }
  unfold bind at 1, pure at 1.
  destruct (truthy data) eqn:Htr; cbv beta iota delta [negb].
  2:{ unfold ret. eexists. eexists. eexists.
      split; [reflexivity|]. split; [auto|]. split; [reflexivity|].
      split; [intros _; repeat split|]. split; [discriminate|reflexivity]. }
  unfold bind at 1, pure at 1.
  destruct (JSONRPCRequest.from_dict data) as [req|e] eqn:Hreq.
  2:{ unfold ret. eexists. eexists. eexists.
      split; [reflexivity|]. split; [auto|]. split; [reflexivity|].
      split; [intros _; repeat split|].
      split; [discriminate|]. intros d Hd. inversion Hd. congruence. }
  unfold bind.
  destruct (BaseAgent._handle_request E methods req a) as [[resp|e] a'] eqn:Hrun.
  - unfold ret. eexists. eexists. eexists.
    split; [reflexivity|]. split; [auto|].
    split; [apply response_encoding_keys|].
    split; [intros H; elim H; reflexivity|].
    split; [discriminate|]. intros d Hd. inversion Hd. congruence.
  - rewrite (handle_request_raise_unchanged _ _ _ _ _ Hrun).
    unfold ret. eexists. eexists. eexists.
    split; [reflexivity|]. split; [auto|]. split; [reflexivity|].
    split; [intros _; repeat split|].
    split; [discriminate|]. intros d Hd. inversion Hd. congruence.
Qed.

Lemma request_encoding_truthy (req : JSONRPCRequest.t) :
  truthy (JSONRPCRequest.to_dict req) = true.
Proof. reflexivity. Qed.

Lemma route_encoded (methods : PyDict.t handler) (req : JSONRPCRequest.t)
    (a a' : agent) (resp : JSONRPCResponse.t) :
  BaseAgent._handle_request E methods req a = (Ok resp, a') ->
  BaseAgent.handle_jsonrpc E methods (Ok (JSONRPCRequest.to_dict req)) a =
  (Ok (200%Z, JSONRPCResponse.to_dict resp), a').
Proof.
  intros Hrun. unfold BaseAgent.handle_jsonrpc, try_except.
  unfold bind at 1, pure at 1. rewrite request_encoding_truthy. cbv beta iota delta [negb].
  unfold bind at 1, pure at 1. rewrite JSONRPCRequest_roundtrip.
  unfold bind. rewrite Hrun. reflexivity.
Qed.

(** X6.  Handed the encoding of a request whose method is a string, the
    route answers 200 with the encoding of the response the dispatcher
    gives to that request, and the agent ends in the dispatcher's state. *)
Theorem route_dispatches_encoded_request (methods : PyDict.t handler)
    (req : JSONRPCRequest.t) (m : string) (a : agent) :
  JSONRPCRequest.method req = JStr m ->
  exists resp a',
    BaseAgent._handle_request E methods req a = (Ok resp, a') /\
    BaseAgent.handle_jsonrpc E methods (Ok (JSONRPCRequest.to_dict req)) a =
      (Ok (200%Z, JSONRPCResponse.to_dict resp), a').
Proof.
  intros Hm. destruct (handle_request_string methods req m a Hm) as (resp & a' & Hrun).
  exists resp, a'. split; [assumption|]. apply route_encoded. assumption.
Qed.

End Route.

(* ================================================================== *)
(** * The standard methods *)
(* ================================================================== *)

Section Methods.

Variable E : env.
Variable handle_task : json -> TaskMessage.t -> outcome json.
Variable get_agent_card : AgentCard.t.

Lemma reads_only_ret {A} (x : A) : reads_only (ret x).
Proof. intros a. reflexivity. Qed.

Lemma reads_only_raise {A} (e : exn) : reads_only (@raise agent A e).
Proof. intros a. reflexivity. Qed.

Lemma reads_only_pure {A} (r : outcome A) : reads_only (pure r).
Proof. intros a. reflexivity. Qed.

Lemma reads_only_bind {A B} (c : M A) (k : A -> M B) :
  reads_only c -> (forall x, reads_only (k x)) -> reads_only (bind c k).
Proof.
  intros Hc Hk a. unfold bind. specialize (Hc a).
  destruct (c a) as [[x|e] a1]; simpl in *; subst a1; [apply Hk|reflexivity].
Qed.

Lemma reads_only_deref (h : hkey) : reads_only (BaseAgent.deref h).
Proof.
  apply reads_only_bind; [intros a; reflexivity|]. intros d.
  destruct (PyDict.find h d); [apply reads_only_ret|apply reads_only_raise].
Qed.

Lemma reads_only_task_ref (task_id : json) : reads_only (BaseAgent.task_ref task_id).
Proof.
  apply reads_only_bind; [intros a; reflexivity|]. intros d.
  apply reads_only_bind; [apply reads_only_pure|]. intros h.
  destruct (PyDict.find h d); [apply reads_only_ret|apply reads_only_raise].
Qed.

Lemma reads_only_not_in_tasks (task_id : json) :
  reads_only (BaseAgent.not_in_tasks task_id).
Proof.
  apply reads_only_bind; [intros a; reflexivity|]. intros d.
  apply reads_only_bind; [apply reads_only_pure|]. intros b. apply reads_only_ret.
Qed.

Lemma get_task_unchanged (params : json) : reads_only (BaseAgent._get_task E params).
Proof.
  unfold BaseAgent._get_task.
  apply reads_only_bind; [apply reads_only_pure|]. intros task_id.
  apply reads_only_bind.
  { destruct (negb (truthy task_id));
      [apply reads_only_ret|apply reads_only_not_in_tasks]. }
  intros [|]; [apply reads_only_raise|].
  apply reads_only_bind; [apply reads_only_task_ref|]. intros h.
  apply reads_only_bind; [apply reads_only_deref|]. intros t. apply reads_only_ret.
Qed.

(** Where the state after a dispatched request comes from. *)
Lemma handle_request_state (methods : PyDict.t handler) (req : JSONRPCRequest.t)
    (a : agent) :
  snd (BaseAgent._handle_request E methods req a) = a \/
  exists h, In h (PyDict.values methods) /\
            snd (BaseAgent._handle_request E methods req a) =
            snd (h (or_empty (JSONRPCRequest.params req)) a).
Proof.
  unfold BaseAgent._handle_request, bind, pure, try_except, PyDict.contains,
    PyDict.get.
  destruct (hash_key (JSONRPCRequest.method req)) as [h|e]; [|left; reflexivity].
  destruct (PyDict.find h methods) as [handler|] eqn:Hf; simpl; [|left; reflexivity].
  right. exists handler. split; [eapply find_In; eassumption|].
  destruct (handler (or_empty (JSONRPCRequest.params req)) a) as [[r|e] s];
    reflexivity.
Qed.

(** X7.  The requests [getTask], [listTasks] and [getAgentCard] only read:
    whatever their parameters, and whether they succeed or fail, the agent
    is afterwards as it was before. *)
Theorem reading_methods_change_nothing (req : JSONRPCRequest.t) (m : string)
    (a : agent) :
  JSONRPCRequest.method req = JStr m ->
  m = "getTask" \/ m = "listTasks" \/ m = "getAgentCard" ->
  snd (BaseAgent._handle_request E (standard_methods E handle_task get_agent_card)
         req a) = a.
Proof.
  intros Hm Hcases.
  assert (Hrun : forall h,
    PyDict.find (HStr m) (standard_methods E handle_task get_agent_card) = Some h ->
    (forall p, snd (h p a) = a) ->
    snd (BaseAgent._handle_request E (standard_methods E handle_task get_agent_card)
           req a) = a).
  { intros h Hf Hh. rewrite (handle_request_registered E _ req m h a Hm Hf).
    specialize (Hh (or_empty (JSONRPCRequest.params req))).
    destruct (h (or_empty (JSONRPCRequest.params req)) a) as [[r|e] a'];
      simpl in *; assumption. }
  destruct Hcases as [-> | [-> | ->]].
  - apply (Hrun (BaseAgent._get_task E)); [reflexivity|].
    intros p. apply get_task_unchanged.
  - apply (Hrun BaseAgent._list_tasks); [reflexivity|]. reflexivity.
  - apply (Hrun (BaseAgent._get_agent_card get_agent_card)); [reflexivity|].
    reflexivity.
Qed.


Lemma get_task_found (kvs : list (string * json)) (a : agent) (task_id : json)
    (h : hkey) (t : Task.t) :
  obj_lookup "task_id" kvs = Some task_id ->
  truthy task_id = true ->
  hash_key task_id = Ok h ->
  PyDict.find h (tasks a) = Some t ->
  BaseAgent._get_task E (JObj kvs) a = (Ok (Task.to_dict t), a).
Proof.
  intros Hid Htr Hh Hf. destruct a as [d ra c]. simpl in Hf.
  unfold BaseAgent._get_task.
  erewrite bind_ok by (unfold pure; rewrite py_get_obj, Hid; reflexivity).
  cbv beta. rewrite Htr. change (negb true) with false. cbv iota.
  erewrite bind_ok by
    (unfold BaseAgent.not_in_tasks, bind, get_tasks, pure, PyDict.contains, ret;
     simpl; rewrite Hh, Hf; reflexivity).
  cbv beta. change (negb true) with false. cbv iota.
  erewrite bind_ok by
    (unfold BaseAgent.task_ref, bind, get_tasks, pure, ret; simpl;
     rewrite Hh, Hf; reflexivity).
  cbv beta.
  erewrite bind_ok by (apply deref_found; eassumption).
  reflexivity.
Qed.

(** X8.  After a [createTask] whose task id, given or generated, is
    non-empty and can be a key, [getTask] on that id returns exactly what
    [createTask] returned, and changes nothing. *)
Theorem get_task_after_create (kvs : list (string * json)) (a : agent) (h : hkey) :
  let task_id := match obj_lookup "task_id" kvs with
                 | Some v => v
                 | None => JStr (uuid4 E (uuids (io a)))
                 end in
  truthy task_id = true ->
  hash_key task_id = Ok h ->
  exists v a1,
    BaseAgent._create_task E (JObj kvs) a = (Ok v, a1) /\
    BaseAgent._get_task E (JObj [("task_id", task_id)]) a1 = (Ok v, a1).
Proof.
  intros task_id Htr Hh. destruct a as [d ra c]. simpl in task_id.
  pose proof (create_task_stored E kvs d ra c h) as Hrun. cbv zeta in Hrun.
  fold task_id in Hrun. specialize (Hrun Hh).
  eexists. eexists. split; [exact Hrun|].
  apply (get_task_found _ _ task_id h); try assumption; try reflexivity.
  simpl. apply find_put_same. assumption.
Qed.

(** X9.  After a processed [sendTaskMessage], [getTask] on the same id
    returns exactly what [sendTaskMessage] returned, and changes nothing. *)
Theorem get_task_after_send (kvs : list (string * json)) (a : agent)
    (task_id content : json) (h : hkey) (t : Task.t) (role : MessageRole.t) :
  obj_lookup "task_id" kvs = Some task_id ->
  truthy task_id = true ->
  hash_key task_id = Ok h ->
  PyDict.find h (tasks a) = Some t ->
  MessageRole.of_value
    (match obj_lookup "role" kvs with Some v => v | None => JStr "user" end)
    = Ok role ->
  obj_lookup "content" kvs = Some content ->
  exists v a1,
    BaseAgent._send_task_message E handle_task (JObj kvs) a = (Ok v, a1) /\
    BaseAgent._get_task E (JObj [("task_id", task_id)]) a1 = (Ok v, a1).
Proof.
  intros Hid Htr Hh Hf Hrole Hc. destruct a as [d ra c]. simpl in Hf.
  pose proof (send_task_message_processed E handle_task kvs d ra c task_id content
                h t role Hid Htr Hh Hf Hrole Hc) as Hrun.
  cbv zeta in Hrun.
  eexists. eexists. split; [exact Hrun|].
  apply (get_task_found _ _ task_id h); try assumption; try reflexivity.
  simpl. apply find_replace_same. congruence.
Qed.

Lemma put_absent {V} (h : hkey) (k : json) (v : V) (d : PyDict.t V) :
  PyDict.find h d = None -> PyDict.put h k v d = d ++ [(k, v)].
Proof.
  induction d as [|[k' w] d IH]; simpl; [reflexivity|].
  destruct (PyDict.same_key h k'); [discriminate|].
  intros H. rewrite IH by assumption. reflexivity.
Qed.

Lemma keys_put {V} (h : hkey) (k : json) (v : V) (d : PyDict.t V) :
  exists added, PyDict.keys (PyDict.put h k v d) = PyDict.keys d ++ added /\
                length added <= 1.
Proof.
  destruct (PyDict.find h d) eqn:Hf.
  - exists []. rewrite put_present by congruence.
    rewrite keys_replace, app_nil_r. auto.
  - exists [k]. rewrite put_absent by assumption.
    unfold PyDict.keys. rewrite map_app. auto.
Qed.

Lemma create_task_keys (params : json) (a : agent) :
  exists added,
    PyDict.keys (tasks (snd (BaseAgent._create_task E params a))) =
      PyDict.keys (tasks a) ++ added /\ length added <= 1.
Proof.
  assert (Hsame : forall a' : agent, tasks a' = tasks a ->
            exists added, PyDict.keys (tasks a') = PyDict.keys (tasks a) ++ added /\
                          length added <= 1).
  { intros a' ->. exists []. rewrite app_nil_r. auto. }
  destruct a as [d ra c].
  destruct params as [| | | | |kvs]; try (apply Hsame; reflexivity).
  destruct (hash_key (match obj_lookup "task_id" kvs with
                      | Some v => v
                      | None => JStr (uuid4 E (uuids c))
                      end)) as [h|e] eqn:Hh.
  - rewrite (create_task_stored E kvs d ra c h Hh). simpl. apply keys_put.
  - apply Hsame. unfold BaseAgent._create_task.
    erewrite bind_ok by (unfold lift, new_uuid; simpl; reflexivity); cbv beta.
    erewrite bind_ok by (unfold pure; rewrite py_get_obj; reflexivity); cbv beta.
    erewrite bind_ok by (unfold pure; rewrite py_get_obj; reflexivity); cbv beta.
    erewrite bind_ok by
      (unfold lift, Task.init, bind, utcnow, ret; simpl; reflexivity); cbv beta.
    erewrite bind_ok by reflexivity; cbv beta.
    erewrite bind_raise by
      (unfold pure, PyDict.setitem; simpl tasks; rewrite Hh; reflexivity).
    reflexivity.
Qed.

Lemma send_task_message_keys (params : json) (a : agent) :
  PyDict.keys (tasks (snd (BaseAgent._send_task_message E handle_task params a))) =
  PyDict.keys (tasks a).
Proof.
  destruct a as [d ra c].
  destruct (send_task_message_cases E handle_task params d ra c)
    as [[e He]|(kvs & task_id & h & t & role & content & -> & Hid & Htr & Hh & Hf & Hrole & Hc)].
  - rewrite He. reflexivity.
  - rewrite (send_task_message_processed E handle_task kvs d ra c task_id content
               h t role Hid Htr Hh Hf Hrole Hc).
    simpl. apply keys_replace.
Qed.

(** X10.  No request to the standard methods removes or reorders a task:
    the task ids of the store afterwards are the former ones, in their
    order, followed by at most one new id. *)
Theorem tasks_are_never_deleted (req : JSONRPCRequest.t) (a : agent) :
  exists added,
    PyDict.keys
      (tasks (snd (BaseAgent._handle_request E
                     (standard_methods E handle_task get_agent_card) req a))) =
      PyDict.keys (tasks a) ++ added /\
    length added <= 1.
Proof.
  destruct (handle_request_state (standard_methods E handle_task get_agent_card)
              req a) as [->|(h & Hin & ->)].
  - exists []. rewrite app_nil_r. auto.
  - rewrite standard_methods_entries in Hin. simpl in Hin.
    destruct Hin as [<-|[<-|[<-|[<-|[<-|[]]]]]].
    + exists []. rewrite app_nil_r. auto.
    + apply create_task_keys.
    + exists []. rewrite send_task_message_keys, app_nil_r. auto.
    + exists []. rewrite get_task_unchanged, app_nil_r. auto.
    + exists []. rewrite app_nil_r. auto.
Qed.


(** X11.  A [createTask] whose [task_id] is a list or a mapping raises and
    stores nothing, after it has drawn a uuid and read the clock. *)
Theorem create_task_unhashable_id (kvs : list (string * json)) (a : agent)
    (task_id : json) :
  obj_lookup "task_id" kvs = Some task_id ->
  (exists l, task_id = JArr l) \/ (exists o, task_id = JObj o) ->
  BaseAgent._create_task E (JObj kvs) a =
  (Raise (TypeError "unhashable" task_id),
   {| tasks := tasks a; registered_agents := registered_agents a;
      io := {| ticks := S (ticks (io a)); uuids := S (uuids (io a));
               posts := posts (io a) |} |}).
Proof.
  intros Hid Hshape. destruct a as [d ra c].
  cbn [tasks registered_agents io ticks uuids posts].
  assert (Hh : hash_key task_id = Raise (TypeError "unhashable" task_id)).
  { destruct Hshape as [[l ->]|[o ->]]; reflexivity. }
  unfold BaseAgent._create_task.
  erewrite bind_ok by (unfold lift, new_uuid; simpl; reflexivity); cbv beta.
  erewrite bind_ok by (unfold pure; rewrite py_get_obj, Hid; reflexivity); cbv beta.
  erewrite bind_ok by (unfold pure; rewrite py_get_obj; reflexivity); cbv beta.
  erewrite bind_ok by
    (unfold lift, Task.init, bind, utcnow, ret; simpl; reflexivity); cbv beta.
  erewrite bind_ok by reflexivity; cbv beta.
  erewrite bind_raise by
    (unfold pure, PyDict.setitem; simpl tasks; rewrite Hh; reflexivity).
  reflexivity.
Qed.

(** X12.  A method registered under a name takes the place of any handler
    registered under it before: the dispatcher then answers requests for
    that name with the new handler's result, and the handlers of all other
    names stay as they were. *)
Theorem registered_method_is_dispatched (methods : PyDict.t handler)
    (name : string) (h : handler) (req : JSONRPCRequest.t) (a : agent) :
  JSONRPCRequest.method req = JStr name ->
  BaseAgent._handle_request E (BaseAgent.register_method methods name h) req a =
    match h (or_empty (JSONRPCRequest.params req)) a with
    | (Ok r, a') =>
        (Ok (JSONRPCResponse.mk (JSONRPCRequest.id req) r None (JStr "2.0")), a')
    | (Raise e, a') =>
        (Ok (BaseAgent.error_response (JSONRPCRequest.id req) INTERNAL_ERROR
               (str_exn E e)), a')
    end /\
  (forall other, other <> name ->
     PyDict.find (HStr other) (BaseAgent.register_method methods name h) =
     PyDict.find (HStr other) methods) /\
  exists added,
    PyDict.keys (BaseAgent.register_method methods name h) =
      PyDict.keys methods ++ added /\ length added <= 1.
Proof.
  intros Hm. split; [|split].
  - apply (handle_request_registered E _ req name h a Hm).
    unfold BaseAgent.register_method. apply find_put_same. reflexivity.
  - intros other Hne. unfold BaseAgent.register_method.
    apply find_put_other; [reflexivity|]. congruence.
  - apply keys_put.
Qed.

(** X13.  A task that is completed or failed still accepts messages: two
    processed [sendTaskMessage] calls in a row leave the task with the four
    messages in order (first inbound, first outcome, second inbound, second
    outcome) after its former ones, and with the status that the second
    outcome gives. *)
Theorem send_task_message_twice (kvs1 kvs2 : list (string * json)) (a : agent)
    (task_id content1 content2 : json) (h : hkey) (t : Task.t)
    (role1 role2 : MessageRole.t) :
  obj_lookup "task_id" kvs1 = Some task_id ->
  obj_lookup "task_id" kvs2 = Some task_id ->
  truthy task_id = true ->
  hash_key task_id = Ok h ->
  PyDict.find h (tasks a) = Some t ->
  MessageRole.of_value
    (match obj_lookup "role" kvs1 with Some v => v | None => JStr "user" end)
    = Ok role1 ->
  MessageRole.of_value
    (match obj_lookup "role" kvs2 with Some v => v | None => JStr "user" end)
    = Ok role2 ->
  obj_lookup "content" kvs1 = Some content1 ->
  obj_lookup "content" kvs2 = Some content2 ->
  exists v1 a1 t2 a2 in1 out1 in2 out2,
    BaseAgent._send_task_message E handle_task (JObj kvs1) a = (Ok v1, a1) /\
    BaseAgent._send_task_message E handle_task (JObj kvs2) a1 =
      (Ok (Task.to_dict t2), a2) /\
    PyDict.find h (tasks a2) = Some t2 /\
    Task.messages t2 = Task.messages t ++ [in1; out1; in2; out2] /\
    TaskMessage.content in1 = content1 /\
    TaskMessage.content in2 = content2 /\
    Task.status t2 = outcome_status (handle_task task_id in2) /\
    ticks (io a2) = 8 + ticks (io a).
Proof.
  intros Hid1 Hid2 Htr Hh Hf Hr1 Hr2 Hc1 Hc2. destruct a as [d ra c]. simpl in Hf.
  pose proof (send_task_message_processed E handle_task kvs1 d ra c task_id content1
                h t role1 Hid1 Htr Hh Hf Hr1 Hc1) as Hrun1.
  cbv zeta in Hrun1.
  match type of Hrun1 with
  | _ = (Ok (Task.to_dict ?t1'), _) => set (t1 := t1') in *
  end.
  assert (Hf1 : PyDict.find h (PyDict.replace h t1 d) = Some t1)
    by (apply find_replace_same; congruence).
  pose proof (send_task_message_processed E handle_task kvs2
                (PyDict.replace h t1 d) ra (tick 4 c) task_id content2
                h t1 role2 Hid2 Htr Hh Hf1 Hr2 Hc2) as Hrun2.
  cbv zeta in Hrun2.
  do 8 eexists.
  split; [exact Hrun1|]. split; [exact Hrun2|]. simpl.
  split; [apply find_replace_same; rewrite Hf1; discriminate|].
  split; [unfold t1; simpl; rewrite <- app_assoc; reflexivity|].
  repeat split.
Qed.


(** ** Tasks at rest *)

Lemma store_at_rest_put (a : agent) (d' : PyDict.t Task.t) (h : hkey)
    (t : Task.t) (a' : agent) :
  store_at_rest a ->
  tasks a' = d' ->
  (forall h', h <> h' -> PyDict.find h' d' = PyDict.find h' (tasks a)) ->
  PyDict.find h d' = Some t ->
  task_at_rest t -> hash_key (Task.task_id t) = Ok h ->
  store_at_rest a'.
Proof.
  intros Hok Ht Hother Hnew Hrest Hid h' t' Hf. rewrite Ht in Hf.
  destruct (hkey_eqb h h') eqn:Heq.
  - apply hkey_eqb_eq in Heq. subst h'. rewrite Hnew in Hf. inversion Hf. subst t'.
    auto.
  - assert (Hne : h <> h') by (intros ->; rewrite hkey_eqb_refl in Heq; discriminate).
    rewrite (Hother h' Hne) in Hf. apply Hok. assumption.
Qed.

Lemma store_at_rest_create_task (params : json) (a : agent) :
  store_at_rest a -> store_at_rest (snd (BaseAgent._create_task E params a)).
Proof.
  intros Hok. destruct a as [d ra c].
  destruct params as [| | | | |kvs]; try exact Hok.
  destruct (hash_key (match obj_lookup "task_id" kvs with
                      | Some v => v
                      | None => JStr (uuid4 E (uuids c))
                      end)) as [h|e] eqn:Hh.
  - rewrite (create_task_stored E kvs d ra c h Hh). simpl.
    eapply (store_at_rest_put _ _ h); [exact Hok|reflexivity| | | |].
    + intros h' Hne. apply find_put_other; assumption.
    + apply find_put_same. assumption.
    + repeat split; simpl; try discriminate. constructor.
    + exact Hh.
  - unfold BaseAgent._create_task.
    erewrite bind_ok by (unfold lift, new_uuid; simpl; reflexivity); cbv beta.
    erewrite bind_ok by (unfold pure; rewrite py_get_obj; reflexivity); cbv beta.
    erewrite bind_ok by (unfold pure; rewrite py_get_obj; reflexivity); cbv beta.
    erewrite bind_ok by
      (unfold lift, Task.init, bind, utcnow, ret; simpl; reflexivity); cbv beta.
    erewrite bind_ok by reflexivity; cbv beta.
    erewrite bind_raise by
      (unfold pure, PyDict.setitem; simpl tasks; rewrite Hh; reflexivity).
    exact Hok.
Qed.

Lemma task_after_send_at_rest (n : nat) (t : Task.t) (role : MessageRole.t)
    (content metadata : json) (r : outcome json) :
  task_at_rest t ->
  task_at_rest (task_after_send E n t (inbound_message E n role content metadata) r).
Proof.
  intros (Heven & Hts & Hca & Hua & _).
  unfold task_at_rest, task_after_send. simpl.
  split.
  { rewrite length_app. simpl. rewrite Nat.add_comm. simpl. assumption. }
  split.
  { apply Forall_app. split; [assumption|].
    constructor; [discriminate|]. constructor; [|constructor].
    destruct r; discriminate. }
  split; [assumption|]. split; [discriminate|].
  rewrite rev_app_distr. simpl. destruct r; reflexivity.
Qed.

Lemma store_at_rest_send_task_message (params : json) (a : agent) :
  store_at_rest a ->
  store_at_rest (snd (BaseAgent._send_task_message E handle_task params a)).
Proof.
  intros Hok. destruct a as [d ra c].
  destruct (send_task_message_cases E handle_task params d ra c)
    as [[e He]|(kvs & task_id & h & t & role & content & -> & Hid & Htr & Hh & Hf & Hrole & Hc)].
  - rewrite He. exact Hok.
  - rewrite (send_task_message_processed E handle_task kvs d ra c task_id content
               h t role Hid Htr Hh Hf Hrole Hc).
    simpl. destruct (Hok h t Hf) as [Hrest Hkey].
    eapply (store_at_rest_put _ _ h); [exact Hok|reflexivity| | | |].
    + intros h' Hne. apply find_replace_other. assumption.
    + apply find_replace_same. simpl. congruence.
    + apply task_after_send_at_rest. assumption.
    + exact Hkey.
Qed.

(** X14.  In every state an agent reaches, each stored task is at rest and
    stored under its own id: it is pending, completed or failed (never in
    progress, never cancelled); pending exactly when it has no message;
    completed when its last message is the agent's and failed when it is
    the system's; its messages come in pairs and all carry a timestamp, as
    the task does. *)
Theorem reachable_tasks_at_rest (a : agent) :
  reachable E handle_task a -> store_at_rest a.
Proof.
  induction 1 as [|params a _ IH|params a _ IH].
  - intros h t H. discriminate.
  - apply store_at_rest_create_task. assumption.
  - apply store_at_rest_send_task_message. assumption.
Qed.

End Methods.

(* ================================================================== *)
(** * Decoding and re-encoding *)
(* ================================================================== *)

Section Decoding.

Variable E : env.

Lemma or_empty_idem (v : json) : or_empty (or_empty v) = or_empty v.
Proof.
  unfold or_empty. destruct (truthy v) eqn:Hv; [rewrite Hv|]; reflexivity.
Qed.

Lemma AgentCard_decodes (x : AgentCard.t) :
  AgentCard.from_dict (AgentCard.to_dict x) =
  Ok (AgentCard.mk (AgentCard.name x) (AgentCard.description x) (AgentCard.url x)
        (AgentCard.skills x) (AgentCard.version x)
        (AgentCard.supported_interaction_modes x)
        (or_empty (AgentCard.metadata x))).
Proof.
  destruct x as [n d u sk v ms md].
  unfold AgentCard.from_dict, AgentCard.to_dict. simpl.
  rewrite skills_roundtrip. simpl. rewrite modes_roundtrip. reflexivity.
Qed.

Lemma JSONRPCResponse_decodes (x : JSONRPCResponse.t) :
  JSONRPCResponse.from_dict (JSONRPCResponse.to_dict x) =
  Ok (JSONRPCResponse.mk (JSONRPCResponse.id x)
        (match JSONRPCResponse.error x with
         | Some _ => JNull
         | None => JSONRPCResponse.result x
         end)
        (JSONRPCResponse.error x) (JSONRPCResponse.jsonrpc x)).
Proof.
  destruct x as [i r [[c m d]|] v]; simpl;
    unfold JSONRPCResponse.from_dict, JSONRPCResponse.to_dict; simpl.
  - destruct d; reflexivity.
  - reflexivity.
Qed.

Lemma TaskMessage_decodes (x : TaskMessage.t) (c : counters) :
  TaskMessage.timestamp x <> JNull ->
  TaskMessage.from_dict E (TaskMessage.to_dict x) c =
  (Ok (TaskMessage.mk (TaskMessage.role x) (TaskMessage.content x)
         (TaskMessage.timestamp x) (or_empty (TaskMessage.metadata x))), c).
Proof.
  intros Ht. destruct x as [r ct ts md]. simpl in *.
  unfold TaskMessage.from_dict, TaskMessage.to_dict, bind, pure. simpl.
  rewrite MessageRole_of_value_value.
  unfold TaskMessage.init. rewrite (is_none_false _ Ht). reflexivity.
Qed.

Lemma messages_decode_stable (l : list TaskMessage.t) (c : counters) :
  Forall (fun m => TaskMessage.timestamp m <> JNull) l ->
  exists l',
    map_st (TaskMessage.from_dict E) (map TaskMessage.to_dict l) c = (Ok l', c) /\
    map TaskMessage.to_dict l' = map TaskMessage.to_dict l.
Proof.
  induction 1 as [|m l Hm _ (l' & Hl & Heq)]; simpl.
  - exists []. split; reflexivity.
  - eexists. unfold bind. rewrite (TaskMessage_decodes m c Hm), Hl.
    split; [reflexivity|]. simpl. rewrite Heq.
    unfold TaskMessage.to_dict at 1. simpl. rewrite or_empty_idem. reflexivity.
Qed.

(** X15.  The wire form is stable: decoding an encoding and encoding the
    result again gives the same encoding, for every agent card and every
    response, and for every task message and task whose timestamps are
    set.  (So one round trip only normalises a value; see C4 for when it
    gives the value itself back.) *)
Theorem encoding_is_stable (c : counters) :
  (forall card, exists card',
     AgentCard.from_dict (AgentCard.to_dict card) = Ok card' /\
     AgentCard.to_dict card' = AgentCard.to_dict card) /\
  (forall resp, exists resp',
     JSONRPCResponse.from_dict (JSONRPCResponse.to_dict resp) = Ok resp' /\
     JSONRPCResponse.to_dict resp' = JSONRPCResponse.to_dict resp) /\
  (forall msg, TaskMessage.timestamp msg <> JNull ->
     exists msg',
       TaskMessage.from_dict E (TaskMessage.to_dict msg) c = (Ok msg', c) /\
       TaskMessage.to_dict msg' = TaskMessage.to_dict msg) /\
  (forall task,
     Task.created_at task <> JNull -> Task.updated_at task <> JNull ->
     Forall (fun m => TaskMessage.timestamp m <> JNull) (Task.messages task) ->
     exists task',
       fst (Task.from_dict E (Task.to_dict task) c) = Ok task' /\
       Task.to_dict task' = Task.to_dict task).
Proof.
  split; [|split; [|split]].
  - intros card. eexists. split; [apply AgentCard_decodes|].
    unfold AgentCard.to_dict. simpl. rewrite or_empty_idem. reflexivity.
  - intros resp. eexists. split; [apply JSONRPCResponse_decodes|].
    destruct resp as [i r [e|] v]; reflexivity.
  - intros msg Ht. eexists. split; [apply TaskMessage_decodes; assumption|].
    unfold TaskMessage.to_dict. simpl. rewrite or_empty_idem. reflexivity.
  - intros task Hc Hu Hl. destruct task as [i s ms md ca ua]. simpl in *.
    destruct (messages_decode_stable ms c Hl) as (l' & Hrun & Heq).
    unfold Task.from_dict, Task.to_dict, bind, pure. simpl.
    rewrite Hrun. rewrite TaskStatus_of_value_value.
    unfold Task.init, bind, utcnow, ret. simpl.
    rewrite (is_none_false _ Hc), (is_none_false _ Hu).
    eexists. split; [reflexivity|].
    unfold Task.to_dict. simpl. rewrite Heq, or_empty_idem. reflexivity.
Qed.

Lemma init_stamped (role : MessageRole.t) (content timestamp metadata : json)
    (c c' : counters) (m : TaskMessage.t) :
  TaskMessage.init E role content timestamp metadata c = (Ok m, c') ->
  TaskMessage.timestamp m <> JNull /\ ticks c <= ticks c'.
Proof.
  unfold TaskMessage.init. destruct timestamp; simpl;
    unfold bind, utcnow, ret; simpl; intros H; inversion H; subst; simpl;
    split; try discriminate; lia.
Qed.

Lemma message_from_dict_stamped (data : json) (c c' : counters) (m : TaskMessage.t) :
  TaskMessage.from_dict E data c = (Ok m, c') ->
  TaskMessage.timestamp m <> JNull /\ ticks c <= ticks c'.
Proof.
  unfold TaskMessage.from_dict. intros H.
  do 5 (apply bind_inv in H; destruct H as (? & ? & Hp & H); cbv beta in H;
        unfold pure in Hp; inversion Hp; subst; clear Hp).
  eapply init_stamped. eassumption.
Qed.

Lemma messages_from_dict_stamped (items : list json) (c c' : counters)
    (l : list TaskMessage.t) :
  map_st (TaskMessage.from_dict E) items c = (Ok l, c') ->
  Forall (fun m => TaskMessage.timestamp m <> JNull) l /\ ticks c <= ticks c'.
Proof.
  revert c c' l. induction items as [|x items IH]; intros c c' l H; simpl in H.
  - inversion H. subst. split; [constructor|lia].
  - apply bind_inv in H. destruct H as (m & c1 & Hm & H). cbv beta in H.
    apply bind_inv in H. destruct H as (l1 & c2 & Hl & H). cbv beta in H.
    inversion H. subst.
    destruct (message_from_dict_stamped _ _ _ _ Hm) as [Hs Hle].
    destruct (IH _ _ _ Hl) as [Hf Hle'].
    split; [constructor; assumption|lia].
Qed.

(** X16.  Whatever JSON it is decoded from, a decoded task message carries
    a timestamp, and a decoded task carries [created_at] and [updated_at],
    all its messages are stamped, and decoding it has read the clock. *)
Theorem decoded_values_are_stamped (data : json) (c c' : counters) :
  (forall m, TaskMessage.from_dict E data c = (Ok m, c') ->
             TaskMessage.timestamp m <> JNull) /\
  (forall t, Task.from_dict E data c = (Ok t, c') ->
             Task.created_at t <> JNull /\ Task.updated_at t <> JNull /\
             Forall (fun m => TaskMessage.timestamp m <> JNull) (Task.messages t) /\
             ticks c < ticks c').
Proof.
  split.
  - intros m H. apply (message_from_dict_stamped _ _ _ _ H).
  - intros t H. unfold Task.from_dict in H.
    do 2 (apply bind_inv in H; destruct H as (? & ? & Hp & H); cbv beta in H;
          unfold pure in Hp; inversion Hp; subst; clear Hp).
    apply bind_inv in H. destruct H as (l & c1 & Hl & H). cbv beta in H.
    do 6 (apply bind_inv in H; destruct H as (? & ? & Hp & H); cbv beta in H;
          unfold pure in Hp; inversion Hp; subst; clear Hp).
    destruct (messages_from_dict_stamped _ _ _ _ Hl) as [Hf Hle].
    unfold Task.init, bind, utcnow, ret in H. simpl in H. inversion H. subst. simpl.
    split; [match goal with |- (if is_none ?v then _ else _) <> _ => destruct v; discriminate end|].
    split; [match goal with |- (if is_none ?v then _ else _) <> _ => destruct v; discriminate end|].
    split; [assumption|lia].
Qed.

(** X17.  A response whose JSON has no ["error"] key decodes with no error
    and the given result (a missing result, id or version decoding as
    [None], [None] and ["2.0"]); one whose ["error"] is anything but a
    mapping, [null] included, does not decode: [from_dict] raises. *)
Theorem response_decoding_by_error_key (kvs : list (string * json)) :
  match obj_lookup "error" kvs with
  | None =>
      JSONRPCResponse.from_dict (JObj kvs) =
      Ok (JSONRPCResponse.mk
            (match obj_lookup "id" kvs with Some v => v | None => JNull end)
            (match obj_lookup "result" kvs with Some v => v | None => JNull end)
            None
            (match obj_lookup "jsonrpc" kvs with Some v => v | None => JStr "2.0" end))
  | Some err =>
      is_dict err = false ->
      JSONRPCResponse.from_dict (JObj kvs) = Raise (TypeError "subscript" err)
  end.
Proof.
  unfold JSONRPCResponse.from_dict. simpl.
  destruct (obj_lookup "error" kvs) as [err|]; simpl.
  - intros Hd. destruct err; try reflexivity. discriminate.
  - destruct (obj_lookup "id" kvs), (obj_lookup "result" kvs),
      (obj_lookup "jsonrpc" kvs); reflexivity.
Qed.

End Decoding.

(* ================================================================== *)
(** * The client against an agent *)
(* ================================================================== *)

Section ClientCalls.

Variable Ec : env.
Variable Es : env.

Lemma loopback_encoded (methods : PyDict.t handler) (req : JSONRPCRequest.t)
    (a a' : agent) (resp : JSONRPCResponse.t) :
  BaseAgent._handle_request Es methods req a = (Ok resp, a') ->
  loopback Es methods (JSONRPCRequest.to_dict req) a =
    Ok {| status_code := 200; json_body := Ok (JSONRPCResponse.to_dict resp) |} /\
  served Es methods (JSONRPCRequest.to_dict req) a = a'.
Proof.
  intros Hrun. unfold loopback, served.
  rewrite (route_encoded Es methods req a a' resp Hrun). split; reflexivity.
Qed.

(** Every path through [_call_method] takes one request id and makes one
    POST. *)
Lemma call_method_state (method : string) (params : json) (self : A2AClient.client) :
  snd (A2AClient._call_method Ec method params self) = after_call self.
Proof.
  destruct self as [url rid c].
  unfold A2AClient._call_method, A2AClient._next_id, bind at 1. simpl.
  unfold try_except_when, bind at 1, A2AClient.get_agent_url at 1. simpl.
  unfold bind at 1, A2AClient.lift at 1, requests_post at 1. simpl.
  unfold after_call. simpl.
  destruct (http_post Ec (posts c) url _) as [r|e]; simpl.
  2:{ destruct (is_request_exception e); reflexivity. }
  unfold and_then, bind, pure, raise, ret.
  destruct (A2AClient.raise_for_status r) as [[]|e]; simpl.
  2:{ destruct (is_request_exception e); reflexivity. }
  destruct (json_body r) as [body|e]; simpl.
  2:{ destruct (is_request_exception e); reflexivity. }
  destruct (JSONRPCResponse.from_dict body) as [resp|e]; simpl.
  2:{ destruct (is_request_exception e); reflexivity. }
  destruct (JSONRPCResponse.error resp); reflexivity.
Qed.

(** What [_call_method] makes of a reply with status 200 that carries the
    encoding of a response. *)
Lemma call_method_reply (method : string) (params : json) (self : A2AClient.client)
    (resp : JSONRPCResponse.t) :
  http_post Ec (posts (A2AClient.cio self)) (A2AClient.agent_url self)
    (JSONRPCRequest.to_dict (request_of self method params))
  = Ok {| status_code := 200; json_body := Ok (JSONRPCResponse.to_dict resp) |} ->
  A2AClient._call_method Ec method params self =
  (match JSONRPCResponse.error resp with
   | Some err =>
       Raise (External ("RPC Error " ++ py_str Ec (JSONRPCError.code err) ++ ": "
                        ++ py_str Ec (JSONRPCError.message err)))
   | None => Ok (JSONRPCResponse.result resp)
   end, after_call self).
Proof.
  intros Hpost. destruct self as [url rid c].
  unfold request_of in Hpost. simpl in Hpost.
  unfold A2AClient._call_method, A2AClient._next_id, bind at 1. simpl.
  unfold try_except_when, bind at 1, A2AClient.get_agent_url at 1. simpl.
  unfold bind at 1, A2AClient.lift at 1, requests_post at 1. simpl.
  rewrite Hpost. unfold after_call. simpl.
  unfold and_then, bind, pure, raise, ret. simpl.
  rewrite JSONRPCResponse_decodes. simpl.
  destruct (JSONRPCResponse.error resp); reflexivity.
Qed.

(** X18.  A call that reaches an agent returns what the agent's handler for
    the method returns, on the parameters the client gave ([{}] for none).
    When the handler raises, or no handler has the name, the call raises
    with the code and the message of the agent's error response.  The agent
    is left as the handler leaves it. *)
Theorem call_method_against_agent (methods : PyDict.t handler) (method : string)
    (params : json) (self : A2AClient.client) (a : agent) :
  connected Ec Es methods self (request_of self method params) a ->
  A2AClient._call_method Ec method params self =
  (match PyDict.find (HStr method) methods with
   | None =>
       Raise (External ("RPC Error " ++ py_str Ec (JInt METHOD_NOT_FOUND) ++ ": "
                        ++ "Method '" ++ method ++ "' not found"))
   | Some h =>
       match fst (h (or_empty params) a) with
       | Ok r => Ok r
       | Raise e =>
           Raise (External ("RPC Error " ++ py_str Ec (JInt INTERNAL_ERROR) ++ ": "
                            ++ str_exn Es e))
       end
   end, after_call self) /\
  served Es methods (JSONRPCRequest.to_dict (request_of self method params)) a =
  match PyDict.find (HStr method) methods with
  | None => a
  | Some h => snd (h (or_empty params) a)
  end.
Proof.
  intros Hnet. unfold connected in Hnet.
  destruct (PyDict.find (HStr method) methods) as [h|] eqn:Hf.
  - pose proof (handle_request_registered Es methods (request_of self method params)
                  method h a eq_refl Hf) as Hrun.
    simpl in Hrun.
    destruct (h (or_empty params) a) as [[r|e] a'] eqn:Hh;
      destruct (loopback_encoded _ _ _ _ _ Hrun) as [Hl Hs];
      rewrite Hl in Hnet; rewrite (call_method_reply _ _ _ _ Hnet), Hs;
      split; reflexivity.
  - pose proof (handle_request_unregistered Es methods (request_of self method params)
                  method a eq_refl Hf) as Hrun.
    destruct (loopback_encoded _ _ _ _ _ Hrun) as [Hl Hs].
    rewrite Hl in Hnet. rewrite (call_method_reply _ _ _ _ Hnet), Hs.
    split; reflexivity.
Qed.

(** X19.  Whatever the network does, a call takes exactly one request id and
    makes exactly one POST, whether it returns or raises; and it returns a
    value only from a reply whose status is outside 400..599 and whose body
    decodes to a response without an error, the value being that response's
    result. *)
Theorem call_method_one_request (method : string) (params : json)
    (self : A2AClient.client) :
  snd (A2AClient._call_method Ec method params self) = after_call self /\
  forall v, fst (A2AClient._call_method Ec method params self) = Ok v ->
    exists r body resp,
      http_post Ec (posts (A2AClient.cio self)) (A2AClient.agent_url self)
        (JSONRPCRequest.to_dict (request_of self method params)) = Ok r /\
      ((400 <=? status_code r) && (status_code r <? 600))%Z = false /\
      json_body r = Ok body /\
      JSONRPCResponse.from_dict body = Ok resp /\
      JSONRPCResponse.error resp = None /\
      JSONRPCResponse.result resp = v.
Proof.
  split; [apply call_method_state|].
  destruct self as [url rid c]. intros v.
  unfold request_of. simpl.
  unfold A2AClient._call_method, A2AClient._next_id, bind at 1. simpl.
  unfold try_except_when, bind at 1, A2AClient.get_agent_url at 1. simpl.
  unfold bind at 1, A2AClient.lift at 1, requests_post at 1. simpl.
  destruct (http_post Ec (posts c) url _) as [r|e]; simpl.
  2:{ destruct (is_request_exception e); discriminate. }
  unfold and_then, bind, pure, raise, ret, A2AClient.raise_for_status.
  destruct ((400 <=? status_code r) && (status_code r <? 600))%Z eqn:Hst; simpl;
    [discriminate|].
  destruct (json_body r) as [body|e] eqn:Hb; simpl.
  2:{ destruct (is_request_exception e); discriminate. }
  destruct (JSONRPCResponse.from_dict body) as [resp|e] eqn:Hd; simpl.
  2:{ destruct (is_request_exception e); discriminate. }
  destruct (JSONRPCResponse.error resp) eqn:He; simpl; [discriminate|].
  intros Hv. injection Hv as <-.
  exists r, body, resp. repeat split; assumption.
Qed.

(** The route's reply to a request whose handler returns. *)
Lemma loopback_returns (methods : PyDict.t handler) (req : JSONRPCRequest.t)
    (m : string) (a a' : agent) (h : handler) (r : json) :
  JSONRPCRequest.method req = JStr m ->
  PyDict.find (HStr m) methods = Some h ->
  h (or_empty (JSONRPCRequest.params req)) a = (Ok r, a') ->
  loopback Es methods (JSONRPCRequest.to_dict req) a =
    Ok {| status_code := 200;
          json_body := Ok (JSONRPCResponse.to_dict
                             (JSONRPCResponse.mk (JSONRPCRequest.id req) r None
                                (JStr "2.0"))) |} /\
  served Es methods (JSONRPCRequest.to_dict req) a = a'.
Proof.
  intros Hm Hf Hh.
  pose proof (handle_request_registered Es methods req m h a Hm Hf) as Hrun.
  rewrite Hh in Hrun. exact (loopback_encoded _ _ _ _ _ Hrun).
Qed.

Lemma call_method_returns (methods : PyDict.t handler) (method : string)
    (params : json) (self : A2AClient.client) (a a' : agent) (h : handler) (r : json) :
  PyDict.find (HStr method) methods = Some h ->
  h (or_empty params) a = (Ok r, a') ->
  connected Ec Es methods self (request_of self method params) a ->
  A2AClient._call_method Ec method params self = (Ok r, after_call self).
Proof.
  intros Hf Hh Hnet. unfold connected in Hnet.
  destruct (loopback_returns methods (request_of self method params) method
              a a' h r eq_refl Hf Hh) as [Hl _].
  rewrite Hl in Hnet. rewrite (call_method_reply _ _ _ _ Hnet). reflexivity.
Qed.

Lemma messages_decode_exact (E : env) (l : list TaskMessage.t) (c : counters) :
  Forall (fun m => TaskMessage.timestamp m <> JNull) l ->
  map_st (TaskMessage.from_dict E) (map TaskMessage.to_dict l) c =
  (Ok (map decoded_message l), c).
Proof.
  induction 1 as [|m l Hm _ IH]; simpl; [reflexivity|].
  unfold bind. rewrite (TaskMessage_decodes E m c Hm), IH. reflexivity.
Qed.

Lemma Task_decodes_exact (E : env) (t : Task.t) (c : counters) :
  Task.created_at t <> JNull -> Task.updated_at t <> JNull ->
  Forall (fun m => TaskMessage.timestamp m <> JNull) (Task.messages t) ->
  Task.from_dict E (Task.to_dict t) c =
  (Ok (Task.mk (Task.task_id t) (Task.status t)
         (map decoded_message (Task.messages t)) (or_empty (Task.metadata t))
         (Task.created_at t) (Task.updated_at t)), tick 1 c).
Proof.
  intros Hc Hu Hl. destruct t as [i s ms md ca ua]. simpl in *.
  unfold Task.from_dict, Task.to_dict, bind, pure. simpl.
  rewrite (messages_decode_exact E ms c Hl). rewrite TaskStatus_of_value_value.
  unfold Task.init, bind, utcnow, ret. simpl.
  rewrite (is_none_false _ Hc), (is_none_false _ Hu). reflexivity.
Qed.

Lemma client_scan_decoded (l : list TaskMessage.t) :
  A2AClient.last_agent_message (map decoded_message l) =
  A2AClient.last_agent_message l.
Proof.
  induction l as [|m l IH]; simpl; [reflexivity|]. rewrite IH. reflexivity.
Qed.

End ClientCalls.

(* ================================================================== *)
(** * A conversation with an agent *)
(* ================================================================== *)

Section ClientChat.

Variable Ec : env.
Variable Es : env.
Variable handle_task : json -> TaskMessage.t -> outcome json.
Variable card : AgentCard.t.

(** [create_task()] against an agent: the client holds the pending task the
    agent stored under a fresh identifier. *)
Lemma client_create_task_new (self : A2AClient.client) (a : agent) :
  connected Ec Es (standard_methods Es handle_task card) self
    (request_of self "createTask" (JObj [])) a ->
  let now := JStr (clock Es (ticks (io a))) in
  A2AClient.create_task Ec JNull JNull self =
  (Ok (Task.mk (JStr (uuid4 Es (uuids (io a)))) TaskStatus.PENDING [] (JObj []) now now),
   after_task_call self).
Proof.
  intros Hnet now. destruct a as [d ra c].
  unfold A2AClient.create_task. simpl app.
  pose proof (create_task_stored Es [] d ra c _ eq_refl) as Hc. simpl in Hc.
  erewrite bind_ok.
  2:{ eapply (call_method_returns Ec Es (standard_methods Es handle_task card)
                "createTask" (JObj []) self _ _
                (BaseAgent._create_task Es)).
      - rewrite standard_methods_entries. reflexivity.
      - exact Hc.
      - exact Hnet. }
  cbv beta. unfold A2AClient.lift, after_call. simpl.
  reflexivity.
Qed.

(** [send_message] against an agent that holds the task, right after it was
    created: the client holds the decoded task after the message. *)
Lemma client_send_message_new (self : A2AClient.client) (a : agent) (h : hkey)
    (tid content : json) (t : Task.t) :
  truthy tid = true ->
  hash_key tid = Ok h ->
  PyDict.find h (tasks a) = Some t ->
  Task.messages t = [] ->
  Task.created_at t <> JNull ->
  connected Ec Es (standard_methods Es handle_task card) self
    (request_of self "sendTaskMessage"
       (JObj [("task_id", tid); ("content", content); ("role", JStr "user")])) a ->
  let inbound := inbound_message Es (ticks (io a)) MessageRole.USER content JNull in
  let t' := task_after_send Es (ticks (io a)) t inbound (handle_task tid inbound) in
  A2AClient.send_message Ec tid content MessageRole.USER JNull self =
  (Ok (Task.mk (Task.task_id t') (Task.status t')
         (map decoded_message (Task.messages t')) (or_empty (Task.metadata t'))
         (Task.created_at t') (Task.updated_at t')),
   after_task_call self).
Proof.
  intros Htr Hh Hf Hm Hca Hnet inbound t'. destruct a as [d ra c]. simpl in Hf.
  unfold A2AClient.send_message. simpl app. simpl MessageRole.value.
  pose proof (send_task_message_processed Es handle_task
                [("task_id", tid); ("content", content); ("role", JStr "user")]
                d ra c tid content h t MessageRole.USER
                eq_refl Htr Hh Hf eq_refl eq_refl) as Hs.
  cbv zeta in Hs.
  erewrite bind_ok.
  2:{ eapply (call_method_returns Ec Es (standard_methods Es handle_task card)
                "sendTaskMessage" _ self _ _
                (BaseAgent._send_task_message Es handle_task)).
      - rewrite standard_methods_entries. reflexivity.
      - exact Hs.
      - exact Hnet. }
  cbv beta. unfold A2AClient.lift, after_call.
  cbn [A2AClient.cio A2AClient.agent_url A2AClient._request_id].
  rewrite Task_decodes_exact.
  - reflexivity.
  - exact Hca.
  - discriminate.
  - unfold task_after_send. cbn [Task.messages]. rewrite Hm. simpl.
    repeat constructor; try discriminate.
    unfold outcome_message. destruct (handle_task _ _); discriminate.
Qed.

(** X20.  [chat] without a task, against an agent with the standard
    methods: the client has the agent create a task and sends it the
    message, and returns what the agent's domain handler returns for that
    task and message; when the handler raises, it returns the literal
    [No response from agent].  It costs the client two requests. *)
Theorem chat_new_task_against_agent (message task_id : json)
    (self : A2AClient.client) (a : agent) :
  let tid := JStr (uuid4 Es (uuids (io a))) in
  let self1 := after_task_call self in
  let inbound :=
    inbound_message Es (S (ticks (io a))) MessageRole.USER message JNull in
  truthy task_id = false ->
  truthy tid = true ->
  connected Ec Es (standard_methods Es handle_task card) self
    (request_of self "createTask" (JObj [])) a ->
  connected Ec Es (standard_methods Es handle_task card) self1
    (request_of self1 "sendTaskMessage"
       (JObj [("task_id", tid); ("content", message); ("role", JStr "user")]))
    (snd (BaseAgent._create_task Es (JObj []) a)) ->
  A2AClient.chat Ec message task_id self =
  (Ok (match handle_task tid inbound with
       | Ok response_content => response_content
       | Raise _ => JStr "No response from agent"
       end),
   after_task_call self1).
Proof.
  intros tid self1 inbound Hnone Htr Hnet1 Hnet2.
  unfold A2AClient.chat. rewrite Hnone. cbv beta iota delta [negb].
  erewrite bind_ok.
  2:{ erewrite bind_ok by (apply client_create_task_new; exact Hnet1).
      reflexivity. }
  cbv beta. cbn [Task.task_id]. fold tid. fold self1.
  destruct a as [d ra c].
  pose proof (create_task_stored Es [] d ra c _ eq_refl) as Hc. cbv zeta in Hc.
  cbn [obj_lookup] in Hc.
  rewrite Hc in Hnet2. cbn [snd] in Hnet2.
  erewrite bind_ok.
  2:{ eapply (client_send_message_new self1 _ (HStr (uuid4 Es (uuids c))) tid message).
      6: exact Hnet2.
      - exact Htr.
      - reflexivity.
      - cbn [tasks]. apply find_put_same. reflexivity.
      - reflexivity.
      - discriminate. }
  cbv beta. unfold ret, A2AClient.extract_response, task_after_send.
  cbn [Task.messages tasks io ticks app]. rewrite <- map_rev, client_scan_decoded.
  simpl rev. subst inbound. cbn [io ticks].
  destruct (handle_task tid _); reflexivity.
Qed.

End ClientChat.

(* ================================================================== *)
(** * The orchestrator against a peer *)
(* ================================================================== *)

Section Delegation.

Variable Eo : env.
Variable Es : env.
Variable handle_task : json -> TaskMessage.t -> outcome json.
Variable card : AgentCard.t.

Lemma orchestrator_extract_encoded (t : Task.t) :
  OrchestratorAgent.extract_response (Task.to_dict t) =
  Ok (A2AClient.last_agent_message (rev (Task.messages t))).
Proof.
  unfold OrchestratorAgent.extract_response, Task.to_dict. simpl.
  rewrite <- map_rev. apply orchestrator_scan_encoded.
Qed.

(** X21.  Delegation to a peer with the standard methods: the orchestrator
    has the peer create a task and sends it the content as a user message,
    and returns what the peer's domain handler returns for that task and
    message; when the handler raises, it returns the literal
    [No response from agent].  This is the value the client's [chat]
    returns against the same agent.  It costs the orchestrator two
    requests and changes nothing else of it. *)
Theorem delegate_against_agent (agent_card : AgentCard.t) (content : string)
    (o a : agent) :
  let tid := JStr (uuid4 Es (uuids (io a))) in
  let inbound :=
    inbound_message Es (S (ticks (io a))) MessageRole.USER (JStr content) JNull in
  let create := OrchestratorAgent.request_dict "createTask" JNull 1 in
  let send :=
    OrchestratorAgent.request_dict "sendTaskMessage"
      (JObj [("task_id", tid); ("role", JStr "user"); ("content", JStr content)]) 2 in
  truthy tid = true ->
  http_post Eo (posts (io o)) (AgentCard.url agent_card) create =
    loopback Es (standard_methods Es handle_task card) create a ->
  http_post Eo (S (posts (io o))) (AgentCard.url agent_card) send =
    loopback Es (standard_methods Es handle_task card) send
      (served Es (standard_methods Es handle_task card) create a) ->
  OrchestratorAgent._delegate_to_agent Eo agent_card content o =
  (Ok (match handle_task tid inbound with
       | Ok response_content => response_content
       | Raise _ => JStr "No response from agent"
       end),
   {| tasks := tasks o; registered_agents := registered_agents o;
      io := {| ticks := ticks (io o); uuids := uuids (io o);
               posts := 2 + posts (io o) |} |}).
Proof.
  intros tid inbound create send Htr Hnet1 Hnet2.
  destruct a as [d ra c]. destruct o as [od ora oc].
  cbn [tasks registered_agents io] in *.
  (* the peer's answer to createTask *)
  pose proof (create_task_stored Es [] d ra c _ eq_refl) as Hc. cbv zeta in Hc.
  cbn [obj_lookup] in Hc.
  destruct (loopback_returns Es (standard_methods Es handle_task card)
              (JSONRPCRequest.mk (JStr "createTask") JNull (JInt 1) (JStr "2.0"))
              "createTask" _ _ (BaseAgent._create_task Es) _ eq_refl eq_refl Hc)
    as [Hl1 Hs1].
  fold (OrchestratorAgent.request_dict "createTask" JNull 1) in Hl1, Hs1.
  fold create in Hl1, Hs1. rewrite Hl1 in Hnet1. rewrite Hs1 in Hnet2.
  (* the peer's answer to sendTaskMessage *)
  match type of Hs1 with
  | _ = {| tasks := PyDict.put ?h ?k ?v ?d0; registered_agents := _; io := ?c1 |} =>
      pose proof (send_task_message_processed Es handle_task
                    [("task_id", tid); ("role", JStr "user"); ("content", JStr content)]
                    (PyDict.put h k v d0) ra c1 tid (JStr content) h v MessageRole.USER
                    eq_refl Htr eq_refl
                    (find_put_same h k v d0 eq_refl) eq_refl eq_refl) as Hs
  end.
  cbv zeta in Hs. cbn [obj_lookup ticks] in Hs.
  destruct (loopback_returns Es (standard_methods Es handle_task card)
              (JSONRPCRequest.mk (JStr "sendTaskMessage")
                 (JObj [("task_id", tid); ("role", JStr "user");
                        ("content", JStr content)]) (JInt 2) (JStr "2.0"))
              "sendTaskMessage" _ _ (BaseAgent._send_task_message Es handle_task)
              _ eq_refl eq_refl Hs)
    as [Hl2 _].
  fold (OrchestratorAgent.request_dict "sendTaskMessage"
          (JObj [("task_id", tid); ("role", JStr "user"); ("content", JStr content)]) 2)
    in Hl2.
  fold send in Hl2. rewrite Hl2 in Hnet2. clear Hl1 Hs1 Hl2 Hc Hs.
  (* the orchestrator *)
  unfold OrchestratorAgent._delegate_to_agent.
  erewrite try_ok; [reflexivity|].
  erewrite bind_ok by (unfold lift, requests_post; cbn [io posts]; fold create;
                       rewrite Hnet1; reflexivity).
  cbv beta. cbn [status_code json_body].
  change (negb (200 =? 200)%Z) with false. cbv iota.
  do 3 (erewrite bind_ok by reflexivity; cbv beta).
  cbn [Task.task_id tasks registered_agents].
  erewrite bind_ok by (unfold lift, requests_post; cbn [io posts tasks registered_agents];
                       fold tid; fold send; rewrite Hnet2; reflexivity).
  cbv beta. cbn [status_code json_body].
  change (negb (200 =? 200)%Z) with false. cbv iota.
  do 2 (erewrite bind_ok by reflexivity; cbv beta).
  unfold pure. cbn [JSONRPCResponse.result].
  rewrite orchestrator_extract_encoded.
  unfold task_after_send. cbn [Task.messages app rev]. subst inbound.
  cbn [io ticks].
  destruct (handle_task tid _); reflexivity.
Qed.

End Delegation.

(* ================================================================== *)
(** * The client's readers against an agent *)
(* ================================================================== *)

Section ClientReads.

Variable Ec : env.
Variable Es : env.
Variable handle_task : json -> TaskMessage.t -> outcome json.
Variable card : AgentCard.t.

Lemma values_put {V} (P : V -> Prop) (h : hkey) (k : json) (v : V) (d : PyDict.t V) :
  Forall P (PyDict.values d) -> P v -> Forall P (PyDict.values (PyDict.put h k v d)).
Proof.
  unfold PyDict.values. intros Hd Hv. induction d as [|[k' w] d IH]; simpl.
  - constructor; [assumption|constructor].
  - inversion Hd; subst. destruct (PyDict.same_key h k'); simpl;
      constructor; auto.
Qed.

Lemma values_replace {V} (P : V -> Prop) (h : hkey) (v : V) (d : PyDict.t V) :
  Forall P (PyDict.values d) -> P v -> Forall P (PyDict.values (PyDict.replace h v d)).
Proof.
  unfold PyDict.values. intros Hd Hv. induction d as [|[k' w] d IH]; simpl.
  - constructor.
  - inversion Hd; subst. destruct (PyDict.same_key h k'); simpl;
      constructor; auto.
Qed.

Lemma find_in_values {V} (h : hkey) (v : V) (d : PyDict.t V) :
  PyDict.find h d = Some v -> In v (PyDict.values d).
Proof.
  unfold PyDict.values. induction d as [|[k' w] d IH]; simpl; [discriminate|].
  destruct (PyDict.same_key h k').
  - intros H. inversion H. auto.
  - auto.
Qed.

Lemma values_at_rest_create_task (params : json) (a : agent) :
  Forall task_at_rest (PyDict.values (tasks a)) ->
  Forall task_at_rest
    (PyDict.values (tasks (snd (BaseAgent._create_task Es params a)))).
Proof.
  intros Hok. destruct a as [d ra c].
  destruct params as [| | | | |kvs]; try exact Hok.
  destruct (hash_key (match obj_lookup "task_id" kvs with
                      | Some v => v
                      | None => JStr (uuid4 Es (uuids c))
                      end)) as [h|e] eqn:Hh.
  - rewrite (create_task_stored Es kvs d ra c h Hh). simpl.
    apply values_put; [exact Hok|].
    repeat split; simpl; try discriminate. constructor.
  - unfold BaseAgent._create_task.
    erewrite bind_ok by (unfold lift, new_uuid; simpl; reflexivity); cbv beta.
    erewrite bind_ok by (unfold pure; rewrite py_get_obj; reflexivity); cbv beta.
    erewrite bind_ok by (unfold pure; rewrite py_get_obj; reflexivity); cbv beta.
    erewrite bind_ok by
      (unfold lift, Task.init, bind, utcnow, ret; simpl; reflexivity); cbv beta.
    erewrite bind_ok by reflexivity; cbv beta.
    erewrite bind_raise by
      (unfold pure, PyDict.setitem; simpl tasks; rewrite Hh; reflexivity).
    exact Hok.
Qed.

Lemma values_at_rest_send_task_message (params : json) (a : agent) :
  Forall task_at_rest (PyDict.values (tasks a)) ->
  Forall task_at_rest
    (PyDict.values (tasks (snd (BaseAgent._send_task_message Es handle_task params a)))).
Proof.
  intros Hok. destruct a as [d ra c].
  destruct (send_task_message_cases Es handle_task params d ra c)
    as [[e He]|(kvs & task_id & h & t & role & content & -> & Hid & Htr & Hh & Hf & Hrole & Hc)].
  - rewrite He. exact Hok.
  - rewrite (send_task_message_processed Es handle_task kvs d ra c task_id content
               h t role Hid Htr Hh Hf Hrole Hc).
    simpl. apply values_replace; [exact Hok|].
    apply task_after_send_at_rest.
    simpl in Hok. rewrite Forall_forall in Hok. apply Hok.
    apply (find_in_values h). assumption.
Qed.

Lemma reachable_values_at_rest (a : agent) :
  reachable Es handle_task a -> Forall task_at_rest (PyDict.values (tasks a)).
Proof.
  induction 1 as [|params a _ IH|params a _ IH].
  - constructor.
  - apply values_at_rest_create_task. assumption.
  - apply values_at_rest_send_task_message. assumption.
Qed.

Lemma Task_decodes_at_rest (E : env) (t : Task.t) (c : counters) :
  task_at_rest t ->
  Task.from_dict E (Task.to_dict t) c = (Ok (decoded_task t), tick 1 c).
Proof.
  intros (_ & Hts & Hca & Hua & _). apply Task_decodes_exact; assumption.
Qed.

Lemma tasks_decode_at_rest (E : env) (l : list Task.t) (c : counters) :
  Forall task_at_rest l ->
  map_st (Task.from_dict E) (map Task.to_dict l) c =
  (Ok (map decoded_task l), tick (length l) c).
Proof.
  intros Hl. revert c. induction Hl as [|t l Ht _ IH]; intros c; simpl.
  - destruct c; reflexivity.
  - unfold bind. rewrite (Task_decodes_at_rest E t c Ht), IH.
    unfold ret, tick. simpl. rewrite Nat.add_succ_r. reflexivity.
Qed.

(** X22.  The client's readers against an agent with the standard methods,
    in any state the agent reaches: [get_agent_card] returns the agent's
    card, [get_task] returns the stored task of that id, and [list_tasks]
    returns every stored task, in the order of the store; each as decoding
    leaves it. *)
Theorem client_reads_against_agent (self : A2AClient.client) (a : agent) :
  reachable Es handle_task a ->
  (connected Ec Es (standard_methods Es handle_task card) self
     (request_of self "getAgentCard" JNull) a ->
   fst (A2AClient.get_agent_card Ec self) = Ok (decoded_card card)) /\
  (forall tid h t,
     truthy tid = true -> hash_key tid = Ok h ->
     PyDict.find h (tasks a) = Some t ->
     connected Ec Es (standard_methods Es handle_task card) self
       (request_of self "getTask" (JObj [("task_id", tid)])) a ->
     fst (A2AClient.get_task Ec tid self) = Ok (decoded_task t)) /\
  (connected Ec Es (standard_methods Es handle_task card) self
     (request_of self "listTasks" JNull) a ->
   fst (A2AClient.list_tasks Ec self) =
     Ok (map decoded_task (PyDict.values (tasks a)))).
Proof.
  intros Hreach.
  pose proof (reachable_values_at_rest a Hreach) as Hall.
  split; [|split].
  - intros Hnet. unfold A2AClient.get_agent_card.
    erewrite bind_ok.
    2:{ eapply (call_method_returns Ec Es
                  (standard_methods Es handle_task card) "getAgentCard" JNull self a a
                  (BaseAgent._get_agent_card card)).
        - rewrite standard_methods_entries. reflexivity.
        - reflexivity.
        - exact Hnet. }
    cbv beta. unfold pure. rewrite AgentCard_decodes. reflexivity.
  - intros tid h t Htr Hh Hf Hnet. unfold A2AClient.get_task.
    erewrite bind_ok.
    2:{ eapply (call_method_returns Ec Es
                  (standard_methods Es handle_task card) "getTask" _ self a a
                  (BaseAgent._get_task Es)).
        - rewrite standard_methods_entries. reflexivity.
        - apply (get_task_found Es [("task_id", tid)] a tid h t);
            [reflexivity|assumption..].
        - exact Hnet. }
    cbv beta. unfold A2AClient.lift.
    rewrite Task_decodes_at_rest; [reflexivity|].
    rewrite Forall_forall in Hall. apply Hall. apply (find_in_values h). assumption.
  - intros Hnet. unfold A2AClient.list_tasks.
    erewrite bind_ok.
    2:{ eapply (call_method_returns Ec Es
                  (standard_methods Es handle_task card) "listTasks" JNull self a a
                  BaseAgent._list_tasks).
        - rewrite standard_methods_entries. reflexivity.
        - reflexivity.
        - exact Hnet. }
    cbv beta.
    erewrite bind_ok by reflexivity. cbv beta.
    erewrite bind_ok by reflexivity. cbv beta.
    unfold A2AClient.lift. rewrite (tasks_decode_at_rest Ec _ _ Hall). reflexivity.
Qed.

End ClientReads.

(* ================================================================== *)
(** * Registration and routing *)
(* ================================================================== *)

Section Routing.

Variable E : env.

Lemma join_keys_names (names : list string) :
  OrchestratorAgent.join_keys ", " (map JStr names) = Ok (join ", " names).
Proof.
  unfold OrchestratorAgent.join_keys.
  assert (Hm : map_outcome
                 (fun v => match v with
                           | JStr s => Ok s
                           | _ => Raise (TypeError "join" v)
                           end) (map JStr names) = Ok names).
  { induction names as [|n l IH]; simpl; [reflexivity|]. rewrite IH. reflexivity. }
  rewrite Hm. reflexivity.
Qed.

(** X23.  A content that matches the keywords of one agent only, or of both
    while the other agent is not registered, is delegated to that agent
    alone: the answer is the agent's label and what the delegation
    returned, with no blank line and no second section. *)
Theorem route_matches_one (content prefix : string) (card : AgentCard.t) (a : agent) :
  (OrchestratorAgent.any_word_in OrchestratorAgent.calculator_words content = true /\
   PyDict.find (HStr "CalculatorAgent") (registered_agents a) = Some card /\
   (OrchestratorAgent.any_word_in OrchestratorAgent.translator_words content = false \/
    PyDict.find (HStr "TranslatorAgent") (registered_agents a) = None) /\
   prefix = "Calculator: ") \/
  (OrchestratorAgent.any_word_in OrchestratorAgent.translator_words content = true /\
   PyDict.find (HStr "TranslatorAgent") (registered_agents a) = Some card /\
   (OrchestratorAgent.any_word_in OrchestratorAgent.calculator_words content = false \/
    PyDict.find (HStr "CalculatorAgent") (registered_agents a) = None) /\
   prefix = "Translator: ") ->
  exists v a',
    OrchestratorAgent._delegate_to_agent E card content a = (Ok v, a') /\
    OrchestratorAgent._orchestrate_task E content a =
      (Ok (JStr (prefix ++ py_str E v)), a').
Proof.
  intros H.
  destruct (delegate_returns E card content a) as [v Hv].
  destruct (delegate_io_only E card content a) as [_ Hreg].
  destruct (OrchestratorAgent._delegate_to_agent E card content a) as [r a'] eqn:Hd.
  simpl in Hv, Hreg. subst r. exists v, a'. split; [reflexivity|].
  unfold OrchestratorAgent._orchestrate_task.
  destruct H as [(Hw & Hf & Hother & ->)|(Hw & Hf & Hother & ->)].
  - erewrite bind_ok by (eapply route_to_delegates; eassumption). cbv beta.
    rewrite <- Hreg in Hother.
    erewrite bind_ok by (apply route_to_skips; exact Hother). cbv beta.
    reflexivity.
  - erewrite bind_ok by (apply route_to_skips; exact Hother). cbv beta.
    erewrite bind_ok by (eapply route_to_delegates; eassumption). cbv beta.
    reflexivity.
Qed.

(** X24.  A keyword match counts only when the agent is registered under
    the literal name: when each keyword set either does not match or names
    an agent that is not registered, the answer is the one for no match at
    all, the list of the registered names, and no request is made. *)
Theorem route_unregistered_falls_through (content : string) (names : list string)
    (a : agent) :
  OrchestratorAgent.any_word_in OrchestratorAgent.calculator_words content = false \/
  PyDict.find (HStr "CalculatorAgent") (registered_agents a) = None ->
  OrchestratorAgent.any_word_in OrchestratorAgent.translator_words content = false \/
  PyDict.find (HStr "TranslatorAgent") (registered_agents a) = None ->
  PyDict.keys (registered_agents a) = map JStr names ->
  OrchestratorAgent._orchestrate_task E content a =
  (Ok (JStr ("I'm not sure which agent can handle this task. Available agents: "
             ++ join ", " names)), a).
Proof.
  intros Hc Ht Hk. unfold OrchestratorAgent._orchestrate_task.
  erewrite bind_ok by (apply route_to_skips; exact Hc). cbv beta.
  erewrite bind_ok by (apply route_to_skips; exact Ht). cbv beta.
  simpl app. cbv iota.
  unfold bind, get_registered_agents, pure. simpl.
  rewrite Hk, join_keys_names. reflexivity.
Qed.


Lemma append_assoc (a b c : string) : ((a ++ b) ++ c = a ++ b ++ c)%string.
Proof. induction a as [|x a IH]; simpl; congruence. Qed.

Lemma append_nil_r (a : string) : (a ++ EmptyString)%string = a.
Proof. induction a as [|x a IH]; simpl; congruence. Qed.

Lemma starts_with_app_both (a p s : string) :
  starts_with (a ++ p) (a ++ s) = starts_with p s.
Proof.
  induction a as [|c a IH]; simpl; [reflexivity|].
  rewrite Ascii.eqb_refl. assumption.
Qed.

Lemma str_in_within (p s a b : string) :
  str_in p s = true -> str_in p (a ++ s ++ b) = true.
Proof.
  intros H. destruct (str_in_inv _ _ H) as (x & y & ->).
  rewrite !append_assoc, <- (append_assoc a x). apply str_in_app.
Qed.

Lemma str_in_skip (p a s : string) :
  str_in p s = true -> str_in p (a ++ s) = true.
Proof.
  intros H. rewrite <- (append_nil_r s). apply str_in_within. assumption.
Qed.

Lemma str_in_before (p s b : string) :
  str_in p s = true -> str_in p (s ++ b) = true.
Proof. intros H. apply (str_in_within p s EmptyString b). assumption. Qed.

Lemma str_in_cons (p s : string) (c : ascii) :
  str_in p s = true -> str_in p (String c s) = true.
Proof. intros H. simpl. rewrite H. apply orb_true_r. Qed.

Lemma concat_in (x : string) (l : list string) :
  In x l -> exists a b, String.concat EmptyString l = (a ++ x ++ b)%string.
Proof.
  induction l as [|y l IH]; intros Hin; [contradiction|].
  destruct Hin as [->|Hin].
  - exists EmptyString. destruct l as [|z l]; simpl.
    + exists EmptyString. symmetry. apply append_nil_r.
    + eexists. reflexivity.
  - destruct (IH Hin) as (a & b & Heq). destruct l as [|z l]; [contradiction|].
    exists (y ++ a)%string, b.
    change (String.concat EmptyString (y :: z :: l))
      with (y ++ String.concat EmptyString (z :: l))%string.
    rewrite Heq, append_assoc. reflexivity.
Qed.

Lemma str_in_concat (p x : string) (l : list string) :
  In x l -> str_in p x = true -> str_in p (String.concat EmptyString l) = true.
Proof.
  intros Hin Hp. destruct (concat_in x l Hin) as (a & b & ->).
  apply str_in_within. assumption.
Qed.

Ltac starts_with_prefix :=
  repeat (simpl; rewrite ?append_assoc, ?starts_with_app_both);
  first [reflexivity | apply starts_with_app].

Ltac find_substring :=
  first
    [ solve [apply str_in_starts; starts_with_prefix]
    | apply str_in_cons; find_substring
    | progress cbn [append]; find_substring
    | apply str_in_skip; find_substring ].

(** X25.  With a registry that is not empty, the listing counts the
    registered agents in its first line and mentions every one of them: its
    name between asterisks, its description, and each of its skills with
    name and description.  The registry is only read. *)
Theorem list_agents_mentions_every_agent (a : agent) (k : json) (card : AgentCard.t) :
  In (k, card) (registered_agents a) ->
  exists text,
    OrchestratorAgent._list_agents E a = (Ok (JStr text), a) /\
    starts_with ("I have access to "
                 ++ py_str E (JInt (Z.of_nat (length (registered_agents a))))
                 ++ " agent(s):") text = true /\
    str_in ("**" ++ py_str E k ++ "**") text = true /\
    str_in ("Description: " ++ py_str E (AgentCard.description card)) text = true /\
    forall skill, In skill (AgentCard.skills card) ->
      str_in ("- " ++ py_str E (Skill.name skill) ++ ": "
              ++ py_str E (Skill.description skill)) text = true.
Proof.
  intros Hin. unfold OrchestratorAgent._list_agents, bind, get_registered_agents.
  destruct (registered_agents a) as [|item d] eqn:Hd; [contradiction|].
  rewrite <- Hd in *. clear Hd item d.
  eexists. split; [reflexivity|].
  set (skill_line := fun skill : Skill.t =>
         ("    - " ++ py_str E (Skill.name skill) ++ ": "
          ++ py_str E (Skill.description skill) ++ nl)%string).
  set (entry := fun item : json * AgentCard.t =>
         let '(agent_name, agent_card) := item in
         ("**" ++ py_str E agent_name ++ "**" ++ nl
          ++ "  Description: " ++ py_str E (AgentCard.description agent_card) ++ nl
          ++ "  Skills:" ++ nl
          ++ String.concat EmptyString (map skill_line (AgentCard.skills agent_card))
          ++ nl)%string).
  assert (Hentry : forall p h, str_in p (entry (k, card)) = true ->
            str_in p (h ++ String.concat EmptyString (map entry (registered_agents a)))
            = true).
  { intros p h Hp. apply str_in_skip.
    apply (str_in_concat p (entry (k, card))); [|assumption].
    apply in_map. assumption. }
  split; [|split; [|split]].
  - starts_with_prefix.
  - apply Hentry. unfold entry. find_substring.
  - apply Hentry. unfold entry. find_substring.
  - intros skill Hs. apply Hentry. unfold entry.
    do 9 apply str_in_skip. apply str_in_before.
    apply (str_in_concat _ (skill_line skill)); [apply in_map; assumption|].
    unfold skill_line. find_substring.
Qed.

End Routing.

(* ================================================================== *)
(** * Registration of a live agent *)
(* ================================================================== *)

Section Registration.

Variable Eo : env.
Variable Es : env.
Variable handle_task : json -> TaskMessage.t -> outcome json.
Variable card : AgentCard.t.

(** X26.  Registering an agent that answers with the standard methods
    stores the agent's card, as decoding leaves it, under the card's name,
    prints a line and returns [True].  When that print raises, the card
    stays stored and the [except] clause decides: [False], or the exception
    of its own print.  When the name cannot be a key, nothing is stored and
    the [except] clause decides as well.  It costs one request, and the
    registered agent is left as it was. *)
Theorem register_against_agent (agent_url : json) (o a : agent) :
  let req := OrchestratorAgent.request_dict "getAgentCard" JNull 1 in
  let n := S (posts (io o)) in
  let after_request :=
    {| ticks := ticks (io o); uuids := uuids (io o); posts := n |} in
  http_post Eo (posts (io o)) agent_url req =
    loopback Es (standard_methods Es handle_task card) req a ->
  OrchestratorAgent.register_agent Eo agent_url o =
  (match hash_key (AgentCard.name card) with
   | Ok h =>
       (match stdout_write Eo n
                ("Registered agent: " ++ py_str Eo (AgentCard.name card)) with
        | Ok _ => Ok true
        | Raise e => reported Eo n agent_url e
        end,
        {| tasks := tasks o;
           registered_agents :=
             PyDict.put h (AgentCard.name card) (decoded_card card)
               (registered_agents o);
           io := after_request |})
   | Raise e =>
       (reported Eo n agent_url e,
        {| tasks := tasks o; registered_agents := registered_agents o;
           io := after_request |})
   end) /\
  served Es (standard_methods Es handle_task card) req a = a.
Proof.
  intros req n after_request Hnet. destruct o as [od ora oc].
  cbn [tasks registered_agents io] in *.
  destruct (loopback_returns Es (standard_methods Es handle_task card)
              (JSONRPCRequest.mk (JStr "getAgentCard") JNull (JInt 1) (JStr "2.0"))
              "getAgentCard" a a (BaseAgent._get_agent_card card)
              (AgentCard.to_dict card) eq_refl eq_refl eq_refl) as [Hl Hs].
  fold (OrchestratorAgent.request_dict "getAgentCard" JNull 1) in Hl, Hs.
  fold req in Hl, Hs. split; [|exact Hs].
  rewrite Hl in Hnet. clear Hl Hs.
  unfold OrchestratorAgent.register_agent, try_except.
  unfold bind at 1, lift at 1, requests_post at 1. cbn [io posts].
  fold req. rewrite Hnet. cbn [status_code json_body].
  change (200 =? 200)%Z with true. cbv iota.
  unfold bind at 1, pure at 1.
  unfold bind at 1, pure at 1.
  change (py_in_str "result" (JSONRPCResponse.to_dict ?r)) with (Ok true).
  cbv iota.
  unfold bind at 1, pure at 1.
  change (py_getitem (JSONRPCResponse.to_dict ?r) "result")
    with (Ok (AgentCard.to_dict card)).
  cbv iota.
  unfold bind at 1, pure at 1. rewrite AgentCard_decodes.
  fold (decoded_card card).
  unfold bind at 1, get_registered_agents at 1. cbv beta iota.
  unfold bind at 1, pure at 1, PyDict.setitem.
  change (AgentCard.name (decoded_card card)) with (AgentCard.name card).
  unfold reported.
  destruct (hash_key (AgentCard.name card)) as [h|e].
  - unfold bind at 1, set_registered_agents at 1. cbv beta iota.
    unfold bind, lift, py_print, ret. cbn [io posts tasks registered_agents].
    fold n. destruct (stdout_write Eo n _) as [[]|e]; [reflexivity|].
    cbv beta iota. cbn [io posts tasks registered_agents].
    destruct (stdout_write Eo _ _) as [[]|e']; reflexivity.
  - cbv beta iota. unfold bind, lift, py_print, ret.
    cbn [io posts tasks registered_agents]. fold n.
    destruct (stdout_write Eo n _) as [[]|e']; reflexivity.
Qed.

End Registration.

(* ================================================================== *)
(** * The client's URL *)
(* ================================================================== *)

Lemma chars_of_chars (l : list ascii) : chars (of_chars l) = l.
Proof. induction l as [|c l IH]; simpl; congruence. Qed.

Lemma lstrip_slashes_head (l l' : list ascii) (c : ascii) :
  A2AClient.lstrip_slashes l = c :: l' -> c <> "/"%char.
Proof.
  induction l as [|x l IH]; simpl; [discriminate|].
  destruct (x =? "/")%char eqn:Hx; [assumption|].
  intros H. inversion H. subst. intros ->. discriminate.
Qed.

Lemma lstrip_slashes_split (l : list ascii) :
  exists n, l = repeat "/"%char n ++ A2AClient.lstrip_slashes l.
Proof.
  induction l as [|x l [n IH]]; simpl.
  - exists 0. reflexivity.
  - destruct (x =? "/")%char eqn:Hx.
    + apply Ascii.eqb_eq in Hx. subst x. exists (S n). simpl. congruence.
    + exists 0. reflexivity.
Qed.

Lemma rev_repeat_same {A} (x : A) (n : nat) : rev (repeat x n) = repeat x n.
Proof.
  induction n as [|n IH]; simpl; [reflexivity|].
  rewrite IH. symmetry. apply repeat_cons.
Qed.

(** X27.  A new client holds the URL it was given without its trailing
    slashes: the argument is the URL kept followed by slashes only, and
    the URL kept does not end with a slash.  So one more slash at the end
    of the argument makes no difference.  The client starts with the
    counters of its process untouched, and its first request id will
    be 1. *)
Theorem client_url_has_no_trailing_slash (agent_url : string) (c : counters) :
  (exists url n,
     A2AClient.init agent_url c =
       {| A2AClient.agent_url := JStr url; A2AClient._request_id := 0;
          A2AClient.cio := c |} /\
     agent_url = (url ++ slashes n)%string /\
     forall t, url <> (t ++ "/")%string) /\
  A2AClient.init (agent_url ++ "/") c = A2AClient.init agent_url c /\
  fst (A2AClient._next_id (A2AClient.init agent_url c)) = Ok 1%Z.
Proof.
  split; [|split].
  - destruct (lstrip_slashes_split (rev (chars agent_url))) as [n Hn].
    exists (A2AClient.rstrip_slash agent_url), n.
    split; [reflexivity|]. split.
    + unfold A2AClient.rstrip_slash, slashes.
      rewrite <- of_chars_app, <- (rev_repeat_same "/"%char n), <- rev_app_distr.
      rewrite <- Hn, rev_involutive, of_chars_chars. reflexivity.
    + intros t Heq. unfold A2AClient.rstrip_slash in Heq.
      apply (f_equal chars) in Heq.
      rewrite chars_of_chars, chars_app in Heq. apply (f_equal (@rev ascii)) in Heq.
      rewrite rev_involutive, rev_app_distr in Heq. simpl in Heq.
      apply lstrip_slashes_head in Heq. congruence.
  - unfold A2AClient.init, A2AClient.rstrip_slash.
    rewrite chars_app, rev_app_distr. reflexivity.
  - reflexivity.
Qed.


(* ================================================================== *)
(** * The translator *)
(* ================================================================== *)

Section Translator.

Variable E : env.

Lemma str_lookup_in {V} (k : string) (d : list (string * V)) (v : V) :
  str_lookup k d = Some v -> In v (map snd d).
Proof.
  induction d as [|[k' w] d IH]; simpl; [discriminate|].
  destruct (k' =? k)%string.
  - intros H. inversion H. auto.
  - auto.
Qed.

(** Every row of the vocabulary has the three languages. *)
Lemma vocabulary_rows_complete (row : list (string * string)) (lang : string) :
  In row (map snd TranslatorAgent.TRANSLATIONS) ->
  In lang TranslatorAgent.languages ->
  exists translation, TranslatorAgent.translation_of row lang = Ok translation.
Proof.
  intros Hrow Hlang. simpl in Hrow, Hlang.
  repeat (destruct Hrow as [<-|Hrow]; [
    repeat (destruct Hlang as [<-|Hlang]; [eexists; reflexivity|]); contradiction|]).
  contradiction.
Qed.

Lemma partial_match_returns (items : list (string * list (string * string)))
    (text text_lower lang : string) :
  (forall row, In row (map snd items) ->
               In row (map snd TranslatorAgent.TRANSLATIONS)) ->
  In lang TranslatorAgent.languages ->
  exists reply,
    TranslatorAgent.partial_match items text text_lower lang = Ok reply.
Proof.
  intros Hsub Hlang. induction items as [|[phrase row] items IH].
  - eexists. reflexivity.
  - simpl. destruct (str_in phrase text_lower).
    + destruct (vocabulary_rows_complete row lang) as [tr Htr];
        [apply Hsub; left; reflexivity|assumption|].
      rewrite Htr. eexists. reflexivity.
    + apply IH. intros r Hr. apply Hsub. right. assumption.
Qed.

Lemma translate_returns (text lang : string) :
  exists reply, TranslatorAgent._translate text lang = Ok reply.
Proof.
  unfold TranslatorAgent._translate.
  destruct (existsb (String.eqb lang) TranslatorAgent.languages) eqn:Hl;
    [|eexists; reflexivity].
  assert (Hin : In lang TranslatorAgent.languages).
  { apply existsb_exists in Hl. destruct Hl as (x & Hx & Heq).
    apply String.eqb_eq in Heq. subst x. assumption. }
  cbv beta iota delta [negb].
  destruct (str_lookup (strip (lower text)) TranslatorAgent.TRANSLATIONS)
    as [row|] eqn:Hrow.
  - destruct (vocabulary_rows_complete row lang) as [tr Htr];
      [apply (str_lookup_in _ _ _ Hrow)|assumption|].
    rewrite Htr. eexists. reflexivity.
  - apply partial_match_returns; [auto|assumption].
Qed.

Lemma translator_returns (task_id : json) (message : TaskMessage.t) (s : string) :
  TaskMessage.content message = JStr s ->
  exists reply, TranslatorAgent.handle_task task_id message = Ok (JStr reply).
Proof.
  intros Hc. unfold TranslatorAgent.handle_task. rewrite Hc.
  destruct (str_in "translate" (strip (lower s)) && str_in " to " (strip (lower s)));
    [|eexists; reflexivity].
  destruct (split " to " (strip (lower s))) as [|p0 [|p1 [|p2 l]]];
    try (eexists; reflexivity).
  destruct (translate_returns (strip (remove "translate" p0)) (strip p1)) as [r Hr].
  rewrite Hr. eexists. reflexivity.
Qed.

(** X28.  The translator never fails on a text: for every string content
    its domain handler returns a string (every row of the vocabulary holds
    all three languages, so no lookup misses), and so every processed
    message with a string content sent to a translator agent ends with the
    task completed and the handler's reply as its last message. *)
Theorem translator_task_completes (kvs : list (string * json)) (a : agent)
    (task_id : json) (s : string) (h : hkey) (t : Task.t) (role : MessageRole.t) :
  obj_lookup "task_id" kvs = Some task_id ->
  truthy task_id = true ->
  hash_key task_id = Ok h ->
  PyDict.find h (tasks a) = Some t ->
  MessageRole.of_value
    (match obj_lookup "role" kvs with Some v => v | None => JStr "user" end)
    = Ok role ->
  obj_lookup "content" kvs = Some (JStr s) ->
  exists reply inbound stamp t' a',
    TranslatorAgent.handle_task task_id inbound = Ok (JStr reply) /\
    TaskMessage.content inbound = JStr s /\
    BaseAgent._send_task_message E TranslatorAgent.handle_task (JObj kvs) a =
      (Ok (Task.to_dict t'), a') /\
    PyDict.find h (tasks a') = Some t' /\
    Task.status t' = TaskStatus.COMPLETED /\
    Task.messages t' =
      Task.messages t ++
      [inbound; TaskMessage.mk MessageRole.AGENT (JStr reply) stamp JNull].
Proof.
  intros Hid Htr Hh Hf Hrole Hcontent. destruct a as [d ra c]. simpl in Hf.
  pose proof (send_task_message_processed E TranslatorAgent.handle_task kvs d ra c
                task_id (JStr s) h t role Hid Htr Hh Hf Hrole Hcontent) as Hrun.
  cbv zeta in Hrun.
  set (inbound := inbound_message E (ticks c) role (JStr s)
                    match obj_lookup "metadata" kvs with
                    | Some v => v
                    | None => JNull
                    end) in *.
  destruct (translator_returns task_id inbound s eq_refl) as [reply Hreply].
  rewrite Hreply in Hrun.
  exists reply, inbound. eexists. eexists. eexists.
  split; [exact Hreply|]. split; [reflexivity|].
  split; [exact Hrun|]. simpl.
  split; [apply find_replace_same; congruence|].
  split; reflexivity.
Qed.

(** X29.  The translator knows its vocabulary: a request in the documented
    format (after lower-casing and trimming) for any phrase of the table
    and any language of that phrase's row is answered with the phrase, the
    language and the translation the table holds. *)
Theorem translator_knows_its_vocabulary (task_id : json) (message : TaskMessage.t)
    (s phrase lang translation : string) (row : list (string * string)) :
  TaskMessage.content message = JStr s ->
  strip (lower s) = ("translate " ++ phrase ++ " to " ++ lang)%string ->
  In (phrase, row) TranslatorAgent.TRANSLATIONS ->
  In (lang, translation) row ->
  TranslatorAgent.handle_task task_id message =
  Ok (JStr (dq ++ phrase ++ dq ++ " in " ++ lang ++ " is " ++ dq ++ translation ++ dq)).
Proof.
  intros Hc Hs Hrow Hlang. unfold TranslatorAgent.handle_task. rewrite Hc, Hs.
  clear Hc Hs. simpl in Hrow.
  repeat (destruct Hrow as [Hrow|Hrow]; [
    inversion Hrow; subst phrase row; clear Hrow; simpl in Hlang;
    repeat (destruct Hlang as [Hlang|Hlang]; [
      inversion Hlang; subst lang translation; vm_compute; reflexivity|]);
    contradiction|]).
  contradiction.
Qed.

Lemma length_append (a b : string) :
  String.length (a ++ b) = String.length a + String.length b.
Proof. induction a as [|c a IH]; simpl; congruence. Qed.

Lemma starts_with_app_short (p u v : string) :
  String.length p <= String.length u ->
  starts_with p (u ++ v) = starts_with p u.
Proof.
  revert u. induction p as [|c p IH]; intros u Hlen; [reflexivity|].
  destruct u as [|d u]; simpl in *; [lia|].
  rewrite IH by lia. reflexivity.
Qed.

Lemma str_in_suffix_false (p x s : string) :
  str_in p (x ++ s) = false -> str_in p s = false.
Proof.
  intros H. destruct (str_in p s) eqn:Hs; [|reflexivity].
  rewrite (str_in_skip p x s Hs) in H. discriminate.
Qed.

Lemma split_from_skip (sep x s : string) (cur : list ascii) :
  split_from sep (String.length x) cur (x ++ s) = split_from sep 0 cur s.
Proof. induction x as [|c x IH]; simpl; [reflexivity|assumption]. Qed.

Lemma split_no_separator (sep b : string) (cur : list ascii) :
  str_in sep b = false ->
  split_from sep 0 cur b = [(of_chars (rev cur) ++ b)%string].
Proof.
  revert cur. induction b as [|c b IH]; intros cur H.
  - simpl. rewrite append_nil_r. reflexivity.
  - change (str_in sep (String c b))
      with (starts_with sep (String c b) || str_in sep b) in H.
    apply orb_false_iff in H. destruct H as [Hstart Hrest].
    cbn [split_from]. rewrite Hstart, (IH _ Hrest). simpl.
    rewrite of_chars_app, append_assoc. reflexivity.
Qed.

Lemma split_at_first (sep a b : string) (c0 : ascii) (sep' : string)
    (cur : list ascii) :
  sep = String c0 sep' ->
  (forall x y c, a = (x ++ String c y)%string ->
                 starts_with sep (String c y ++ sep ++ b) = false) ->
  str_in sep b = false ->
  split_from sep 0 cur (a ++ sep ++ b) = [(of_chars (rev cur) ++ a)%string; b].
Proof.
  intros Hsep Hearly Hb. subst sep. revert cur Hearly.
  induction a as [|c a IH]; intros cur Hearly.
  - rewrite append_nil_r. cbn [append split_from].
    assert (Hst : starts_with (String c0 sep') (String c0 (sep' ++ b)) = true).
    { change (String c0 (sep' ++ b)) with (String c0 sep' ++ b)%string.
      apply starts_with_app. }
    rewrite Hst. f_equal.
    replace (String.length (String c0 sep') - 1) with (String.length sep')
      by (simpl; lia).
    rewrite split_from_skip, (split_no_separator _ b [] Hb). reflexivity.
  - pose proof (Hearly EmptyString a c eq_refl) as Hhead.
    cbn [append] in Hhead. cbn [append split_from]. rewrite Hhead.
    change (a ++ String c0 (sep' ++ b))%string
      with (a ++ String c0 sep' ++ b)%string.
    rewrite IH.
    + simpl. rewrite of_chars_app, append_assoc. reflexivity.
    + intros x y c1 Ha. apply (Hearly (String c x) y c1). rewrite Ha. reflexivity.
Qed.

Lemma split_to (a b : string) :
  str_in " to " (a ++ " to") = false ->
  str_in " to " b = false ->
  split " to " (a ++ " to " ++ b) = [a; b].
Proof.
  intros Ha Hb. unfold split.
  rewrite (split_at_first " to " a b " "%char "to " [] eq_refl); [reflexivity| |exact Hb].
  intros x y c Heq. subst a. rewrite append_assoc in Ha.
  apply str_in_suffix_false in Ha.
  change (str_in " to " (String c y ++ " to"))
    with (starts_with " to " (String c y ++ " to")
          || str_in " to " (y ++ " to")) in Ha.
  apply orb_false_iff in Ha. destruct Ha as [Hst _].
  change (String c y ++ " to " ++ b)%string
    with (String c y ++ (" to" ++ (" " ++ b)))%string.
  rewrite <- append_assoc, starts_with_app_short; [exact Hst|].
  rewrite length_append. simpl. lia.
Qed.

(** X30.  The translator reads a request at its only separator: when the
    lower-cased and trimmed content mentions [translate] and is a text, the
    separator [ to ] and a rest, with no earlier separator and none in the
    rest, the answer is the translation of the text (without the word
    [translate], trimmed) into the rest (trimmed); and when that rest is
    not one of the three languages, the answer says so, whatever the
    text. *)
Theorem translator_reads_one_separator (task_id : json) (message : TaskMessage.t)
    (s a b : string) :
  TaskMessage.content message = JStr s ->
  strip (lower s) = (a ++ " to " ++ b)%string ->
  str_in "translate" (a ++ " to " ++ b) = true ->
  str_in " to " (a ++ " to") = false ->
  str_in " to " b = false ->
  TranslatorAgent.handle_task task_id message =
    and_then (TranslatorAgent._translate (strip (remove "translate" a)) (strip b))
      (fun reply => Ok (JStr reply)) /\
  (existsb (String.eqb (strip b)) TranslatorAgent.languages = false ->
   TranslatorAgent.handle_task task_id message =
     Ok (JStr ("Unsupported language: " ++ strip b
               ++ ". I support spanish, french, and german."))).
Proof.
  intros Hc Hs Htr Ha Hb.
  assert (Hrun : TranslatorAgent.handle_task task_id message =
                 and_then (TranslatorAgent._translate
                             (strip (remove "translate" a)) (strip b))
                   (fun reply => Ok (JStr reply))).
  { unfold TranslatorAgent.handle_task. rewrite Hc, Hs, Htr.
    rewrite (str_in_app " to " a b). cbv beta iota delta [andb].
    rewrite (split_to a b Ha Hb). reflexivity. }
  split; [exact Hrun|].
  intros Hl. rewrite Hrun. unfold TranslatorAgent._translate. rewrite Hl.
  reflexivity.
Qed.

End Translator.


(* ================================================================== *)
(** * Examples *)
(* ================================================================== *)

(** [demo_agent] and [unnamed_agent] are what [createTask] makes of a new
    agent. *)
Example create_task_demo :
  BaseAgent._create_task demo_env (JObj [("task_id", JStr "t1")]) new_agent
    = (Ok (Task.to_dict demo_task), demo_agent) /\
  BaseAgent._create_task demo_env (JObj [("task_id", JStr EmptyString)]) new_agent
    = (Ok (Task.to_dict unnamed_task), unnamed_agent).
Proof. split; reflexivity. Qed.

(** Registration and routing against peers that answer. *)
Example register_and_route_demo :
  OrchestratorAgent.register_agent peers_env (JStr "http://localhost:5001") new_agent
    = (Ok true,
       {| tasks := [];
          registered_agents := [(JStr "CalculatorAgent", plain_card)];
          io := {| ticks := 0; uuids := 0; posts := 1 |} |}) /\
  fst (OrchestratorAgent.handle_task peers_env (JStr "t0")
         (TaskMessage.mk MessageRole.USER (JStr " Calculate 2 + 2 in Spanish")
            (JStr "2023-01-01T00:00:00Z") JNull) orchestrator_with_both)
    = Ok (JStr ("Calculator: done" ++ nl ++ nl ++ "Translator: done")) /\
  fst (OrchestratorAgent.handle_task demo_env (JStr "t0")
         (TaskMessage.mk MessageRole.USER (JStr "translate hello to french")
            (JStr "2023-01-01T00:00:00Z") JNull) orchestrator_with_both)
    = Ok (JStr "Translator: Error delegating to TranslatorAgent: connection refused").
Proof. repeat split. Qed.

(** C1, at a message for the task [t1]. *)
Lemma send_task_message_lifecycle_witness :
  exists t',
    fst (BaseAgent._send_task_message demo_env demo_handler
           (JObj [("task_id", JStr "t1"); ("content", JStr "hello")]) demo_agent)
      = Ok (Task.to_dict t') /\
    Task.status t' = TaskStatus.COMPLETED /\
    length (Task.messages t') = 2.
Proof.
  destruct (send_task_message_lifecycle demo_env demo_handler
              [("task_id", JStr "t1"); ("content", JStr "hello")]
              (tasks demo_agent) [] (io demo_agent)
              (JStr "t1") (JStr "hello") (HStr "t1") demo_task MessageRole.USER
              eq_refl eq_refl eq_refl eq_refl eq_refl eq_refl
              (ex_intro _ 0 (conj (le_n 1) eq_refl)))
    as (t' & a' & inbound & out & Hrun & _ & _ & _ & Hlen & _ & Hc & Hm & _).
  exists t'. split; [exact (f_equal fst Hrun)|].
  split; [|exact Hlen].
  unfold demo_handler in Hm. rewrite Hc in Hm. simpl in Hm. apply Hm.
Defined.

(** C1 as stated fails: a stored task whose id is the empty string cannot
    be sent a message (the call raises and the task stays pending, without
    messages), and neither can a task when the parameters lack [content] or
    carry an unknown [role]. *)
Lemma send_task_message_counterexample :
  PyDict.find (HStr EmptyString) (tasks unnamed_agent) = Some unnamed_task /\
  BaseAgent._send_task_message demo_env demo_handler
    (JObj [("task_id", JStr EmptyString); ("content", JStr "hello")]) unnamed_agent
    = (Raise (ValueError "Task '' not found"), unnamed_agent) /\
  Task.status unnamed_task = TaskStatus.PENDING /\
  Task.messages unnamed_task = [] /\
  BaseAgent._send_task_message demo_env demo_handler
    (JObj [("task_id", JStr "t1")]) demo_agent
    = (Raise (KeyError (JStr "content")), demo_agent) /\
  BaseAgent._send_task_message demo_env demo_handler
    (JObj [("task_id", JStr "t1"); ("content", JStr "hello"); ("role", JStr "tool")])
    demo_agent
    = (Raise (EnumError "MessageRole" (JStr "tool")), demo_agent).
Proof. repeat split. Qed.

(** C3, at a message for a task id the store does not know. *)
Lemma send_task_message_unknown_task_witness :
  exists resp,
    BaseAgent._handle_request demo_env
      (standard_methods demo_env demo_handler demo_card) send_to_missing_task demo_agent
      = (Ok resp, demo_agent) /\
    has_error resp = true /\
    has_result resp = false /\
    JSONRPCResponse.id resp = JInt 2.
Proof.
  apply (send_task_message_unknown_task demo_env demo_handler
           (standard_methods demo_env demo_handler demo_card)
           send_to_missing_task demo_agent); reflexivity.
Defined.

(** C10, at a [createTask] for the id of a completed task that holds two
    messages. *)
Lemma create_task_replaces_witness :
  BaseAgent._create_task demo_env
    (JObj [("task_id", JStr "t1"); ("metadata", JObj [("round", JInt 2)])])
    answered_agent
  = (Ok (Task.to_dict
           (Task.mk (JStr "t1") TaskStatus.PENDING [] (JObj [("round", JInt 2)])
              (JStr (clock demo_env 5)) (JStr (clock demo_env 5)))),
     {| tasks := [(JStr "t0", demo_task);
                  (JStr "t1",
                   Task.mk (JStr "t1") TaskStatus.PENDING []
                     (JObj [("round", JInt 2)])
                     (JStr (clock demo_env 5)) (JStr (clock demo_env 5)));
                  (JStr "t2", plain_task)];
        registered_agents := [];
        io := {| ticks := 6; uuids := 2; posts := 0 |} |}).
Proof.
  exact (proj1 (create_task_replaces demo_env
                  [("task_id", JStr "t1"); ("metadata", JObj [("round", JInt 2)])]
                  (tasks answered_agent) [] (io answered_agent)
                  (JStr "t1") (HStr "t1") answered_task eq_refl eq_refl eq_refl)).
Defined.



(** C5, at a [getTask] request for an unknown task. *)
Lemma dispatch_contract_witness :
  BaseAgent._handle_request demo_env
    (standard_methods demo_env demo_handler demo_card) get_missing_task new_agent
  = (Ok (JSONRPCResponse.mk (JInt 7) JNull
           (Some (JSONRPCError.mk (JInt (-32603))
                    (JStr "Task 'missing' not found") JNull))
           (JStr "2.0")), new_agent).
Proof.
  exact (dispatch_contract demo_env
           (standard_methods demo_env demo_handler demo_card)
           get_missing_task "getTask" new_agent eq_refl).
Defined.

(** C5 as stated fails: the text of the handler's exception ends up in the
    error's [message]; its [data] is [None]. *)
Lemma dispatch_counterexample :
  fst (BaseAgent._get_task demo_env (JObj [("task_id", JStr "missing")]) new_agent)
    = Raise (ValueError "Task 'missing' not found") /\
  fst (BaseAgent._handle_request demo_env
         (standard_methods demo_env demo_handler demo_card) get_missing_task new_agent)
    = Ok (JSONRPCResponse.mk (JInt 7) JNull
            (Some (JSONRPCError.mk (JInt INTERNAL_ERROR)
                     (JStr "Task 'missing' not found") JNull))
            (JStr "2.0")) /\
  JSONRPCError.data
    (JSONRPCError.mk (JInt INTERNAL_ERROR) (JStr "Task 'missing' not found") JNull)
    = JNull.
Proof. repeat split. Qed.

(** C2 as stated fails at construction: the constructor accepts a response
    with neither field set and one with both; only the encoding of the
    latter drops the result. *)
Lemma response_construction_counterexample :
  has_result response_with_neither = false /\
  has_error response_with_neither = false /\
  has_result response_with_both = true /\
  has_error response_with_both = true /\
  JSONRPCResponse.to_dict response_with_both
    = JObj [("jsonrpc", JStr "2.0"); ("id", JInt 1);
            ("error", JObj [("code", JInt (-32601));
                            ("message", JStr "Method not found")])].
Proof. repeat split. Qed.

(** C4, at a request, an error response, a card, a message and a task. *)
Lemma wire_roundtrip_witness :
  JSONRPCRequest.from_dict (JSONRPCRequest.to_dict get_missing_task)
    = Ok get_missing_task /\
  JSONRPCResponse.from_dict (JSONRPCResponse.to_dict error_response_value)
    = Ok error_response_value /\
  AgentCard.from_dict (AgentCard.to_dict plain_card) = Ok plain_card /\
  fst (TaskMessage.from_dict demo_env (TaskMessage.to_dict plain_message) no_io)
    = Ok plain_message /\
  fst (Task.from_dict demo_env (Task.to_dict plain_task) no_io) = Ok plain_task.
Proof.
  apply (wire_roundtrip demo_env no_io get_missing_task error_response_value
           plain_card plain_message plain_task).
  - right. reflexivity.
  - reflexivity.
  - split; [discriminate|reflexivity].
  - split; [discriminate|]. split; [discriminate|]. split; [reflexivity|].
    constructor; [|constructor]. split; [discriminate|reflexivity].
Defined.

(** C4 as stated fails: a message built without metadata holds [None]; its
    encoding carries the empty mapping, and so does the decoded message.
    A response with both fields set loses its result. *)
Lemma wire_roundtrip_counterexample :
  TaskMessage.metadata hello_message = JNull /\
  fst (TaskMessage.from_dict demo_env (TaskMessage.to_dict hello_message) no_io)
    = Ok (TaskMessage.mk MessageRole.USER (JStr "hello")
            (JStr "2023-01-01T00:00:00Z") (JObj [])) /\
  JSONRPCResponse.result response_with_both = JStr "ok" /\
  JSONRPCResponse.from_dict (JSONRPCResponse.to_dict response_with_both)
    = Ok (JSONRPCResponse.mk (JInt 1) JNull (Some not_found_error) (JStr "2.0")).
Proof. repeat split. Qed.

(** C7, at a message that asks for a calculation in Spanish, while the
    calculator answers [4] and the translator [cuatro]. *)
Lemma route_matches_both_witness :
  exists a1 a2,
    OrchestratorAgent._delegate_to_agent two_peers_env plain_card
      "calculate 2 + 2 in spanish" orchestrator_with_both = (Ok (JStr "4"), a1) /\
    OrchestratorAgent._delegate_to_agent two_peers_env translator_card
      "calculate 2 + 2 in spanish" a1 = (Ok (JStr "cuatro"), a2) /\
    OrchestratorAgent.handle_task two_peers_env (JStr "t1")
      (TaskMessage.mk MessageRole.USER (JStr "Calculate 2 + 2 in Spanish ")
         (JStr "2023-01-01T00:00:00Z") JNull) orchestrator_with_both
    = (Ok (JStr ("Calculator: 4" ++ nl ++ nl ++ "Translator: cuatro")), a2) /\
    OrchestratorAgent._orchestrate_task two_peers_env "calculate 2 + 2 in spanish"
      orchestrator_with_both
    = OrchestratorAgent.handle_task two_peers_env (JStr "t1")
        (TaskMessage.mk MessageRole.USER (JStr "Calculate 2 + 2 in Spanish ")
           (JStr "2023-01-01T00:00:00Z") JNull) orchestrator_with_both.
Proof.
  destruct (route_matches_both two_peers_env (JStr "t1")
              (TaskMessage.mk MessageRole.USER (JStr "Calculate 2 + 2 in Spanish ")
                 (JStr "2023-01-01T00:00:00Z") JNull)
              "Calculate 2 + 2 in Spanish " plain_card translator_card
              orchestrator_with_both eq_refl eq_refl eq_refl eq_refl eq_refl eq_refl)
    as (v1 & a1 & v2 & a2 & H1 & H2 & H3 & H4).
  assert (Hv1 : v1 = JStr "4").
  { vm_compute in H1. inversion H1. reflexivity. }
  subst v1.
  assert (Hv2 : v2 = JStr "cuatro").
  { assert (Ha1 : a1 = snd (OrchestratorAgent._delegate_to_agent two_peers_env
                              plain_card "calculate 2 + 2 in spanish"
                              orchestrator_with_both)).
    { vm_compute in H1. inversion H1. reflexivity. }
    rewrite Ha1 in H2. vm_compute in H2. inversion H2. reflexivity. }
  subst v2.
  exists a1, a2. split; [exact H1|]. split; [exact H2|]. split; [exact H3|exact H4].
Defined.

(** C9, at the message [list agents]. *)
Lemma list_agents_empty_registry_witness :
  exists text,
    OrchestratorAgent.handle_task demo_env (JStr "test-task")
      (TaskMessage.mk MessageRole.USER (JStr "list agents")
         (JStr "2023-01-01T00:00:00Z") JNull) new_agent
    = (Ok (JStr text), new_agent) /\
    str_in "no agents" (lower text) = true.
Proof.
  apply (list_agents_empty_registry demo_env (JStr "test-task")
           (TaskMessage.mk MessageRole.USER (JStr "list agents")
              (JStr "2023-01-01T00:00:00Z") JNull)
           "list agents" "list agents" new_agent);
    [reflexivity|reflexivity|left; reflexivity|reflexivity].
Defined.

(** X1, at a call without parameters on a new agent. *)
Lemma create_task_pending_witness :
  exists task a',
    BaseAgent._create_task demo_env (JObj []) new_agent = (Ok (Task.to_dict task), a') /\
    PyDict.find (HStr (uuid4 demo_env 0)) (tasks a') = Some task /\
    Task.status task = TaskStatus.PENDING /\
    Task.messages task = [] /\
    py_getitem (Task.to_dict task) "status" = Ok (JStr "pending") /\
    py_getitem (Task.to_dict task) "messages" = Ok (JArr []).
Proof.
  apply (create_task_pending demo_env [] new_agent (HStr (uuid4 demo_env 0))).
  reflexivity.
Defined.

(** X3, at the agent that holds the task [t1]. *)
Lemma reachable_store_ok_witness : store_ok demo_env demo_agent.
Proof.
  apply (reachable_store_ok demo_env demo_handler demo_agent).
  exact (reach_create demo_env demo_handler (JObj [("task_id", JStr "t1")])
           new_agent (reach_new demo_env demo_handler)).
Defined.

(** X4, at a greeting sent to the orchestrator that knows both agents. *)
Lemma route_matches_none_witness :
  OrchestratorAgent._orchestrate_task demo_env "hello there" orchestrator_with_both =
  (Ok (JStr "I'm not sure which agent can handle this task. Available agents: CalculatorAgent, TranslatorAgent"),
   orchestrator_with_both).
Proof.
  exact (route_matches_none demo_env "hello there"
           ["CalculatorAgent"; "TranslatorAgent"] orchestrator_with_both
           eq_refl eq_refl eq_refl).
Defined.

(** X6, at a [getTask] request for a task that is not stored. *)
Lemma route_dispatches_encoded_request_witness :
  exists resp a',
    BaseAgent._handle_request demo_env demo_methods get_missing_task new_agent
      = (Ok resp, a') /\
    BaseAgent.handle_jsonrpc demo_env demo_methods
      (Ok (JSONRPCRequest.to_dict get_missing_task)) new_agent
      = (Ok (200%Z, JSONRPCResponse.to_dict resp), a').
Proof.
  exact (route_dispatches_encoded_request demo_env demo_methods get_missing_task
           "getTask" new_agent eq_refl).
Defined.

(** X7, at a [getTask] request to the agent that holds the task [t1]. *)
Lemma reading_methods_change_nothing_witness :
  snd (BaseAgent._handle_request demo_env demo_methods get_missing_task demo_agent)
  = demo_agent.
Proof.
  exact (reading_methods_change_nothing demo_env demo_handler demo_card
           get_missing_task "getTask" demo_agent eq_refl (or_introl eq_refl)).
Defined.

(** X8, at a call without parameters on a new agent. *)
Lemma get_task_after_create_witness :
  exists v a1,
    BaseAgent._create_task demo_env (JObj []) new_agent = (Ok v, a1) /\
    BaseAgent._get_task demo_env (JObj [("task_id", JStr (uuid4 demo_env 0))]) a1
      = (Ok v, a1).
Proof.
  exact (get_task_after_create demo_env [] new_agent (HStr (uuid4 demo_env 0))
           eq_refl eq_refl).
Defined.

(** X9, at the message [hello] sent to the task [t1]. *)
Lemma get_task_after_send_witness :
  exists v a1,
    BaseAgent._send_task_message demo_env demo_handler
      (JObj [("task_id", JStr "t1"); ("content", JStr "hello")]) demo_agent
      = (Ok v, a1) /\
    BaseAgent._get_task demo_env (JObj [("task_id", JStr "t1")]) a1 = (Ok v, a1).
Proof.
  exact (get_task_after_send demo_env demo_handler
           [("task_id", JStr "t1"); ("content", JStr "hello")] demo_agent
           (JStr "t1") (JStr "hello") (HStr "t1") demo_task MessageRole.USER
           eq_refl eq_refl eq_refl eq_refl eq_refl eq_refl).
Defined.

(** X11, at a [createTask] whose [task_id] is an empty list. *)
Lemma create_task_unhashable_id_witness :
  BaseAgent._create_task demo_env (JObj [("task_id", JArr [])]) new_agent =
  (Raise (TypeError "unhashable" (JArr [])),
   {| tasks := []; registered_agents := [];
      io := {| ticks := 1; uuids := 1; posts := 0 |} |}).
Proof.
  exact (create_task_unhashable_id demo_env [("task_id", JArr [])] new_agent (JArr [])
           eq_refl (or_introl (ex_intro _ [] eq_refl))).
Defined.

(** X12, at a method [echo] that returns its parameters, registered on an
    agent without methods. *)
Lemma registered_method_is_dispatched_witness :
  BaseAgent._handle_request demo_env
    (BaseAgent.register_method [] "echo" (fun params => ret params))
    (JSONRPCRequest.mk (JStr "echo") (JObj [("x", JInt 1)]) (JInt 1) (JStr "2.0"))
    new_agent
  = (Ok (JSONRPCResponse.mk (JInt 1) (JObj [("x", JInt 1)]) None (JStr "2.0")),
     new_agent).
Proof.
  exact (proj1 (registered_method_is_dispatched demo_env [] "echo"
                  (fun params => ret params)
                  (JSONRPCRequest.mk (JStr "echo") (JObj [("x", JInt 1)]) (JInt 1)
                     (JStr "2.0"))
                  new_agent eq_refl)).
Defined.

(** X13, at the message [hello] sent twice to the task [t1]. *)
Lemma send_task_message_twice_witness :
  exists v1 a1 t2 a2 in1 out1 in2 out2,
    BaseAgent._send_task_message demo_env demo_handler
      (JObj [("task_id", JStr "t1"); ("content", JStr "hello")]) demo_agent
      = (Ok v1, a1) /\
    BaseAgent._send_task_message demo_env demo_handler
      (JObj [("task_id", JStr "t1"); ("content", JStr "hello")]) a1
      = (Ok (Task.to_dict t2), a2) /\
    PyDict.find (HStr "t1") (tasks a2) = Some t2 /\
    Task.messages t2 = Task.messages demo_task ++ [in1; out1; in2; out2] /\
    TaskMessage.content in1 = JStr "hello" /\
    TaskMessage.content in2 = JStr "hello" /\
    Task.status t2 = outcome_status (demo_handler (JStr "t1") in2) /\
    ticks (io a2) = 8 + ticks (io demo_agent).
Proof.
  exact (send_task_message_twice demo_env demo_handler
           [("task_id", JStr "t1"); ("content", JStr "hello")]
           [("task_id", JStr "t1"); ("content", JStr "hello")] demo_agent
           (JStr "t1") (JStr "hello") (JStr "hello") (HStr "t1") demo_task
           MessageRole.USER MessageRole.USER
           eq_refl eq_refl eq_refl eq_refl eq_refl eq_refl eq_refl eq_refl eq_refl).
Defined.

(** X14, at the agent that holds the task [t1]. *)
Lemma reachable_tasks_at_rest_witness : store_at_rest demo_agent.
Proof.
  apply (reachable_tasks_at_rest demo_env demo_handler demo_agent).
  exact (reach_create demo_env demo_handler (JObj [("task_id", JStr "t1")])
           new_agent (reach_new demo_env demo_handler)).
Defined.

(** X18, at a [getTask] call for a task the agent does not hold. *)
Lemma call_method_against_agent_witness :
  A2AClient._call_method (wired_env new_agent new_agent) "getTask"
    (JObj [("task_id", JStr "missing")]) demo_client =
  (Raise (External "RPC Error ...: Task 'missing' not found"),
   after_call demo_client) /\
  served demo_env demo_methods
    (JSONRPCRequest.to_dict
       (request_of demo_client "getTask" (JObj [("task_id", JStr "missing")])))
    new_agent = new_agent.
Proof.
  exact (call_method_against_agent (wired_env new_agent new_agent) demo_env
           demo_methods "getTask" (JObj [("task_id", JStr "missing")])
           demo_client new_agent eq_refl).
Defined.

(** X20, at the message [hello] sent by a new client to a new agent. *)
Lemma chat_new_task_against_agent_witness :
  A2AClient.chat (wired_env new_agent agent_with_new_task) (JStr "hello") JNull
    demo_client =
  (Ok (JStr "hello"), after_task_call (after_task_call demo_client)).
Proof.
  exact (chat_new_task_against_agent (wired_env new_agent agent_with_new_task)
           demo_env demo_handler demo_card (JStr "hello") JNull demo_client
           new_agent eq_refl eq_refl eq_refl eq_refl).
Defined.

(** X21, at the content [boom], on which the peer's handler raises. *)
Lemma delegate_against_agent_witness :
  OrchestratorAgent._delegate_to_agent (wired_env new_agent agent_with_new_task)
    plain_card "boom" orchestrator_with_both =
  (Ok (JStr "No response from agent"),
   {| tasks := [];
      registered_agents := registered_agents orchestrator_with_both;
      io := {| ticks := 0; uuids := 0; posts := 2 |} |}).
Proof.
  exact (delegate_against_agent (wired_env new_agent agent_with_new_task)
           demo_env demo_handler demo_card plain_card "boom"
           orchestrator_with_both new_agent eq_refl eq_refl eq_refl).
Defined.

(** X22, at the agent that holds the task [t1]. *)
Lemma client_reads_against_agent_witness :
  fst (A2AClient.get_agent_card (wired_env demo_agent demo_agent) demo_client)
    = Ok (decoded_card demo_card) /\
  fst (A2AClient.get_task (wired_env demo_agent demo_agent) (JStr "t1") demo_client)
    = Ok (decoded_task demo_task) /\
  fst (A2AClient.list_tasks (wired_env demo_agent demo_agent) demo_client)
    = Ok [decoded_task demo_task].
Proof.
  destruct (client_reads_against_agent (wired_env demo_agent demo_agent) demo_env
              demo_handler demo_card demo_client demo_agent
              (reach_create demo_env demo_handler (JObj [("task_id", JStr "t1")])
                 new_agent (reach_new demo_env demo_handler)))
    as (Hcard & Htask & Hlist).
  split; [exact (Hcard eq_refl)|].
  split; [exact (Htask (JStr "t1") (HStr "t1") demo_task eq_refl eq_refl eq_refl eq_refl)|].
  exact (Hlist eq_refl).
Defined.

(** X23, at a calculation sent to the orchestrator that knows both agents
    while no peer answers. *)
Lemma route_matches_one_witness :
  exists v a',
    OrchestratorAgent._delegate_to_agent demo_env plain_card "calculate 2 + 2"
      orchestrator_with_both = (Ok v, a') /\
    OrchestratorAgent._orchestrate_task demo_env "calculate 2 + 2"
      orchestrator_with_both
    = (Ok (JStr ("Calculator: " ++ py_str demo_env v)), a').
Proof.
  exact (route_matches_one demo_env "calculate 2 + 2" "Calculator: " plain_card
           orchestrator_with_both
           (or_introl (conj eq_refl (conj eq_refl (conj (or_introl eq_refl) eq_refl))))).
Defined.

(** X24, at a translation sent to an orchestrator that knows no agent. *)
Lemma route_unregistered_falls_through_witness :
  OrchestratorAgent._orchestrate_task demo_env "translate hello to french" new_agent =
  (Ok (JStr "I'm not sure which agent can handle this task. Available agents: "),
   new_agent).
Proof.
  exact (route_unregistered_falls_through demo_env "translate hello to french" []
           new_agent (or_introl eq_refl) (or_intror eq_refl) eq_refl).
Defined.

(** X25, at the calculator's card in the registry of both agents. *)
Lemma list_agents_mentions_every_agent_witness :
  exists text,
    OrchestratorAgent._list_agents demo_env orchestrator_with_both
      = (Ok (JStr text), orchestrator_with_both) /\
    starts_with "I have access to ... agent(s):" text = true /\
    str_in "**CalculatorAgent**" text = true /\
    str_in "Description: Performs calculations" text = true /\
    forall skill, In skill (AgentCard.skills plain_card) ->
      str_in ("- " ++ py_str demo_env (Skill.name skill) ++ ": "
              ++ py_str demo_env (Skill.description skill)) text = true.
Proof.
  exact (list_agents_mentions_every_agent demo_env orchestrator_with_both
           (JStr "CalculatorAgent") plain_card (or_introl eq_refl)).
Defined.

(** X26, at the agent of the examples, registered by a new orchestrator:
    in a process whose standard output works, and in one whose standard
    output refuses the line that names the agent. *)
Lemma register_against_agent_witness :
  (OrchestratorAgent.register_agent (wired_env new_agent new_agent)
     (JStr "http://localhost:5001") new_agent =
   (Ok true,
    {| tasks := [];
       registered_agents := [(JStr "DemoAgent", decoded_card demo_card)];
       io := {| ticks := 0; uuids := 0; posts := 1 |} |}) /\
   served demo_env demo_methods
     (OrchestratorAgent.request_dict "getAgentCard" JNull 1) new_agent = new_agent) /\
  (OrchestratorAgent.register_agent
     (with_stdout (wired_env new_agent new_agent) picky_stdout)
     (JStr "http://localhost:5001") new_agent =
   (Ok false,
    {| tasks := [];
       registered_agents := [(JStr "DemoAgent", decoded_card demo_card)];
       io := {| ticks := 0; uuids := 0; posts := 1 |} |}) /\
   served demo_env demo_methods
     (OrchestratorAgent.request_dict "getAgentCard" JNull 1) new_agent = new_agent).
Proof.
  split.
  - exact (register_against_agent (wired_env new_agent new_agent) demo_env
             demo_handler demo_card (JStr "http://localhost:5001") new_agent
             new_agent eq_refl).
  - exact (register_against_agent
             (with_stdout (wired_env new_agent new_agent) picky_stdout) demo_env
             demo_handler demo_card (JStr "http://localhost:5001") new_agent
             new_agent eq_refl).
Defined.

(** X28, at a request for a translation sent to the task [t1]. *)
Lemma translator_task_completes_witness :
  exists reply inbound stamp t' a',
    TranslatorAgent.handle_task (JStr "t1") inbound = Ok (JStr reply) /\
    TaskMessage.content inbound = JStr "translate hello to spanish" /\
    BaseAgent._send_task_message demo_env TranslatorAgent.handle_task
      (JObj [("task_id", JStr "t1"); ("content", JStr "translate hello to spanish")])
      demo_agent
    = (Ok (Task.to_dict t'), a') /\
    PyDict.find (HStr "t1") (tasks a') = Some t' /\
    Task.status t' = TaskStatus.COMPLETED /\
    Task.messages t' =
      Task.messages demo_task ++
      [inbound; TaskMessage.mk MessageRole.AGENT (JStr reply) stamp JNull].
Proof.
  exact (translator_task_completes demo_env
           [("task_id", JStr "t1"); ("content", JStr "translate hello to spanish")]
           demo_agent (JStr "t1") "translate hello to spanish" (HStr "t1") demo_task
           MessageRole.USER eq_refl eq_refl eq_refl eq_refl eq_refl eq_refl).
Defined.

(** X29, at a request for [thank you] in French, with capitals and a
    trailing blank. *)
Lemma translator_knows_its_vocabulary_witness :
  TranslatorAgent.handle_task (JStr "t1")
    (TaskMessage.mk MessageRole.USER (JStr "Translate Thank You to French ")
       (JStr "2023-01-01T00:00:00Z") JNull)
  = Ok (JStr (dq ++ "thank you" ++ dq ++ " in french is " ++ dq ++ "merci" ++ dq)).
Proof.
  exact (translator_knows_its_vocabulary (JStr "t1")
           (TaskMessage.mk MessageRole.USER (JStr "Translate Thank You to French ")
              (JStr "2023-01-01T00:00:00Z") JNull)
           "Translate Thank You to French " "thank you" "french" "merci"
           [("spanish", "gracias"); ("french", "merci"); ("german", "danke")]
           eq_refl eq_refl
           (or_intror (or_intror (or_introl eq_refl)))
           (or_intror (or_introl eq_refl))).
Defined.

(** X30, at a request for a language the translator does not have. *)
Lemma translator_reads_one_separator_witness :
  TranslatorAgent.handle_task (JStr "t1")
    (TaskMessage.mk MessageRole.USER (JStr "translate hello to japanese")
       (JStr "2023-01-01T00:00:00Z") JNull)
  = Ok (JStr "Unsupported language: japanese. I support spanish, french, and german.").
Proof.
  exact (proj2 (translator_reads_one_separator (JStr "t1")
                  (TaskMessage.mk MessageRole.USER (JStr "translate hello to japanese")
                     (JStr "2023-01-01T00:00:00Z") JNull)
                  "translate hello to japanese" "translate hello" "japanese"
                  eq_refl eq_refl eq_refl eq_refl eq_refl) eq_refl).
Defined.
